(** * OpenAudit: the freight audit engine, embedded and verified

    A shallow embedding of the detection core of OpenAudit
    ([audit_engine.py], [app.py]): surcharge canonicalization, residential
    triage, late-delivery and duplicate-tracking detection, the Additional
    Handling rule, the filing-window classifier and the orchestrator.

    Conventions of the embedding.
    - Text is [string] over 7-bit ASCII; [upper], [lower] and [strip] act on
      ASCII letters and ASCII white space as Python's [str] methods do.
    - A Python [float] that holds a number is a rational [Q] and arithmetic
      is exact; where the source can hand on a NaN the value is [PNaN].
    - A pandas [Timestamp] is a number of nanoseconds since 1970-01-01
      (naive, no time zone).
    - A [pd.Series] row is a list of (label, cell) pairs; a [DataFrame] is
      a list of rows carrying the same labels.
    - An exception is an outer [None]; a loop body that catches it and
      goes on ([except Exception: continue]) gives no finding instead.
    - What Python and pandas do with a text or a number outside the code of
      the repository ([float], [pd.to_numeric], [pd.to_datetime], [str],
      number formatting) is the [Runtime] the engine runs on; the
      theorems hold for every runtime. *)

From Stdlib Require Import Bool Arith ZArith QArith Qround Qabs Lia List.
From Stdlib Require Import Ascii String.
From Stdlib Require Import Permutation.
Import ListNotations.

Local Open Scope string_scope.
Local Open Scope bool_scope.

(** ** Python string methods *)

Module PyStr.

Definition code (c : ascii) : nat := nat_of_ascii c.

Definition between (lo hi : nat) (c : ascii) : bool :=
  (lo <=? code c)%nat && (code c <=? hi)%nat.

(** [str.isspace] on the ASCII range: TAB..CR, FS..US and SPACE. *)
Definition is_space (c : ascii) : bool :=
  between 9 13 c || between 28 32 c.

Definition is_digit (c : ascii) : bool := between 48 57 c.

Definition is_upper (c : ascii) : bool := between 65 90 c.

Definition is_lower (c : ascii) : bool := between 97 122 c.

(** [\w] on the ASCII range. *)
Definition is_word (c : ascii) : bool :=
  is_upper c || is_lower c || is_digit c || (code c =? 95)%nat.

Definition upper_char (c : ascii) : ascii :=
  if is_lower c then ascii_of_nat (code c - 32) else c.

Definition lower_char (c : ascii) : ascii :=
  if is_upper c then ascii_of_nat (code c + 32) else c.

Fixpoint map_chars (f : ascii -> ascii) (s : string) : string :=
  match s with
  | EmptyString => EmptyString
  | String c t => String (f c) (map_chars f t)
  end.

Definition upper : string -> string := map_chars upper_char.
Definition lower : string -> string := map_chars lower_char.

Fixpoint lstrip (s : string) : string :=
  match s with
  | String c t => if is_space c then lstrip t else s
  | EmptyString => EmptyString
  end.

(** [rstrip]: a character is dropped when it is white space and everything
    after it has been dropped. *)
Fixpoint rstrip (s : string) : string :=
  match s with
  | EmptyString => EmptyString
  | String c t =>
      match rstrip t with
      | EmptyString => if is_space c then EmptyString else String c EmptyString
      | t' => String c t'
      end
  end.

Definition strip (s : string) : string := rstrip (lstrip s).

(** [needle in hay] *)
Fixpoint contains (needle hay : string) : bool :=
  String.prefix needle hay ||
  match hay with
  | EmptyString => false
  | String _ t => contains needle t
  end.

Definition startswith (pre s : string) : bool := String.prefix pre s.

(** [s.replace(c, by)] for a one-character pattern. *)
Fixpoint replace_char (c : ascii) (by_ : string) (s : string) : string :=
  match s with
  | EmptyString => EmptyString
  | String d t =>
      if Ascii.eqb c d then by_ ++ replace_char c by_ t
      else String d (replace_char c by_ t)
  end.

(** [sep.join(parts)] *)
Fixpoint join (sep : string) (parts : list string) : string :=
  match parts with
  | [] => EmptyString
  | [p] => p
  | p :: rest => p ++ sep ++ join sep rest
  end.

(** [any(k in s for k in keys)] *)
Definition any_in (keys : list string) (s : string) : bool :=
  existsb (fun k => contains k s) keys.

(** Python truthiness of a [str]. *)
Definition nonempty (s : string) : bool :=
  match s with EmptyString => false | _ => true end.

End PyStr.

(** ** A backtracking matcher for the [re] patterns of the source

    The fragment is the one the source's patterns are written in.  The
    matcher explores alternatives in Python's order (left alternative
    first, greedy repetition), so the first success is the match [re]
    reports. *)

Module Re.

Inductive cset_item : Type :=
| CChar (c : ascii)
| CSpace
| CDigit.

Inductive regex : Type :=
| Eps
| Lit (c : ascii)
| Dot
| Cls (items : list cset_item)
| WordB
| Cat (r1 r2 : regex)
| Alt (r1 r2 : regex)
| Opt (r : regex)
| Star (r : regex).

Definition item_matches (c : ascii) (i : cset_item) : bool :=
  match i with
  | CChar d => Ascii.eqb c d
  | CSpace => PyStr.is_space c
  | CDigit => PyStr.is_digit c
  end.

(** a literal run of characters *)
Fixpoint Str (s : string) : regex :=
  match s with
  | EmptyString => Eps
  | String c EmptyString => Lit c
  | String c t => Cat (Lit c) (Str t)
  end.

Fixpoint Seq (rs : list regex) : regex :=
  match rs with
  | [] => Eps
  | [r] => r
  | r :: rest => Cat r (Seq rest)
  end.

Fixpoint Alts (rs : list regex) : regex :=
  match rs with
  | [] => Eps
  | [r] => r
  | r :: rest => Alt r (Alts rest)
  end.

(** [r{n}] *)
Fixpoint Rep (n : nat) (r : regex) : regex :=
  match n with
  | O => Eps
  | S O => r
  | S m => Cat r (Rep m r)
  end.

Definition Plus (r : regex) : regex := Cat r (Star r).
Definition Sp : regex := Cls [CSpace].        (* \s *)
Definition Dg : regex := Cls [CDigit].        (* \d *)
Definition Sps : regex := Star Sp.            (* \s* *)
Definition Any : regex := Star Dot.           (* .* *)

Definition word_opt (c : option ascii) : bool :=
  match c with Some x => PyStr.is_word x | None => false end.

Definition head (s : string) : option ascii :=
  match s with String c _ => Some c | EmptyString => None end.

Definition orelse {A} (x y : option A) : option A :=
  match x with Some _ => x | None => y end.

(** The loop of a greedy [r*]: one more round of [body] first, then the
    rest of the pattern.  A round has to use up input, so [fuel], the
    length of the input, bounds the rounds. *)
Fixpoint star_loop {A}
    (body : option ascii -> string -> (option ascii -> string -> option A) -> option A)
    (k : option ascii -> string -> option A)
    (fuel : nat) (p : option ascii) (t : string) : option A :=
  match fuel with
  | O => k p t
  | S f =>
      orelse
        (body p t (fun p' t' =>
           if (String.length t' <? String.length t)%nat
           then star_loop body k f p' t' else None))
        (k p t)
  end.

(** [run r prev s k]: match [r] at the front of [s], [prev] being the
    character before it, and hand what is left to [k]. *)
Fixpoint run {A} (r : regex) (prev : option ascii) (s : string)
    (k : option ascii -> string -> option A) : option A :=
  match r with
  | Eps => k prev s
  | Lit c =>
      match s with
      | String d t => if Ascii.eqb c d then k (Some d) t else None
      | EmptyString => None
      end
  | Dot =>
      match s with
      | String d t => if Ascii.eqb d "010" then None else k (Some d) t
      | EmptyString => None
      end
  | Cls items =>
      match s with
      | String d t => if existsb (item_matches d) items then k (Some d) t else None
      | EmptyString => None
      end
  | WordB =>
      if xorb (word_opt prev) (word_opt (head s)) then k prev s else None
  | Cat r1 r2 => run r1 prev s (fun p t => run r2 p t k)
  | Alt r1 r2 => orelse (run r1 prev s k) (run r2 prev s k)
  | Opt r1 => orelse (run r1 prev s k) (k prev s)
  | Star r1 =>
      star_loop (fun p t k' => run r1 p t k') k (String.length s) prev s
  end.

(** Try every start position from the left, as [re.search] does. *)
Fixpoint search_from {A} (r : regex) (prev : option ascii) (s : string)
    (k : option ascii -> string -> option A) : option A :=
  orelse (run r prev s k)
    match s with
    | EmptyString => None
    | String c t => search_from r (Some c) t k
    end.

(** [bool(re.search(pat, s))] *)
Definition search (r : regex) (s : string) : bool :=
  match search_from r None s (fun _ _ => Some tt) with
  | Some _ => true
  | None => false
  end.

(** The text a group matched: what was consumed between [s] and [rest]. *)
Definition consumed (s rest : string) : string :=
  String.substring 0 (String.length s - String.length rest) s.

(** [re.search(pre + '(' + grp + ')', s).group(1)] *)
Definition search_group (pre grp : regex) (s : string) : option string :=
  search_from pre None s
    (fun p t => run grp p t (fun _ rest => Some (consumed t rest))).

(** What it is for [r] to match at the front of a text: [matches r p s p' s']
    when [r] matches a prefix of [s] that follows the character [p] and
    leaves [s'], [p'] being the character before [s']. *)
Inductive matches : regex -> option ascii -> string -> option ascii -> string -> Prop :=
| MEps p s : matches Eps p s p s
| MLit c p s : matches (Lit c) p (String c s) (Some c) s
| MDot c p s : Ascii.eqb c "010" = false -> matches Dot p (String c s) (Some c) s
| MCls items c p s :
    existsb (item_matches c) items = true ->
    matches (Cls items) p (String c s) (Some c) s
| MWordB p s :
    xorb (word_opt p) (word_opt (head s)) = true -> matches WordB p s p s
| MCat r1 r2 p s p1 s1 p2 s2 :
    matches r1 p s p1 s1 -> matches r2 p1 s1 p2 s2 ->
    matches (Cat r1 r2) p s p2 s2
| MAltL r1 r2 p s p' s' : matches r1 p s p' s' -> matches (Alt r1 r2) p s p' s'
| MAltR r1 r2 p s p' s' : matches r2 p s p' s' -> matches (Alt r1 r2) p s p' s'
| MOptSome r p s p' s' : matches r p s p' s' -> matches (Opt r) p s p' s'
| MOptNone r p s : matches (Opt r) p s p s
| MStarStop r p s : matches (Star r) p s p s
| MStarStep r p s p1 s1 p2 s2 :
    matches r p s p1 s1 -> matches (Star r) p1 s1 p2 s2 ->
    matches (Star r) p s p2 s2.

(** the character before the rest of a text split in two *)
Fixpoint last_char (prev : option ascii) (pre : string) : option ascii :=
  match pre with
  | EmptyString => prev
  | String c t => last_char (Some c) t
  end.

(** [r] matches somewhere in [s] *)
Definition found (r : regex) (s : string) : Prop :=
  exists pre suf p' rest,
    s = (pre ++ suf)%string /\ matches r (last_char None pre) suf p' rest.

End Re.

(** ** Surcharge canonicalization ([check_disputable_surcharges], CANON and
    [canonize]) *)

Module Canon.
Import Re.

(** [AD(D'?|DL)?(ITIONAL)?\s*HANDLING] *)
Definition add_handling : regex :=
  Seq [Str "AD";
       Opt (Alt (Cat (Lit "D") (Opt (Lit "'"))) (Str "DL"));
       Opt (Str "ITIONAL"); Sps; Str "HANDLING"].

(** [[-\s]*] *)
Definition dash_spaces : regex := Star (Cls [CChar "-"; CSpace]).

(** [AD(D'?|DL)?(ITIONAL)?\s*HANDLING|AHS|NON[-\s]*MACHINABLE] *)
Definition additional_handling_pattern : regex :=
  Alts [add_handling; Str "AHS";
        Seq [Str "NON"; dash_spaces; Str "MACHINABLE"]].

(** [OVERSIZE|OVER\s*SIZE|LARGE\s*PACKAGE] *)
Definition oversize_pattern : regex :=
  Alts [Str "OVERSIZE"; Seq [Str "OVER"; Sps; Str "SIZE"];
        Seq [Str "LARGE"; Sps; Str "PACKAGE"]].

(** [PEAK\s*ADDITIONAL\s*HANDLING] *)
Definition peak_additional_handling_pattern : regex :=
  Seq [Str "PEAK"; Sps; Str "ADDITIONAL"; Sps; Str "HANDLING"].

(** [PEAK\s*OVERSIZE] *)
Definition peak_oversize_pattern : regex :=
  Seq [Str "PEAK"; Sps; Str "OVERSIZE"].

(** The ordered table, pattern by pattern as in the source. *)
Definition CANON : list (regex * string) :=
  [ (Seq [Str "ADDRESS"; Sps; Str "CORR"], "ADDRESS CORRECTION");
    (Alt (Seq [Str "DAS"; Any; Str "RES"; Opt (Str "IDENTIAL")])
         (Seq [Str "DELIVERY"; Sps; Str "AREA"; Any; Str "RES";
               Opt (Str "IDENTIAL")]),
     "DAS RESIDENTIAL");
    (Alt (Seq [WordB; Str "RES"; Alt Eps (Str "IDENTIAL"); WordB])
         (Seq [Str "RES"; Sps; Str "SURCHARGE"]),
     "RESIDENTIAL SURCHARGE");
    (Seq [Str "SAT"; Opt (Str "URDAY"); Sps; Str "DEL"; Opt (Str "IVERY")],
     "SATURDAY DELIVERY");
    (Seq [Str "SAT"; Opt (Str "URDAY"); Sps; Str "PICKUP"],
     "SATURDAY PICKUP");
    (Alt (Seq [Str "SUNDAY"; Sps; Str "DEL"; Opt (Str "IVERY")])
         (Str "WEEKEND"),
     "SUNDAY/WEEKEND CHARGE");
    (Seq [Str "RETURN"; Sps;
          Alts [Str "FEE"; Str "TO SHIPPER"; Str "RTS"]],
     "RETURN FEE");
    (Alts [Str "REDIRECT"; Seq [Str "DELIVERY"; Sps; Str "CHANGE"];
           Seq [Str "ADDRESS"; Sps; Str "CHANGE"]],
     "REDIRECT DELIVERY FEE");
    (Alt (Seq [Str "HOLD"; Sps; Opt (Str "AT"); Sps; Str "LOCATION"])
         (Seq [Str "WILL"; Sps; Str "CALL"]),
     "HOLD AT LOCATION FEE");
    (Alts [Seq [Str "DUPLICATE"; Sps; Str "INVOICE"];
           Seq [Str "INVALID"; Sps; Str "ACCOUNT"];
           Seq [Str "INCORRECT"; Sps; Str "BILL"; Opt (Str "ING")];
           Str "REBILL";
           Seq [Str "MANUAL"; Sps; Str "PROCESS"]],
     "BILLING ERROR FEE");
    (Seq [add_handling; Any; Alt (Str "PACKAGE") (Str "PACKAGING")],
     "AHS PACKAGING");
    (Seq [Str "DEMAND"; Any; Str "ADDITIONAL"; Any; Str "HANDLING"],
     "DEMAND ADDITIONAL HANDLING");
    (additional_handling_pattern, "ADDITIONAL HANDLING SURCHARGE");
    (Seq [Str "DEMAND"; Any; Str "OVERSIZE"], "DEMAND OVERSIZE");
    (oversize_pattern, "OVERSIZE CHARGE");
    (Seq [Str "UNAUTH"; Opt (Str "ORIZED"); Sps; Str "PACKAGE"],
     "UNAUTHORIZED PACKAGE CHARGE");
    (peak_additional_handling_pattern, "PEAK ADDITIONAL HANDLING");
    (peak_oversize_pattern, "PEAK OVERSIZE");
    (Seq [Str "PEAK"; Sps; Str "RESIDENTIAL"], "PEAK RESIDENTIAL");
    (Seq [WordB; Str "PEAK"; WordB], "PEAK SURCHARGE");
    (Alts [Seq [Str "MONEY"; dash_spaces; Str "BACK"];
           Seq [Str "LATE"; Sps; Str "DELIVERY"];
           Seq [Str "SERVICE"; Sps; Str "FAILURE"];
           Seq [Str "TRANSIT"; Sps; Str "TIME"];
           Seq [Str "DELIVERY"; Sps; Str "EXCEPTION"]],
     "SERVICE FAILURE ADJUSTMENT");
    (Seq [Str "WEIGHT"; Sps; Str "CORRECTION"], "WEIGHT CORRECTION");
    (Alt (Seq [Str "DIM"; Opt (Str "ENSIONAL"); Sps; Str "WEIGHT"])
         (Seq [Str "CUBIC"; Sps; Str "VOLUME"]),
     "DIM WEIGHT ADJUSTMENT");
    (Str "OVERWEIGHT", "OVERWEIGHT CHARGE");
    (Alts [Str "BROKERAGE";
           Seq [Str "DUTY"; Sps; Str "AND"; Sps; Str "TAX"];
           Seq [Str "ENTRY"; Sps; Str "PREPARATION"];
           Seq [Str "CLEARANCE"; Sps; Str "ENTRY"];
           Seq [Str "IMPORT"; Sps; Str "DATA"; Sps; Str "CORRECTION"]],
     "CUSTOMS/BROKERAGE FEE");
    (Alts [Seq [Str "INVALID"; Sps; Str "PICKUP"];
           Seq [Str "ATTEMPTED"; Sps; Str "DELIVERY"];
           Str "UNDELIVERABLE";
           Seq [Str "DELIVERY"; Sps; Str "ATTEMPT"]],
     "FAILED PICKUP/DELIVERY FEE");
    (Alts [Str "FUEL"; Seq [Str "FUEL"; Sps; Str "SURCHARGE"]; Str "FSC"],
     "FUEL SURCHARGE");
    (Alts [Seq [Str "DECLARED"; Sps; Str "VALUE"];
           Seq [Str "DV"; Sps; Str "CHARGE"]; Str "INSURANCE"],
     "DECLARED VALUE CHARGE");
    (Seq [Str "MISSING"; Sps; Str "DOC"], "MISSING DOCUMENTATION FEE") ].

(** The [for pat, name in CANON] loop over any table. *)
Fixpoint first_match (table : list (regex * string)) (u : string)
    : option string :=
  match table with
  | [] => None
  | (pat, name) :: rest =>
      if search pat u then Some name else first_match rest u
  end.

Definition canonize (label : string) : string :=
  let u := PyStr.strip (PyStr.upper label) in
  match first_match CANON u with
  | Some name => name
  | None => u
  end.

End Canon.

(** ** Comparisons and rounding on amounts *)

Module Num.

Definition ltb (a b : Q) : bool := negb (Qle_bool b a).
Definition leb (a b : Q) : bool := Qle_bool a b.
Definition eqb (a b : Q) : bool := Qeq_bool a b.

Definition max (a b : Q) : Q := if ltb a b then b else a.

(** [sum(xs)] *)
Definition sum (xs : list Q) : Q := fold_left Qplus xs 0.

(** [max(xs)] of a non-empty list: the first of the largest elements. *)
Definition max_list (x : Q) (xs : list Q) : Q :=
  fold_left (fun m y => if ltb m y then y else m) xs x.

(** [round(x, 2)] counted in cents: to the nearest cent, a tie to the even
    one. *)
Definition round_cents (x : Q) : Z :=
  let y := x * 100 in
  let n := Qfloor y in
  let frac := y - inject_Z n in
  if ltb frac (1 # 2) then n
  else if ltb (1 # 2) frac then (n + 1)%Z
  else if Z.even n then n else (n + 1)%Z.

End Num.

(** ** Rows, cells and the field resolver *)

Module Frame.

(** What a cell of the table can hold.  [CNull] is pandas' missing value
    (NaN); [CTime] is a [Timestamp] in nanoseconds since the epoch. *)
Inductive Cell : Type :=
| CNull
| CNum (q : Q)
| CStr (s : string)
| CTime (t : Z).

Definition Row : Type := list (string * Cell).
Definition DataFrame : Type := list Row.

(** A Python float: a number or NaN. *)
Inductive PyFloat : Type :=
| PNum (q : Q)
| PNaN.

(** The library functions the engine calls on text, taken as they are.
    [None] stands for [ValueError] in [float_of_str] and for NaT / NaN in
    the coercing pandas parsers.  Texts that Python reads as nan or as an
    infinity are outside the embedding. *)
Class Runtime : Type := {
  float_of_str : string -> option Q;       (* float(s) *)
  to_numeric_str : string -> option Q;     (* pd.to_numeric(s, errors='coerce') *)
  to_datetime_str : string -> option Z;    (* pd.to_datetime(s, errors='coerce') *)
  to_datetime_num : Q -> option Z;         (* pd.to_datetime(x, errors='coerce') *)
  str_of_num : Q -> string;                (* str(x) *)
  str_of_time : Z -> string;               (* str(ts) *)
  format_1f : Q -> string;                 (* f'{x:.1f}' *)
  format_2f : Q -> string                  (* f'{x:.2f}' *)
}.

(** [col in row.index] and [row[col]] *)
Fixpoint row_get (col : string) (row : Row) : option Cell :=
  match row with
  | [] => None
  | (c, v) :: rest => if String.eqb c col then Some v else row_get col rest
  end.

Definition row_has (col : string) (row : Row) : bool :=
  match row_get col row with Some _ => true | None => false end.

(** [row.get(col, default)] *)
Definition row_get_default (col : string) (default : Cell) (row : Row) : Cell :=
  match row_get col row with Some v => v | None => default end.

(** [col in df.columns]: the rows of a frame share their labels. *)
Definition df_has (col : string) (df : DataFrame) : bool :=
  match df with
  | [] => false
  | r :: _ => row_has col r
  end.

(** [pd.notna(v)] *)
Definition notna (c : Cell) : bool :=
  match c with CNull => false | _ => true end.

Section WithRuntime.
Context {RT : Runtime}.

(** [str(v)] *)
Definition py_str (c : Cell) : string :=
  match c with
  | CNull => "nan"
  | CNum q => str_of_num q
  | CStr s => s
  | CTime t => str_of_time t
  end.

(** [pd.to_datetime(v, errors='coerce')], [None] being NaT. *)
Definition to_datetime (c : Cell) : option Z :=
  match c with
  | CNull => None
  | CNum q => to_datetime_num q
  | CStr s => to_datetime_str s
  | CTime t => Some t
  end.

(** [_get_first]: the first candidate that is present, not null and not
    blank. *)
Fixpoint _get_first (row : Row) (candidates : list string) : option Cell :=
  match candidates with
  | [] => None
  | c :: rest =>
      match row_get c row with
      | Some v =>
          if notna v && PyStr.nonempty (PyStr.strip (py_str v))
          then Some v else _get_first row rest
      | None => _get_first row rest
      end
  end.

(** [_get_text] *)
Definition _get_text (row : Row) (candidates : list string) : string :=
  match _get_first row candidates with
  | Some v => py_str v
  | None => ""
  end.

(** [_get_date] *)
Definition _get_date (row : Row) (candidates : list string) : option Z :=
  match _get_first row candidates with
  | Some v => to_datetime v
  | None => None
  end.

(** [_normalize_tracking] *)
Definition _normalize_tracking (x : Cell) : string :=
  match x with
  | CNull => ""
  | _ =>
      PyStr.upper
        (PyStr.replace_char "-" ""
           (PyStr.replace_char " " "" (PyStr.strip (py_str x))))
  end.

(** The clean-up chain of [_get_float_value]:
    [.strip().replace('$','').replace(',','').replace('(','-').replace(')','')] *)
Definition clean_amount (s : string) : string :=
  PyStr.replace_char ")" ""
    (PyStr.replace_char "(" "-"
       (PyStr.replace_char "," ""
          (PyStr.replace_char "$" "" (PyStr.strip s)))).

(** One candidate of [_get_float_value].  [None]: the loop moves on to the
    next candidate (null cell, empty text, or [float] raised).  [str] of a
    float read back by [float] is the float itself; [str] of a timestamp
    is no float literal. *)
Definition cell_amount (c : Cell) : option Q :=
  match c with
  | CNull => None
  | CNum q => Some q
  | CStr s =>
      let v := clean_amount s in
      if PyStr.nonempty v then float_of_str v else None
  | CTime _ => None
  end.

(** [_get_float_value] *)
Fixpoint _get_float_value (row : Row) (candidates : list string) : Q :=
  match candidates with
  | [] => 0
  | c :: rest =>
      match row_get c row with
      | Some v =>
          match cell_amount v with
          | Some q => q
          | None => _get_float_value row rest
          end
      | None => _get_float_value row rest
      end
  end.

(** One candidate of [_get_dimension]: a value is kept only when it reads
    as a number greater than zero. *)
Definition cell_dimension (c : Cell) : option Q :=
  match c with
  | CNull => None
  | CNum q => if Num.ltb 0 q then Some q else None
  | CStr s =>
      let v := PyStr.strip s in
      if PyStr.nonempty v then
        match to_numeric_str v with
        | Some q => if Num.ltb 0 q then Some q else None
        | None => None
        end
      else None
  | CTime _ => None
  end.

Definition dimension_candidates (dimension_type : string) : list string :=
  let t := PyStr.lower dimension_type in
  if String.eqb t "length" then
    ["Dimmed Length"; "Length"; "Length (in)"; "Pkg Length"; "Package Length"; "Len"]
  else if String.eqb t "width" then
    ["Dimmed Width"; "Width"; "Width (in)"; "Pkg Width"; "Package Width"; "Wid"]
  else if String.eqb t "height" then
    ["Dimmed Height"; "Height"; "Height (in)"; "Pkg Height"; "Package Height"; "Hgt"]
  else [].

Fixpoint first_dimension (row : Row) (candidates : list string) : Q :=
  match candidates with
  | [] => 0
  | c :: rest =>
      match row_get c row with
      | Some v =>
          match cell_dimension v with
          | Some q => q
          | None => first_dimension row rest
          end
      | None => first_dimension row rest
      end
  end.

(** [_get_dimension] *)
Definition _get_dimension (row : Row) (dimension_type : string) : Q :=
  first_dimension row (dimension_candidates dimension_type).

(** The loop shared by [_get_full_destination_info] and
    [_get_full_shipper_info]. *)
Fixpoint info_parts (row : Row) (fields : list string) : list string :=
  match fields with
  | [] => []
  | f :: rest =>
      match row_get f row with
      | Some v =>
          if notna v then
            let val := PyStr.strip (py_str v) in
            if PyStr.nonempty val then val :: info_parts row rest
            else info_parts row rest
          else info_parts row rest
      | None => info_parts row rest
      end
  end.

Definition _get_full_destination_info (row : Row) : string :=
  PyStr.join " "
    (info_parts row
       ["Recipient Company Name"; "Recipient Name"; "Consignee";
        "Recipient Address"; "Destination Address"; "Recipient Original Address";
        "Recipient City"; "Recipient State/Province"; "Recipient Postal Code"]).

Definition _get_full_shipper_info (row : Row) : string :=
  PyStr.join " "
    (info_parts row
       ["Shipper Company Name"; "Shipper Name"; "Shipper";
        "Shipper Address"; "Origin Address"; "Ship From Address";
        "Shipper City"; "Shipper State"; "Shipper Postal Code"]).

End WithRuntime.

End Frame.

(** ** Dates: day arithmetic on timestamps *)

Module Calendar.

Local Open Scope Z_scope.

Definition NS_PER_DAY : Z := 86400 * 1000000000.

(** days since 1970-01-01 of a timestamp *)
Definition day_of (t : Z) : Z := t / NS_PER_DAY.

(** [ts + timedelta(days=n)] *)
Definition add_days (t n : Z) : Z := t + n * NS_PER_DAY.

(** [ts.weekday()]: Monday is 0; 1970-01-01 was a Thursday. *)
Definition weekday (t : Z) : Z := (day_of t + 3) mod 7.

(** [(a - b).days] *)
Definition delta_days (a b : Z) : Z := (a - b) / NS_PER_DAY.

(** [ts.normalize()]: midnight of the same day. *)
Definition normalize (t : Z) : Z := day_of t * NS_PER_DAY.

(** The proleptic Gregorian date of a day number. *)
Definition civil_from_days (z0 : Z) : Z * Z * Z :=
  let z := z0 + 719468 in
  let era := z / 146097 in
  let doe := z - era * 146097 in
  let yoe := (doe - doe / 1460 + doe / 36524 - doe / 146096) / 365 in
  let y := yoe + era * 400 in
  let doy := doe - (365 * yoe + yoe / 4 - yoe / 100) in
  let mp := (5 * doy + 2) / 153 in
  let d := doy - (153 * mp + 2) / 5 + 1 in
  let m := if mp <? 10 then mp + 3 else mp - 9 in
  (if m <=? 2 then y + 1 else y, m, d).

Definition days_from_civil (y0 m d : Z) : Z :=
  let y := if m <=? 2 then y0 - 1 else y0 in
  let era := y / 400 in
  let yoe := y - era * 400 in
  let mp := if 2 <? m then m - 3 else m + 9 in
  let doy := (153 * mp + 2) / 5 + d - 1 in
  let doe := yoe * 365 + yoe / 4 - yoe / 100 + doy in
  era * 146097 + doe - 719468.

(** midnight of a calendar date *)
Definition timestamp_of_date (y m d : Z) : Z := days_from_civil y m d * NS_PER_DAY.

Definition digit_char (n : Z) : ascii := ascii_of_nat (48 + Z.to_nat (n mod 10)).

(** the decimal digits of a natural number *)
Fixpoint digits_fuel (fuel : nat) (n : Z) (acc : string) : string :=
  match fuel with
  | O => acc
  | S f =>
      let acc' := String (digit_char n) acc in
      if n <? 10 then acc' else digits_fuel f (n / 10) acc'
  end.

Definition string_of_nonneg (n : Z) : string :=
  digits_fuel (S (Z.to_nat (Z.log2 n))) n "".

(** [str(n)] for an int *)
Definition string_of_Z (n : Z) : string :=
  if n <? 0 then String "-" (string_of_nonneg (- n)) else string_of_nonneg n.

Fixpoint zeros (n : nat) : string :=
  match n with O => "" | S m => String "0" (zeros m) end.

(** zero-padded to [width] digits *)
Definition pad (width : nat) (n : Z) : string :=
  let s := string_of_nonneg n in
  (zeros (width - String.length s) ++ s)%string.

(** [ts.strftime('%Y-%m-%d')] *)
Definition strftime_ymd (t : Z) : string :=
  let '(y, m, d) := civil_from_days (day_of t) in
  (pad 4 y ++ "-" ++ pad 2 m ++ "-" ++ pad 2 d)%string.

(** The loop of [_add_business_days].  The fuel bounds the number of
    iterations; [None] is fuel running out. *)
Fixpoint add_business_days_loop (fuel : nat) (current_date days_added business_days : Z)
    : option Z :=
  if days_added <? business_days then
    match fuel with
    | O => None
    | S f =>
        let current_date := add_days current_date 1 in
        if weekday current_date <? 5
        then add_business_days_loop f current_date (days_added + 1) business_days
        else add_business_days_loop f current_date days_added business_days
    end
  else Some current_date.

(** [_add_business_days]: three calendar days always hold a business day,
    so [3 * business_days] iterations are enough. *)
Definition _add_business_days (start_date business_days : Z) : option Z :=
  add_business_days_loop (3 * Z.to_nat business_days) start_date 0 business_days.

(** how many of the [k] days after [t] are Monday to Friday *)
Fixpoint business_days_within (t : Z) (k : nat) : Z :=
  match k with
  | O => 0
  | S j =>
      business_days_within t j +
      (if weekday (add_days t (Z.of_nat k)) <? 5 then 1 else 0)
  end.

End Calendar.

(** ** The audit engine ([FreightAuditEngine]) *)

Module Engine.
Import Frame.

(** A finding, with the keys of the dict the checks append. *)
Record Finding : Type := {
  error_type : string;          (* 'Error Type' *)
  tracking_number : Cell;       (* 'Tracking Number' *)
  date : string;                (* 'Date' *)
  carrier : Cell;               (* 'Carrier' *)
  service_type : Cell;          (* 'Service Type' *)
  dispute_reason : string;      (* 'Dispute Reason' *)
  refund_estimate : PyFloat;    (* 'Refund Estimate' *)
  notes : string                (* 'Notes' *)
}.

(** the refund of a finding is the amount [q] *)
Definition refund_is (f : Finding) (q : Q) : Prop :=
  match refund_estimate f with
  | PNum r => r == q
  | PNaN => False
  end.

(** the row of [pd.DataFrame(findings)] a finding becomes *)
Definition row_of_finding (f : Finding) : Row :=
  [ ("Error Type", CStr (error_type f));
    ("Tracking Number", tracking_number f);
    ("Date", CStr (date f));
    ("Carrier", carrier f);
    ("Service Type", service_type f);
    ("Dispute Reason", CStr (dispute_reason f));
    ("Refund Estimate",
     match refund_estimate f with PNum q => CNum q | PNaN => CNull end);
    ("Notes", CStr (notes f)) ].

Definition fedex_guaranteed_service_codes : list string :=
  ["PO"; "FO"; "SO"; "ES"; "OA"; "LO"; "IP"].

Definition service_delivery_times : list (string * Z) :=
  [ ("FEDEX_2DAY", 2); ("FEDEX_STANDARD_OVERNIGHT", 1);
    ("FEDEX_PRIORITY_OVERNIGHT", 1); ("FEDEX_INTERNATIONAL_PRIORITY", 1);
    ("INTERNATIONAL_PRIORITY", 1); ("FEDEX_FIRST_OVERNIGHT", 1);
    ("FEDEX_INTL_PRIORITY_EXPRESS", 1);
    ("UPS_NEXT_DAY_AIR", 1); ("UPS_NEXT_DAY_AIR_SAVER", 1);
    ("UPS_2ND_DAY_AIR", 2) ]%Z.

(** the default of [residential_patterns] *)
Definition default_residential_patterns : list string :=
  [ "residential surcharge"; "residential delivery";
    "delivery area surcharge - residential"; "das - residential";
    "das residential"; "home delivery"; "address correction - residential";
    "residential area surcharge"; "residential area" ].

Definition business_indicators : list string :=
  [ "LLC"; "INC"; "CORP"; "COMPANY"; "BUSINESS"; "OFFICE";
    "WAREHOUSE"; "STORE"; "SHOP"; "CENTER"; "DISTRIBUTION";
    "SEPHORA"; "ULTA"; "NORDSTROM"; "BLOOMINGDALE"; "MACY";
    "KOHLS"; "TARGET"; "MAC COSMETICS";
    "DIOR"; "TOWER 28"; "L'OREAL"; "LOREAL";
    "MALL OF AMERICA"; "VALLEY FAIR"; "HOUSTON GALLERIA";
    "SANTA ANITA"; "NORTH PARK"; "CHESTNUT HILL"; "CERRITOS";
    "CORAL GABLES"; "DADELAND"; "AVENTURA";
    "MILLSTREAM"; "BELLEVUE"; "BERKELEY";
    "WES HARNESS";
    "HUNTER PHILLIPS"; "WILLIAM WESPY"; "FAB SHIPPING"; "JESSE MENG";
    "AMYCE STOD DARD"; "MARK LOVELESS"; "MKT ALLIANCE";
    "MARKETING ALLIANCE GROUP"; "MARKETING ALLIANCE";
    "CREATIVE PLASTICS"; "CREATIVE PLASTIC"; "H & B";
    "251 GILLUM"; "GILLUM DR"; "GILLUM DRIVE"; "GILLU I DRIVE";
    "1409 CORONET"; "CORONET DR"; "CORONET DRIVE" ].

Definition business_abbrev : list string := ["NRD"; "BLM"].

(** [_has_business_indicators]: plain containment for the long keywords,
    [\b...\b] for the abbreviations. *)
Definition _has_business_indicators (dest_info : string) : bool :=
  existsb (fun indicator => PyStr.contains indicator dest_info) business_indicators
  || existsb
       (fun abbrev => Re.search (Re.Seq [Re.WordB; Re.Str abbrev; Re.WordB]) dest_info)
       business_abbrev.

Definition str_mem (x : string) (l : list string) : bool :=
  existsb (String.eqb x) l.

(** [dict.get] *)
Fixpoint dict_get {V} (k : string) (d : list (string * V)) : option V :=
  match d with
  | [] => None
  | (k', v) :: rest => if String.eqb k' k then Some v else dict_get k rest
  end.

Definition opt_list {A} (o : option A) : list A :=
  match o with Some a => [a] | None => [] end.

Section WithRuntime.
Context {RT : Runtime}.

(** *** Residential triage ([detect_residential_surcharges]) *)

Definition surcharge_fields : list string :=
  [ "Surcharge_Details"; "Service Description"; "Service Type";
    "Charge Description"; "Charge Type"; "Net Charge Title";
    "Accessorial Charge"; "Surcharge Description"; "Surcharge Type";
    "Residential Surcharge"; "Delivery Area Surcharge"; "Additional Charges" ].

(** Does one of the surcharge fields hold one of the patterns? *)
Definition has_residential (patterns : list string) (row : Row) : bool :=
  existsb
    (fun field =>
       match row_get field row with
       | Some v =>
           notna v &&
           existsb
             (fun pattern =>
                PyStr.contains (PyStr.lower pattern) (PyStr.lower (py_str v)))
             patterns
       | None => false
       end)
    surcharge_fields.

Definition is_recipient_business (row : Row) : bool :=
  _has_business_indicators (PyStr.upper (_get_full_destination_info row)).

Definition is_shipper_business (row : Row) : bool :=
  _has_business_indicators (PyStr.upper (_get_full_shipper_info row)).

(** the value written to the [has_residential_surcharge] column *)
Definition has_residential_surcharge (patterns : list string) (row : Row) : bool :=
  if has_residential patterns row then
    negb (is_recipient_business row) || negb (is_shipper_business row)
  else false.

(** [detect_residential_surcharges]: every row with its flag. *)
Definition detect_residential_surcharges (patterns : list string) (df : DataFrame)
    : list (Row * bool) :=
  map (fun row => (row, has_residential_surcharge patterns row)) df.

(** the two pools [run_full_audit] splits the flagged frame into *)
Definition residential_df (flagged : list (Row * bool)) : DataFrame :=
  map fst (filter (fun rb => snd rb) flagged).

Definition main_audit_df (flagged : list (Row * bool)) : DataFrame :=
  map fst (filter (fun rb => negb (snd rb)) flagged).

(** *** Late deliveries ([check_late_deliveries]) *)

(** [pd.to_datetime(row.get(a), errors='coerce') or
     pd.to_datetime(row.get(b), errors='coerce')]: [to_datetime(None)] is
    [None], while NaT and timestamps are truthy, so the second column is
    read only when the first is not in the row. *)
Definition date_or (row : Row) (a b : string) : option Z :=
  match row_get a row with
  | Some c => to_datetime c
  | None =>
      match row_get b row with
      | Some c => to_datetime c
      | None => None
      end
  end.

(** [float(row.get(col, 0) or 0)]; the outer [None] is [float] raising. *)
Definition charge (row : Row) (col : string) : option PyFloat :=
  match row_get col row with
  | None => Some (PNum 0)
  | Some CNull => Some PNaN
  | Some (CNum q) => Some (PNum q)
  | Some (CStr s) =>
      if PyStr.nonempty s then option_map PNum (float_of_str s)
      else Some (PNum 0)
  | Some (CTime _) => None
  end.

(** Python truthiness of a float: NaN is truthy. *)
Definition truthy (x : PyFloat) : bool :=
  match x with
  | PNum q => negb (Num.eqb q 0)
  | PNaN => true
  end.

(** [a or b] *)
Definition float_or (a b : PyFloat) : PyFloat := if truthy a then a else b.

Definition text_of (row : Row) (col : string) : string :=
  py_str (row_get_default col (CStr "") row).

Definition expected_days_of (row : Row) : option Z :=
  let service_desc :=
    PyStr.replace_char " " "_" (PyStr.upper (text_of row "Service Description")) in
  let service_type :=
    PyStr.replace_char " " "_" (PyStr.upper (text_of row "Service Type")) in
  let carrier := PyStr.upper (text_of row "Carrier") in
  match dict_get service_desc service_delivery_times with
  | Some n => Some n
  | None => dict_get (carrier ++ "_" ++ service_type) service_delivery_times
  end.

(** the FedEx gate: a FedEx row goes on only with a guaranteed code *)
Definition passes_fedex_gate (row : Row) : bool :=
  let carrier := PyStr.upper (text_of row "Carrier") in
  if PyStr.contains "FEDEX" carrier then
    str_mem (PyStr.upper (PyStr.strip (text_of row "Service Type")))
            fedex_guaranteed_service_codes
  else true.

(** One pass of the loop body; [None] is [continue] (also the one taken
    by [except Exception]). *)
Definition late_delivery_of (row : Row) : option Finding :=
  if passes_fedex_gate row then
    match expected_days_of row with
    | None => None
    | Some expected_days =>
        match date_or row "Shipment Date" "Shipment Date (mm/dd/yyyy)",
              date_or row "Delivery Date" "Shipment Delivery Date (mm/dd/yyyy)" with
        | Some ship_date, Some delivery_date =>
            match Calendar._add_business_days ship_date expected_days with
            | None => None
            | Some expected_delivery =>
                if (expected_delivery <? delivery_date)%Z then
                  let days_late := Calendar.delta_days delivery_date expected_delivery in
                  match charge row "Total Charges", charge row "Base Rate",
                        charge row "Billed Amount" with
                  | Some total_charges, Some base_rate, Some billed_amount =>
                      Some
                        {| error_type := "Late Delivery";
                           tracking_number := row_get_default "Tracking Number" (CStr "") row;
                           date := Calendar.strftime_ymd ship_date;
                           carrier := row_get_default "Carrier" (CStr "") row;
                           service_type := row_get_default "Service Type" (CStr "") row;
                           dispute_reason :=
                             "Package delivered " ++ Calendar.string_of_Z days_late
                               ++ " day(s) late";
                           refund_estimate :=
                             float_or total_charges (float_or base_rate billed_amount);
                           notes :=
                             "Expected: " ++ Calendar.strftime_ymd expected_delivery
                               ++ ", Actual: " ++ Calendar.strftime_ymd delivery_date |}
                  | _, _, _ => None
                  end
                else None
            end
        | _, _ => None
        end
    end
  else None.

Definition check_late_deliveries (df : DataFrame) : list Finding :=
  flat_map (fun row => opt_list (late_delivery_of row)) df.

(** *** Duplicate tracking ([check_duplicate_tracking]) *)

Inductive Bucket : Type := TRANSPORT | DUTY_TAX | CREDIT_ADJUST | MISC.

Definition bucket_eqb (a b : Bucket) : bool :=
  match a, b with
  | TRANSPORT, TRANSPORT | DUTY_TAX, DUTY_TAX
  | CREDIT_ADJUST, CREDIT_ADJUST | MISC, MISC => true
  | _, _ => false
  end.

(** A row of [df_work]: the source row and the columns the check adds. *)
Record WorkRow : Type := {
  src : Row;
  _key_tracking : string;
  _carrier : string;
  _freight : Q;
  _misc : Q;
  _duty : Q;
  _discount : Q;
  _net : Q;
  _class : Bucket;
  _group_key : string
}.

Definition AMT_TOL : Q := 1 # 100.

Definition freight_candidates : list string :=
  ["Freight Charges"; "Base Rate"; "Freight"; "Transportation Charge"].
Definition misc_candidates : list string :=
  ["Surcharges"; "Miscellaneous Charges"; "Additional Charges"; "Misc"].
Definition duty_candidates : list string :=
  ["Duty and Tax"; "Duty & Tax"; "Duties"; "Taxes"; "Customs Charges"].
Definition discount_candidates : list string :=
  ["Discount"; "Discounts"; "Credit"].

(** [_is_return_service] *)
Definition _is_return_service (service_description : Cell) : bool :=
  let is_truthy :=
    match service_description with
    | CStr s => PyStr.nonempty s
    | CNum q => negb (Num.eqb q 0)
    | CNull => true
    | CTime _ => true
    end in
  if negb is_truthy || negb (notna service_description) then false
  else
    PyStr.any_in ["RETURN"; "RMGR"; "RMA"; "REVERSE"; "RETURNMANAGER"]
      (PyStr.upper (py_str service_description)).

Definition service_columns : list string :=
  ["Service Description"; "Service Type"; "Service"; "Svc Desc";
   "Service Code"; "Svc Type"; "Svc Code"].

(** [_is_original_plus_return_pair] *)
Definition _is_original_plus_return_pair (duplicate_rows : DataFrame) : bool :=
  match duplicate_rows with
  | [row1; row2] =>
      match find (fun col => df_has col duplicate_rows) service_columns with
      | None => false
      | Some service_col =>
          let service1 := row_get_default service_col CNull row1 in
          let service2 := row_get_default service_col CNull row2 in
          xorb (_is_return_service service1) (_is_return_service service2)
      end
  | _ => false
  end.

(** the [net] of a row: the [Total Charges] cell read as a float, the sum
    of the parts when the cell is null or does not read *)
Definition net_of (row : Row) (freight misc duty discount : Q) : Q :=
  let parts := freight + misc + duty - discount in
  match row_get "Total Charges" row with
  | None => 0
  | Some CNull => parts
  | Some (CNum q) => q
  | Some (CStr s) =>
      match float_of_str (PyStr.replace_char "," "" (PyStr.replace_char "$" "" s)) with
      | Some q => q
      | None => parts
      end
  | Some (CTime _) => parts
  end.

Definition carrier_of (has_carrier : bool) (row : Row) : string :=
  if has_carrier then
    match row_get_default "Carrier" CNull row with
    | CNull => PyStr.upper "Unknown"
    | c => PyStr.upper (py_str c)
    end
  else "Unknown".

Definition classify (freight misc duty discount net : Q) : Bucket :=
  let freight_like := freight + misc + discount in
  if Num.ltb AMT_TOL freight_like && Num.ltb (Qabs duty) AMT_TOL then TRANSPORT
  else if Num.ltb AMT_TOL (Qabs duty)
          && Num.ltb (Qabs freight + Qabs misc) AMT_TOL then DUTY_TAX
  else if Num.ltb net (- AMT_TOL) then CREDIT_ADJUST
  else MISC.

(** the per-row loop that fills [df_work] *)
Definition work_row (has_carrier has_duty_columns has_freight_columns : bool)
    (row : Row) : WorkRow :=
  let key := _normalize_tracking (row_get_default "Tracking Number" CNull row) in
  let carrier := carrier_of has_carrier row in
  let freight := _get_float_value row freight_candidates in
  let misc := _get_float_value row misc_candidates in
  let duty := _get_float_value row duty_candidates in
  let discount := Qabs (_get_float_value row discount_candidates) in
  let net := net_of row freight misc duty discount in
  let freight :=
    if negb has_duty_columns && negb has_freight_columns
       && Num.eqb freight 0 && Num.eqb misc 0 && Num.eqb duty 0 && Num.ltb 0 net
    then net else freight in
  {| src := row; _key_tracking := key; _carrier := carrier;
     _freight := freight; _misc := misc; _duty := duty;
     _discount := discount; _net := net;
     _class := classify freight misc duty discount net;
     _group_key := carrier ++ "||" ++ key |}.

Definition df_work (df : DataFrame) : list WorkRow :=
  let has_duty_columns := existsb (fun c => df_has c df) duty_candidates in
  let has_freight_columns := existsb (fun c => df_has c df) freight_candidates in
  map (work_row (df_has "Carrier" df) has_duty_columns has_freight_columns) df.

(** [df_work[df_work['_key_tracking'] == tracking_num]] *)
Definition rows_of_key (work : list WorkRow) (tracking_num : string) : list WorkRow :=
  filter (fun w => String.eqb (_key_tracking w) tracking_num) work.

(** The index of [tracking_counts[tracking_counts > 1]]: the keys borne by
    more than one row.  They are listed here in order of first appearance;
    pandas lists them by falling count, which changes the order of the
    findings and nothing else. *)
Definition duplicate_keys (work : list WorkRow) : list string :=
  filter (fun k => (1 <? List.length (rows_of_key work k))%nat)
         (nodup string_dec (map _key_tracking work)).

(** the [Date] of a duplicate finding; the outer [None] is [strftime]
    raising on NaT *)
Definition duplicate_date (first_row : Row) : option string :=
  match row_get "Shipment Date" first_row with
  | None => Some ""
  | Some CNull => Some ""
  | Some c =>
      match to_datetime c with
      | Some t => Some (Calendar.strftime_ymd t)
      | None => None
      end
  end.

Definition count_str (n : nat) : string := Calendar.string_of_Z (Z.of_nat n).

(** the refund of a group with several TRANSPORT lines *)
Definition duplicate_refund (transport_nets : list Q) : Q :=
  let num_transport := List.length transport_nets in
  let unique_amounts :=
    List.length (nodup Z.eq_dec (map Num.round_cents transport_nets)) in
  if (1 <? unique_amounts)%nat then
    Num.sum transport_nets - Num.max_list (hd 0 transport_nets) (tl transport_nets)
  else
    hd 0 transport_nets * inject_Z (Z.of_nat num_transport - 1).

(** [duplicate_rows.iloc[0]] *)
Definition first_row_of (duplicate_rows : list WorkRow) : Row :=
  match duplicate_rows with w :: _ => src w | [] => [] end.

(** [transport_rows['_net'].tolist()] *)
Definition transport_nets_of (duplicate_rows : list WorkRow) : list Q :=
  map _net (filter (fun w => bucket_eqb (_class w) TRANSPORT) duplicate_rows).

(** The body of the loop over the duplicated tracking numbers, after the
    empty-key test: the findings the group adds.  The outer [None] is the
    check raising. *)
Definition audit_group (duplicate_rows : list WorkRow) : option (list Finding) :=
  if _is_original_plus_return_pair (map src duplicate_rows) then Some []
  else
    let transport_rows := filter (fun w => bucket_eqb (_class w) TRANSPORT) duplicate_rows in
    let duty_tax_rows := filter (fun w => bucket_eqb (_class w) DUTY_TAX) duplicate_rows in
    let num_transport := List.length transport_rows in
    let num_duty_tax := List.length duty_tax_rows in
    if (num_transport =? 1)%nat && (num_duty_tax =? 1)%nat then Some []
    else if (1 <? num_transport)%nat then
      let transport_nets := transport_nets_of duplicate_rows in
      let unique_amounts :=
        List.length (nodup Z.eq_dec (map Num.round_cents transport_nets)) in
      let dispute :=
        if (1 <? unique_amounts)%nat then
          "Multiple freight charges (" ++ count_str num_transport
            ++ " lines with different amounts)"
        else
          "Duplicate freight billing (" ++ count_str num_transport
            ++ " identical charges)" in
      let freight_total := Num.sum transport_nets in
      let duty_tax_total :=
        if (0 <? num_duty_tax)%nat then Num.sum (map _net duty_tax_rows) else 0 in
      let net_landed := freight_total + duty_tax_total in
      let first_row := first_row_of duplicate_rows in
      match duplicate_date first_row with
      | None => None
      | Some d =>
          Some
            [ {| error_type := "Duplicate Tracking";
                 tracking_number := row_get_default "Tracking Number" CNull first_row;
                 date := d;
                 carrier := row_get_default "Carrier" (CStr "") first_row;
                 service_type := row_get_default "Service Type" (CStr "") first_row;
                 dispute_reason := dispute;
                 refund_estimate := PNum (duplicate_refund transport_nets);
                 notes :=
                   "Transport: " ++ count_str num_transport
                     ++ ", Duty/Tax: " ++ count_str num_duty_tax
                     ++ ", Landed: $" ++ format_2f net_landed |} ]
      end
    else Some [].

(** the normalized tracking number a finding was raised for *)
Definition finding_key (f : Finding) : string :=
  _normalize_tracking (tracking_number f).

(** run the groups one after the other; one raising group makes the whole
    check raise *)
Fixpoint audit_groups (work : list WorkRow) (keys : list string)
    : option (list Finding) :=
  match keys with
  | [] => Some []
  | tracking_num :: rest =>
      let step :=
        if PyStr.nonempty tracking_num
        then audit_group (rows_of_key work tracking_num)
        else Some [] in
      match step with
      | None => None
      | Some fs =>
          match audit_groups work rest with
          | None => None
          | Some gs => Some (List.app fs gs)
          end
      end
  end.

Definition check_duplicate_tracking (df : DataFrame) : option (list Finding) :=
  match df with
  | [] => Some []
  | _ =>
      if negb (df_has "Tracking Number" df) then Some []
      else
        let work := df_work df in
        audit_groups work (duplicate_keys work)
  end.

(** *** The Additional Handling arm of [check_disputable_surcharges] *)

(** [sorted(dims, reverse=True)] *)
Fixpoint insert_desc (x : Q) (l : list Q) : list Q :=
  match l with
  | [] => [x]
  | y :: t => if Num.ltb x y then y :: insert_desc x t else x :: l
  end.

Definition sort_desc (l : list Q) : list Q := fold_right insert_desc [] l.

Definition actual_wt_candidates : list string :=
  ["Actual Weight"; "Original Weight"; "Shipment Actual Weight";
   "Package Weight"; "Weight"].

(** the sizes and the weight the loop body works out for a row *)
Record Package : Type := {
  longest : Q;
  second : Q;
  third : Q;
  actual_wt : Q;
  girth : Q
}.

Definition package_of (row : Row) : Package :=
  let L := _get_dimension row "length" in
  let W := _get_dimension row "width" in
  let H := _get_dimension row "height" in
  let dims := List.app (sort_desc [L; W; H]) [0; 0; 0] in
  let longest := nth 0 dims 0 in
  let second := nth 1 dims 0 in
  let third := nth 2 dims 0 in
  {| longest := longest; second := second; third := third;
     actual_wt := _get_float_value row actual_wt_candidates;
     girth := 2 * (second + third) |}.

(** what an arm of the [elif] chain sets when it disputes a charge *)
Record Dispute : Type := {
  reason : string;
  refund : Q;
  dispute_notes : string
}.

Definition needs_handling (p : Package) : bool :=
  Num.ltb 48 (longest p) || Num.ltb 30 (second p)
  || Num.ltb 105 (longest p + girth p) || Num.leb 50 (actual_wt p).

Definition dquote : string := String (ascii_of_nat 34) "".

(** The arm [elif desc == 'ADDITIONAL HANDLING SURCHARGE']; [None] leaves
    [dispute_reason] unset, so no finding is appended for the entry. *)
Definition additional_handling_arm (p : Package) (amount : Q) : option Dispute :=
  if negb (needs_handling p) && Num.ltb 0 (longest p) then
    Some {| reason := "Additional Handling charged but size/weight thresholds not met";
            refund := amount;
            dispute_notes :=
              "Dims " ++ format_1f (longest p) ++ "x" ++ format_1f (second p)
                ++ "x" ++ format_1f (third p) ++ dquote ++ ", Wt "
                ++ format_1f (actual_wt p) ++ " lb" |}
  else None.

(** [str(self._get_first(row, ['Service Type','Service Description'], '') or '')] *)
Definition service_text (row : Row) : string :=
  match _get_first row ["Service Type"; "Service Description"] with
  | Some (CNum q) => if Num.eqb q 0 then "" else str_of_num q
  | Some c => py_str c
  | None => ""
  end.

(** the finding appended when an arm has set [dispute_reason] *)
Definition surcharge_finding (row : Row) (desc : string) (amount : Q) (d : Dispute)
    : Finding :=
  {| error_type := "Disputable Surcharge";
     tracking_number := row_get_default "Tracking Number" (CStr "") row;
     date :=
       match row_get "Shipment Date" row with
       | Some c =>
           match to_datetime c with
           | Some t => Calendar.strftime_ymd t
           | None => ""
           end
       | None => ""
       end;
     carrier := CStr (PyStr.upper (text_of row "Carrier"));
     service_type := CStr (service_text row);
     dispute_reason := reason d;
     refund_estimate := PNum (refund d);
     notes :=
       desc ++ " $" ++ format_2f amount
         ++ (if PyStr.nonempty (dispute_notes d) then " | " ++ dispute_notes d else "") |}.

(** What the loop body appends when it comes to an entry canonized to
    [ADDITIONAL HANDLING SURCHARGE].  (The loop does not come to it on a
    line whose service type holds RMGR, which it skips as a whole.) *)
Definition additional_handling_findings (row : Row) (amount : Q) : list Finding :=
  match additional_handling_arm (package_of row) amount with
  | Some d => [surcharge_finding row "ADDITIONAL HANDLING SURCHARGE" amount d]
  | None => []
  end.

End WithRuntime.

(** *** The orchestrator ([run_full_audit])

    The misc detector lives in another module and the third check and the
    summary are not spelled out here; the orchestrator is embedded over
    them.  [None] is the callee raising an [Exception]. *)

Section Orchestrator.
Context {RT : Runtime}.

Context {NormFrame MiscQueue MiscByCategory MiscByMonth MiscSummary Summary : Type}.

(** [pd.DataFrame()] and [{}], the values the misc outputs start with *)
Variable empty_queue : MiscQueue.
Variable empty_by_category : MiscByCategory.
Variable empty_summary : MiscSummary.

Variable residential_patterns : list string.
Variable check_disputable_surcharges : DataFrame -> list Finding.
Variable calculate_summary : DataFrame -> list Finding -> option Summary.
Variable normalize : DataFrame -> option NormFrame.
Variable build_misc_views :
  NormFrame -> option (MiscQueue * MiscByCategory * MiscByMonth * MiscSummary).

Record AuditResult : Type := {
  findings : list Finding;
  summary : Summary;
  residential_shipments : DataFrame;
  main_audit_data : DataFrame;
  total_shipments : nat;
  residential_count : nat;
  main_audit_count : nat;
  misc_charges_queue : MiscQueue;
  misc_charges_summary : MiscSummary;
  misc_charges_by_category : MiscByCategory
}.

(** the [try: ... except Exception] block around the misc detector *)
Definition misc_step (df : DataFrame) : MiscQueue * MiscByCategory * MiscSummary :=
  match normalize df with
  | Some df_normalized =>
      match build_misc_views df_normalized with
      | Some (misc_queue, misc_by_category, _, misc_summary) =>
          (misc_queue, misc_by_category, misc_summary)
      | None => (empty_queue, empty_by_category, empty_summary)
      end
  | None => (empty_queue, empty_by_category, empty_summary)
  end.

Definition run_full_audit (df : DataFrame) : option AuditResult :=
  let df_with_residential := detect_residential_surcharges residential_patterns df in
  let residential := residential_df df_with_residential in
  let main := main_audit_df df_with_residential in
  let late := check_late_deliveries main in
  match check_duplicate_tracking main with
  | None => None
  | Some duplicate =>
      let all := List.app late (List.app duplicate (check_disputable_surcharges main)) in
      let '(misc_queue, misc_by_category, misc_summary) := misc_step df in
      match calculate_summary main all with
      | None => None
      | Some s =>
          Some {| findings := all;
                  summary := s;
                  residential_shipments := residential;
                  main_audit_data := main;
                  total_shipments := List.length df;
                  residential_count := List.length residential;
                  main_audit_count := List.length main;
                  misc_charges_queue := misc_queue;
                  misc_charges_summary := misc_summary;
                  misc_charges_by_category := misc_by_category |}
      end
  end.

(** The orchestrator with the misc block taken out: the misc outputs keep
    their initial values.  It is what [run_full_audit] is compared with. *)
Definition run_without_misc (df : DataFrame) : option AuditResult :=
  let df_with_residential := detect_residential_surcharges residential_patterns df in
  let residential := residential_df df_with_residential in
  let main := main_audit_df df_with_residential in
  let late := check_late_deliveries main in
  match check_duplicate_tracking main with
  | None => None
  | Some duplicate =>
      let all := List.app late (List.app duplicate (check_disputable_surcharges main)) in
      match calculate_summary main all with
      | None => None
      | Some s =>
          Some {| findings := all;
                  summary := s;
                  residential_shipments := residential;
                  main_audit_data := main;
                  total_shipments := List.length df;
                  residential_count := List.length residential;
                  main_audit_count := List.length main;
                  misc_charges_queue := empty_queue;
                  misc_charges_summary := empty_summary;
                  misc_charges_by_category := empty_by_category |}
      end
  end.

(** the misc detector raises on [df] *)
Definition misc_raises (df : DataFrame) : Prop :=
  normalize df = None \/
  exists df_normalized,
    normalize df = Some df_normalized /\ build_misc_views df_normalized = None.

End Orchestrator.

End Engine.

(** ** The filing-window classifier ([app.filter_by_filing_window]) *)

Module App.
Import Frame Re.

Inductive Status : Type := pending | within_window | expired | missing_date.

Definition status_eqb (a b : Status) : bool :=
  match a, b with
  | pending, pending | within_window, within_window
  | expired, expired | missing_date, missing_date => true
  | _, _ => false
  end.

(** [Actual:\s*] *)
Definition actual_prefix : regex := Cat (Str "Actual:") Sps.

(** the group of the pattern:
    [\d{4}-\d{2}-\d{2}(?:[T\s][\d:]+(?:[+-]\d{2}:?\d{2}|Z)?)?|\d{1,2}/\d{1,2}/\d{4}] *)
Definition actual_group : regex :=
  Alt
    (Seq [Rep 4 Dg; Lit "-"; Rep 2 Dg; Lit "-"; Rep 2 Dg;
          Opt (Seq [Cls [CChar "T"; CSpace];
                    Plus (Cls [CDigit; CChar ":"]);
                    Opt (Alt (Seq [Cls [CChar "+"; CChar "-"]; Rep 2 Dg;
                                   Opt (Lit ":"); Rep 2 Dg])
                             (Lit "Z"))])])
    (Seq [Dg; Opt Dg; Lit "/"; Dg; Opt Dg; Lit "/"; Rep 4 Dg]).

Section WithRuntime.
Context {RT : Runtime}.

(** [extract_actual_date]; [None] is NaT *)
Definition extract_actual_date (notes : Cell) : option Z :=
  match notes with
  | CNull => None
  | _ =>
      match search_group actual_prefix actual_group (py_str notes) with
      | Some token => to_datetime_str token
      | None => None
      end
  end.

(** a cell of [df['Error Type'].fillna('').str.upper()]; [None] is the NaN
    the [.str] accessor gives for a value that is no text *)
Definition error_upper (row : Row) : option string :=
  match row_get_default "Error Type" CNull row with
  | CNull => Some ""
  | CStr s => Some (PyStr.upper s)
  | _ => None
  end.

(** [.str.contains(k1|k2|..., na=False)] *)
Definition contains_any (keys : list string) (s : option string) : bool :=
  match s with
  | Some u => PyStr.any_in keys u
  | None => false
  end.

(** a parsed date column of the working frame: NaT when the column is
    not there *)
Definition date_column (col : string) (row : Row) : option Z :=
  match row_get col row with
  | Some c => to_datetime c
  | None => None
  end.

(** [a.fillna(b)] *)
Definition fillna (a b : option Z) : option Z :=
  match a with Some _ => a | None => b end.

(** the three assignments that close every block *)
Definition window (deadline today : Z) (ref_date : option Z) : Status :=
  match ref_date with
  | Some d =>
      if (Calendar.delta_days today d <=? deadline)%Z then within_window
      else expired
  | None => missing_date
  end.

(** a cell of [_delivery_date]: the date drawn from the Notes, NaT when
    the frame has no Notes column *)
Definition delivery_date_of (row : Row) : option Z :=
  match row_get "Notes" row with
  | Some notes => extract_actual_date notes
  | None => None
  end.

(** The [_status] of a row after the four blocks. *)
Definition status_of (today : Z) (row : Row) : Status :=
  let eu := error_upper row in
  let shipment_date := date_column "Shipment Date" row in
  let invoice_date := date_column "Invoice Date" row in
  let generic_date := date_column "Date" row in
  let delivery_date := delivery_date_of row in
  let st := pending in
  (* Late Delivery: 15 days from delivery *)
  let st :=
    if contains_any ["LATE DELIVERY"] eu then window 15 today delivery_date
    else st in
  (* Lost / Damage: 60 days from shipment *)
  let st :=
    if contains_any ["LOST"; "DAMAGE"] eu && status_eqb st pending
    then window 60 today (fillna shipment_date generic_date)
    else st in
  (* Billing disputes: 180 days from invoice *)
  let st :=
    if contains_any ["DISPUTABLE SURCHARGE"; "DUPLICATE"] eu && status_eqb st pending
    then window 180 today (fillna invoice_date generic_date)
    else st in
  (* everything still pending: 180 days *)
  if status_eqb st pending
  then window 180 today (fillna invoice_date generic_date)
  else st.

(** the three frames the rows are sorted into *)
Record Windows : Type := {
  filtered_df : DataFrame;
  expired_df : DataFrame;
  missing_date_df : DataFrame
}.

Definition rows_with (today : Z) (st : Status) (df : DataFrame) : DataFrame :=
  filter (fun row => status_eqb (status_of today row) st) df.

(** [filter_by_filing_window], [now] being [pd.Timestamp.now()].  The
    date columns are parsed cell by cell, and the summary dict (the sizes
    of the three frames and their refund totals) is left out.  [None] is
    the [KeyError] of a frame without an [Error Type] column. *)
Definition filter_by_filing_window (now : Z) (actionable_errors : DataFrame)
    : option Windows :=
  match actionable_errors with
  | [] => Some {| filtered_df := []; expired_df := []; missing_date_df := [] |}
  | _ =>
      if df_has "Error Type" actionable_errors then
        let today := Calendar.normalize now in
        Some {| filtered_df := rows_with today within_window actionable_errors;
                expired_df := rows_with today expired actionable_errors;
                missing_date_df := rows_with today missing_date actionable_errors |}
      else None
  end.

End WithRuntime.
End App.

(** ** A runtime and rows for the worked examples

    [sample_runtime] reads plain decimal numerals and ISO dates as Python
    and pandas do and rejects every other text, which is all the examples
    below rely on. *)

Module Samples.
Import Frame.

Local Open Scope Z_scope.

Fixpoint digits_value (s : string) (acc : Z) : option Z :=
  match s with
  | EmptyString => Some acc
  | String c t =>
      if PyStr.is_digit c
      then digits_value t (10 * acc + Z.of_nat (PyStr.code c - 48))
      else None
  end.

(** an unsigned run of digits *)
Definition parse_digits (s : string) : option Z :=
  match s with
  | EmptyString => None
  | _ => digits_value s 0
  end.

Fixpoint split_at_dot (s : string) : string * option string :=
  match s with
  | EmptyString => (EmptyString, None)
  | String c t =>
      if Ascii.eqb c "." then (EmptyString, Some t)
      else let '(a, b) := split_at_dot t in (String c a, b)
  end.

Definition parse_unsigned (s : string) : option Q :=
  match split_at_dot s with
  | (whole, None) => option_map inject_Z (parse_digits whole)
  | (whole, Some frac) =>
      match parse_digits whole, parse_digits frac with
      | Some w, Some f =>
          Some (inject_Z w + Qmake f (Pos.pow 10 (Pos.of_nat (String.length frac))))%Q
      | _, _ => None
      end
  end.

(** [digits], [digits.digits], with an optional sign and blanks around *)
Definition parse_decimal (s : string) : option Q :=
  match PyStr.strip s with
  | String "-" t => option_map Qopp (parse_unsigned t)
  | String "+" t => parse_unsigned t
  | t => parse_unsigned t
  end.

Definition is_leap (y : Z) : bool :=
  ((y mod 4 =? 0) && negb (y mod 100 =? 0)) || (y mod 400 =? 0).

Definition days_in_month (y m : Z) : Z :=
  if m =? 2 then (if is_leap y then 29 else 28)
  else if (m =? 4) || (m =? 6) || (m =? 9) || (m =? 11) then 30
  else 31.

(** [YYYY-MM-DD] *)
Definition parse_iso_date (s : string) : option Z :=
  if (String.length s =? 10)%nat then
    match parse_digits (String.substring 0 4 s),
          parse_digits (String.substring 5 2 s),
          parse_digits (String.substring 8 2 s) with
    | Some y, Some m, Some d =>
        if String.eqb (String.substring 4 1 s) "-"
           && String.eqb (String.substring 7 1 s) "-"
           && (1 <=? m) && (m <=? 12) && (1 <=? d) && (d <=? days_in_month y m)
        then Some (Calendar.timestamp_of_date y m d)
        else None
    | _, _, _ => None
    end
  else None.

(** a number to [places] decimals, ties to even *)
Definition format_places (places : nat) (x : Q) : string :=
  let scale := Z.pow 10 (Z.of_nat places) in
  let y := (x * inject_Z scale)%Q in
  let n := Qfloor y in
  let frac := (y - inject_Z n)%Q in
  let r :=
    if Num.ltb frac (1 # 2) then n
    else if Num.ltb (1 # 2) frac then n + 1
    else if Z.even n then n else n + 1 in
  let a := Z.abs r in
  ((if (r <? 0)%Z then "-" else "")
     ++ Calendar.string_of_Z (a / scale)%Z ++ "."
     ++ Calendar.pad places (a mod scale)%Z)%string.

(** whole numbers print as ints do, the others to six decimals *)
Definition sample_str_of_num (x : Q) : string :=
  if Num.eqb x (inject_Z (Qfloor x)) then Calendar.string_of_Z (Qfloor x)
  else format_places 6 x.

#[export] Instance sample_runtime : Runtime := {
  float_of_str := parse_decimal;
  to_numeric_str := parse_decimal;
  to_datetime_str := parse_iso_date;
  to_datetime_num := fun x => Some (Qfloor x);
  str_of_num := sample_str_of_num;
  str_of_time := Calendar.strftime_ymd;
  format_1f := format_places 1;
  format_2f := format_places 2
}.

Definition D (y m d : Z) : Cell := CTime (Calendar.timestamp_of_date y m d).

Definition money (cents : Z) : Q := Qmake cents 100.

(** two freight lines of one tracking number *)
Definition freight_line (carrier : string) (tracking : string) (total : Q) : Row :=
  [ ("Carrier", CStr carrier); ("Tracking Number", CStr tracking);
    ("Service Type", CStr "Ground"); ("Total Charges", CNum total) ].

Definition equal_lines : DataFrame :=
  [ freight_line "FedEx" "4667-6179-4075" (money 5000);
    freight_line "FedEx" "466761794075" (money 5000) ].

Definition unequal_lines : DataFrame :=
  [ freight_line "FedEx" "466761794075" (money 5000);
    freight_line "FedEx" "466761794075" (money 3000) ].


(** the same tracking number billed by two carriers *)
Definition two_carrier_lines : DataFrame :=
  [ freight_line "FedEx" "466761794075" (money 5000);
    freight_line "UPS" "466761794075" (money 5000) ].

Definition service_line (description : string) : Row :=
  [ ("Carrier", CStr "FedEx"); ("Tracking Number", CStr "466761794075");
    ("Service Description", CStr description); ("Total Charges", CNum (money 5000)) ].


(** a residential surcharge billed to a store, shipped by a private person *)
Definition target_row : Row :=
  [ ("Tracking Number", CStr "466761794075");
    ("Surcharge_Details", CStr "Residential Surcharge: $5.55");
    ("Recipient Name", CStr "Target Store 1123");
    ("Recipient City", CStr "Austin");
    ("Shipper Name", CStr "Jane Doe");
    ("Shipper City", CStr "Tulsa") ].

(** the same surcharge between two businesses *)
Definition b2b_row : Row :=
  [ ("Tracking Number", CStr "466761794076");
    ("Surcharge_Details", CStr "Residential Surcharge: $5.55");
    ("Recipient Name", CStr "Target Store 1123");
    ("Shipper Company Name", CStr "Acme Supply LLC") ].

(** FedEx 2Day shipped Monday 2024-01-01, delivered Thursday 2024-01-04 *)
Definition late_row : Row :=
  [ ("Carrier", CStr "FedEx"); ("Service Type", CStr "ES");
    ("Service Description", CStr "FedEx 2Day");
    ("Tracking Number", CStr "466761794075");
    ("Shipment Date", D 2024 1 1); ("Delivery Date", D 2024 1 4);
    ("Total Charges", CNum (money 4250)) ].

Definition package_row (l w h weight : Z) : Row :=
  [ ("Tracking Number", CStr "466761794075");
    ("Length", CNum (inject_Z l)); ("Width", CNum (inject_Z w));
    ("Height", CNum (inject_Z h)); ("Actual Weight", CNum (inject_Z weight)) ].

(** a light package whose dimension cells are missing or do not read *)
Definition no_dims_row : Row :=
  [ ("Tracking Number", CStr "466761794075");
    ("Length", CNull); ("Width", CStr " "); ("Height", CStr "n/a");
    ("Actual Weight", CNum 10) ].

Definition late_finding (notes_text : string) : Row :=
  [ ("Error Type", CStr "Late Delivery");
    ("Tracking Number", CStr "466761794075");
    ("Date", CStr "2023-12-28");
    ("Refund Estimate", CNum (money 4250));
    ("Notes", CStr notes_text) ].

End Samples.

(** ** What texts are made of *)

Module Text.

(** every character of [s] is [good] *)
Fixpoint all_chars (good : ascii -> bool) (s : string) : bool :=
  match s with
  | EmptyString => true
  | String c t => good c && all_chars good t
  end.

(** the four symbols the clean-up chain of [_get_float_value] takes out *)
Definition is_money_symbol (c : ascii) : bool :=
  Ascii.eqb c "$" || Ascii.eqb c "," || Ascii.eqb c "(" || Ascii.eqb c ")".

(** what is left of a text after [n] digits *)
Fixpoint after_digits (n : nat) (s : string) : option string :=
  match n with
  | O => Some s
  | S m =>
      match s with
      | String c t => if PyStr.is_digit c then after_digits m t else None
      | EmptyString => None
      end
  end.

(** the shape of a date printed with [%Y-%m-%d] *)
Definition is_ymd (s : string) : Prop :=
  exists y1 y2 y3 y4 m1 m2 d1 d2,
    s = String y1 (String y2 (String y3 (String y4 (String "-"
          (String m1 (String m2 (String "-" (String d1 (String d2 "")))))))))
    /\ Forall (fun c => PyStr.is_digit c = true) [y1; y2; y3; y4; m1; m2; d1; d2].

End Text.

(** ** The Oversize arm of [check_disputable_surcharges] *)

Module Surcharges.
Import Frame Engine.

Section WithRuntime.
Context {RT : Runtime}.

Definition is_oversize (p : Package) : bool :=
  Num.ltb 96 (longest p) || Num.ltb 130 (longest p + girth p).

(** The arm [elif desc == 'OVERSIZE CHARGE'] *)
Definition oversize_arm (p : Package) (amount : Q) : option Dispute :=
  let length_plus_girth := longest p + girth p in
  if negb (is_oversize p) && Num.ltb 0 (longest p) then
    Some {| reason := "Oversize charge applied but thresholds not met";
            refund := amount;
            dispute_notes :=
              "L=" ++ format_1f (longest p) ++ dquote ++ ", L+G="
                ++ format_1f length_plus_girth ++ dquote
                ++ " (thresholds: >96" ++ dquote ++ " OR >130" ++ dquote ++ ")" |}
  else None.

End WithRuntime.

(** each element is at least the one after it *)
Fixpoint descending (l : list Q) : Prop :=
  match l with
  | [] => True
  | x :: t => match t with [] => True | y :: _ => y <= x end /\ descending t
  end.

End Surcharges.

(** ** Actionable errors ([get_actionable_errors]) *)

Module Claims.
Import Frame Engine.

Definition actionable_error_types : list string :=
  ["Late Delivery"; "Duplicate Tracking"; "Disputable Surcharge"].

(** a row of the frame [get_actionable_errors] returns: the finding and
    the two columns added to it *)
Record Claim : Type := {
  claim_finding : Finding;
  claim_status : string;        (* 'Claim Status' *)
  claim_priority : string       (* 'Claim Priority' *)
}.

(** [x >= t] and [x < t] on a float column: False on NaN *)
Definition float_ge (x : PyFloat) (t : Q) : bool :=
  match x with PNum q => Num.leb t q | PNaN => false end.

Definition float_lt (x : PyFloat) (t : Q) : bool :=
  match x with PNum q => Num.ltb q t | PNaN => false end.

(** the three assignments to ['Claim Priority'] *)
Definition priority_of (refund : PyFloat) : string :=
  let high_value_threshold := 50 in
  let low_value_threshold := 10 in
  let priority := "Medium" in
  let priority := if float_ge refund high_value_threshold then "High" else priority in
  if float_lt refund low_value_threshold then "Low" else priority.

(** [get_actionable_errors] on the frame of the findings *)
Definition get_actionable_errors (findings : list Finding) : list Claim :=
  map (fun f => {| claim_finding := f;
                   claim_status := "Ready to Submit";
                   claim_priority := priority_of (refund_estimate f) |})
      (filter (fun f => str_mem (error_type f) actionable_error_types) findings).


End Claims.

(** ** Postal codes and addresses ([_get_zip], [_get_address]) *)

Module Address.
Import Frame.

Section WithRuntime.
Context {RT : Runtime}.

Definition zip_candidates : list string :=
  ["Recipient Postal Code"; "Recipient Zip"; "Destination ZIP"; "Destination Zip";
   "Recipient PostalCode"; "Postal Code"; "Recipient Postal"].

(** [s.split(c)[0]] *)
Fixpoint before_char (c : ascii) (s : string) : string :=
  match s with
  | EmptyString => EmptyString
  | String d t => if Ascii.eqb d c then EmptyString else String d (before_char c t)
  end.

(** [s[:n]] *)
Fixpoint take (n : nat) (s : string) : string :=
  match n, s with
  | S m, String d t => String d (take m t)
  | _, _ => EmptyString
  end.

(** [''.join(c for c in s if c.isdigit())] *)
Fixpoint digits_only (s : string) : string :=
  match s with
  | EmptyString => EmptyString
  | String d t => if PyStr.is_digit d then String d (digits_only t) else digits_only t
  end.

(** [_get_zip] *)
Definition _get_zip (row : Row) : string :=
  let z := _get_text row zip_candidates in
  if negb (PyStr.nonempty z) then ""
  else
    let z_clean := PyStr.strip z in
    if PyStr.contains "-" z_clean then take 5 (before_char "-" z_clean)
    else take 5 (digits_only z_clean).

(** [_get_address] *)
Definition _get_address (row : Row) : string :=
  _get_text row
    ["Destination Address"; "Recipient Address"; "Recipient Original Address";
     "Ship To Address"; "Delivery Address"].

End WithRuntime.
End Address.

(** ** The misc non-shipment detector ([audits/misc_nonship.py]) *)

Module Misc.
Import Frame Re.

Definition MISC_PAYTYPE_MAP : list (string * string) :=
  [ ("other4", "Misc Adjustment");
    ("other3", "Misc Adjustment");
    ("adjustment", "Manual Adjustment");
    ("miscfee", "Misc Fee");
    ("paperinvoice", "Paper Invoice Fee");
    ("dutytax", "Duties/Taxes");
    ("addresscorrection", "Address Correction") ].

Definition MISC_SCORE_THRESHOLD : nat := 3.

(** [(\d{12}|\d{15}|\d{22})] *)
Definition tracking_pattern : regex :=
  Alt (Rep 12 Dg) (Alt (Rep 15 Dg) (Rep 22 Dg)).

(** [$]: the end of the text, or the newline that ends it *)
Definition at_end (rest : string) : bool :=
  match rest with
  | EmptyString => true
  | String c EmptyString => Ascii.eqb c "010"
  | _ => false
  end.

(** a normalized row: the columns [normalize] adds, beside the row itself *)
Record NormRow : Type := {
  original : Row;
  opco : string;
  service_type : string;
  service_desc : string;
  pay_type : string;
  ship_to : string;
  desc : string;
  tracking : string;
  ship_date_norm : option Z;
  deliv_date_norm : option Z;
  amount_num : Q;
  is_service_blank : bool;
  is_deliv_missing : bool;
  is_paytype_misc : bool;
  is_shipto_missing : bool;
  is_nonstandard_tracking : bool;
  misc_score : nat;
  is_misc_non_shipment : bool;
  misc_confidence : Q;
  misc_category : string
}.

(** a row of the by-category rollup *)
Record CategoryRow : Type := {
  category : string;
  count : nat;
  total : Q
}.

(** a row of the by-month rollup *)
Record MonthRow : Type := {
  month : string;
  month_total : Q
}.

Record MiscSummary : Type := {
  count_misc : nat;
  sum_misc : Q;
  avg_misc : Q
}.

(** [sorted] on strings, as [groupby] orders its keys *)
Fixpoint insert_string (x : string) (l : list string) : list string :=
  match l with
  | [] => [x]
  | y :: t => if String.leb x y then x :: l else y :: insert_string x t
  end.

Definition sort_strings (l : list string) : list string :=
  fold_right insert_string [] l.

(** [sort_values('total', ascending=False)]: rows of equal total keep
    their order *)
Fixpoint insert_by_total (x : CategoryRow) (l : list CategoryRow) : list CategoryRow :=
  match l with
  | [] => [x]
  | y :: t => if Num.ltb (total x) (total y) then y :: insert_by_total x t else x :: l
  end.

Definition sort_by_total (l : list CategoryRow) : list CategoryRow :=
  fold_right insert_by_total [] l.

Definition bool_count (b : bool) : nat := if b then 1%nat else 0%nat.

Section WithRuntime.
Context {RT : Runtime}.

(** [pd.to_numeric(column, errors='coerce')] at a cell of the column *)
Variable to_numeric_cell : Cell -> option Q.

(** the year of a timestamp *)
Definition year_of (t : Z) : Z :=
  let '(y, _, _) := Calendar.civil_from_days (Calendar.day_of t) in y.

(** [parse_date_safe]; [None] is NaT *)
Definition parse_date_safe (s : Cell) : option Z :=
  match s with
  | CNull => None
  | _ =>
      match to_datetime s with
      | Some dt => if (year_of dt =? 1900)%Z then None else Some dt
      | None => None
      end
  end.

(** [is_valid_tracking] *)
Definition is_valid_tracking (x : Cell) : bool :=
  match x with
  | CNull => false
  | _ =>
      let s := PyStr.strip (py_str x) in
      match run tracking_pattern None s
              (fun _ rest => if at_end rest then Some tt else None) with
      | Some _ => true
      | None => false
      end
  end.

(** [get_column]: the first of the names that is a column, a column of
    the default otherwise *)
Definition get_column (row : Row) (possible_names : list string) : Cell :=
  match find (fun name => row_has name row) possible_names with
  | Some name => row_get_default name (CStr "") row
  | None => CStr ""
  end.

(** [.fillna('').astype(str)] *)
Definition filled_text (c : Cell) : string :=
  match c with CNull => "" | _ => py_str c end.

(** [.fillna('').astype(str).str.strip().str.lower()] *)
Definition lowered (c : Cell) : string := PyStr.lower (PyStr.strip (filled_text c)).

(** the amount column: the first of the three names that is a column,
    then a column named [amount], read with [pd.to_numeric] and NaN
    filled with 0.0 *)
Definition amount_of (row : Row) : Q :=
  let fill := fun c => match to_numeric_cell c with Some q => q | None => 0 end in
  match find (fun name => row_has name row)
          ["Shipment Miscellaneouse Charge USD";
           "Shipment Miscellaneous Charge USD"; "Charge Amount USD"] with
  | Some amount_col => fill (row_get_default amount_col CNull row)
  | None =>
      match row_get "amount" row with
      | Some c => fill c
      | None => 0
      end
  end.

(** [assign_category] *)
Definition assign_category (desc pay_type : string) : string :=
  let desc := PyStr.lower desc in
  if PyStr.contains "address correction" desc then "Address Correction"
  else if PyStr.any_in ["dutie"; "vat"; "tax"] desc then "Duties/Taxes"
  else if PyStr.contains "paper" desc && PyStr.contains "invoice" desc
  then "Paper Invoice Fee"
  else
    let pay_type := PyStr.lower pay_type in
    match find (fun kc => PyStr.contains (fst kc) pay_type) MISC_PAYTYPE_MAP with
    | Some (_, category) => category
    | None => "Misc Adjustment"
    end.

(** [normalize], row by row *)
Definition normalize_row (row : Row) : NormRow :=
  let opco := lowered (get_column row ["Carrier"; "OPCO"]) in
  let service_type := lowered (get_column row ["Service Type"]) in
  let service_desc := lowered (get_column row ["Service Description"]) in
  let pay_type := lowered (get_column row ["Pay Type"]) in
  let ship_to := PyStr.strip (filled_text (get_column row ["Recipient Name"])) in
  let desc := lowered (get_column row ["Charge Description"]) in
  let tracking_col := get_column row ["Tracking Number"; "Shipment Tracking Number"] in
  let date_col := get_column row ["Shipment Date"; "Shipment Date (mm/dd/yyyy)"] in
  let deliv_col :=
    get_column row ["Delivery Date"; "Shipment Delivery Date (mm/dd/yyyy)"] in
  let tracking := PyStr.strip (filled_text tracking_col) in
  let ship_date_norm := parse_date_safe date_col in
  let deliv_date_norm := parse_date_safe deliv_col in
  let is_service_blank := String.eqb service_type "" && String.eqb service_desc "" in
  let is_deliv_missing :=
    match deliv_date_norm with None => true | Some _ => false end in
  let is_paytype_misc :=
    String.eqb (PyStr.strip pay_type) ""
    || PyStr.contains "other4" (PyStr.lower pay_type) in
  let is_shipto_missing := String.eqb ship_to "" in
  let is_nonstandard_tracking := negb (is_valid_tracking (CStr tracking)) in
  let misc_score :=
    (bool_count is_service_blank + bool_count is_deliv_missing
     + bool_count is_paytype_misc + bool_count is_shipto_missing
     + bool_count is_nonstandard_tracking)%nat in
  let num_features := 5%nat in
  {| original := row;
     opco := opco;
     service_type := service_type;
     service_desc := service_desc;
     pay_type := pay_type;
     ship_to := ship_to;
     desc := desc;
     tracking := tracking;
     ship_date_norm := ship_date_norm;
     deliv_date_norm := deliv_date_norm;
     amount_num := amount_of row;
     is_service_blank := is_service_blank;
     is_deliv_missing := is_deliv_missing;
     is_paytype_misc := is_paytype_misc;
     is_shipto_missing := is_shipto_missing;
     is_nonstandard_tracking := is_nonstandard_tracking;
     misc_score := misc_score;
     is_misc_non_shipment := (MISC_SCORE_THRESHOLD <=? misc_score)%nat;
     misc_confidence := inject_Z (Z.of_nat misc_score) / inject_Z (Z.of_nat num_features);
     misc_category := assign_category desc pay_type |}.

Definition normalize (df : DataFrame) : list NormRow := map normalize_row df.

End WithRuntime.

(** the rows of one key *)
Definition rows_of_category (queue : list NormRow) (k : string) : list NormRow :=
  filter (fun r => String.eqb (misc_category r) k) queue.

Definition amounts (rows : list NormRow) : list Q := map amount_num rows.

(** [queue.groupby('misc_category').agg(count=..., total=...)]: one row a
    category, in the order of the categories *)
Definition group_by_category (queue : list NormRow) : list CategoryRow :=
  map (fun k =>
         let rows := rows_of_category queue k in
         {| category := k;
            count := List.length rows;
            total := Num.sum (amounts rows) |})
      (sort_strings (nodup string_dec (map misc_category queue))).

(** [ship_date_norm.dt.to_period('M').astype(str)] *)
Definition month_of (t : Z) : string :=
  let '(y, m, _) := Calendar.civil_from_days (Calendar.day_of t) in
  (Calendar.pad 4 y ++ "-" ++ Calendar.pad 2 m)%string.

Definition month_key (r : NormRow) : option string :=
  option_map month_of (ship_date_norm r).


Definition rows_of_month (queue : list NormRow) (k : string) : list NormRow :=
  filter (fun r => match month_key r with
                   | Some m => String.eqb m k
                   | None => false
                   end) queue.

Definition group_by_month (queue : list NormRow) : list MonthRow :=
  map (fun k => {| month := k; month_total := Num.sum (amounts (rows_of_month queue k)) |})
      (sort_strings
         (nodup string_dec
            (flat_map (fun r => match month_key r with
                                | Some m => [m]
                                | None => []
                                end) queue))).

(** [build_misc_views] *)
Definition build_misc_views (df : list NormRow)
    : list NormRow * list CategoryRow * list MonthRow * MiscSummary :=
  let queue := filter is_misc_non_shipment df in
  let by_cat := sort_by_total (group_by_category queue) in
  let by_month := group_by_month queue in
  let summary :=
    {| count_misc := List.length queue;
       sum_misc := match queue with [] => 0 | _ => Num.sum (amounts queue) end;
       avg_misc :=
         match queue with
         | [] => 0
         | _ => Num.sum (amounts queue) / inject_Z (Z.of_nat (List.length queue))
         end |} in
  (queue, by_cat, by_month, summary).




(** the labels [assign_category] can give *)
Definition misc_categories : list string :=
  ["Address Correction"; "Duties/Taxes"; "Paper Invoice Fee";
   "Misc Adjustment"; "Manual Adjustment"; "Misc Fee"].

End Misc.

(** ** Duplicate surcharges ([check_disputable_surcharges]) *)

Module DuplicateSurcharges.
Import Frame Engine.

(** float addition and scaling: NaN absorbs *)
Definition float_add (a b : PyFloat) : PyFloat :=
  match a, b with
  | PNum x, PNum y => PNum (x + y)
  | _, _ => PNaN
  end.

Definition float_scale (a : PyFloat) (q : Q) : PyFloat :=
  match a with PNum x => PNum (x * q) | PNaN => PNaN end.

(** [sum(xs)] of floats *)
Definition float_sum (xs : list PyFloat) : PyFloat := fold_left float_add xs (PNum 0).

(** the keys of [Counter(seen_desc)], in the order they were first seen *)
Fixpoint first_seen (seen : list string) (l : list string) : list string :=
  match l with
  | [] => []
  | x :: t =>
      if str_mem x seen then first_seen seen t else x :: first_seen (x :: seen) t
  end.

Definition count_of (desc : string) (seen_desc : list string) : nat :=
  List.length (filter (String.eqb desc) seen_desc).

(** [bucket[desc]]: the amounts of the entries of a description, added
    up in their order *)
Definition bucket_of (desc : string) (surcharges : list (string * PyFloat)) : PyFloat :=
  float_sum (map snd (filter (fun da => String.eqb desc (fst da)) surcharges)).

Section WithRuntime.
Context {RT : Runtime}.

(** [f'{x:.2f}'] of a float *)
Definition format_2f_float (x : PyFloat) : string :=
  match x with PNum q => format_2f q | PNaN => "nan" end.

Definition count_text (cnt : nat) : string := Calendar.string_of_Z (Z.of_nat cnt).

(** the finding appended for a description seen [cnt] times *)
Definition duplicate_surcharge_finding (row : Row) (desc : string) (cnt : nat)
    (total_amt : PyFloat) : Finding :=
  let blank := String.eqb desc "BLANK DESCRIPTION CHARGE" in
  let context :=
    surcharge_finding row desc 0 {| reason := ""; refund := 0; dispute_notes := "" |} in
  {| error_type := "Disputable Surcharge";
     tracking_number := row_get_default "Tracking Number" (CStr "") row;
     date := date context;
     carrier := carrier context;
     service_type := service_type context;
     dispute_reason :=
       if blank then
         "Multiple charges (" ++ count_text cnt
           ++ "x) with blank descriptions - FedEx must provide reason for all charges"
       else "Duplicate surcharge appears " ++ count_text cnt ++ " times";
     refund_estimate :=
       if blank then total_amt
       else float_scale total_amt
              (inject_Z (Z.of_nat cnt - 1) / inject_Z (Z.of_nat cnt));
     notes :=
       if blank then
         "Blank description charges billed " ++ count_text cnt ++ "x, total $"
           ++ format_2f_float total_amt
       else desc ++ " billed " ++ count_text cnt ++ "x, total $"
              ++ format_2f_float total_amt |}.

(** the loop over [Counter(seen_desc)] that closes the body of a row *)
Definition duplicate_surcharge_findings (row : Row)
    (surcharges : list (string * PyFloat)) : list Finding :=
  let seen_desc := map fst surcharges in
  flat_map
    (fun desc =>
       let cnt := count_of desc seen_desc in
       if (1 <? cnt)%nat
       then [duplicate_surcharge_finding row desc cnt (bucket_of desc surcharges)]
       else [])
    (first_seen [] seen_desc).

End WithRuntime.

(** *** The consolidation that ends the check *)

Definition is_duplicate_surcharge (f : Finding) : bool :=
  PyStr.startswith "Duplicate surcharge" (dispute_reason f).

Section Consolidation.

(** two tracking numbers are the same key of a [dict] *)
Variable same_key : Cell -> Cell -> bool.





End Consolidation.


(** two totals are the same number, or both NaN *)
Definition same_total (a b : option Q) : Prop :=
  match a, b with
  | Some x, Some y => x == y
  | None, None => True
  | _, _ => False
  end.

(** the total of two lists put together *)
Definition add_totals (a b : option Q) : option Q :=
  match a, b with Some x, Some y => Some (x + y) | _, _ => None end.


End DuplicateSurcharges.

(** ** The discrete surcharge columns ([check_disputable_surcharges]) *)

Module SurchargeColumns.
Import Frame Engine.

Section WithRuntime.
Context {RT : Runtime}.

Definition surcharge_columns : list string :=
  [ "Address Correction"; "Residential Surcharge";
    "Saturday Delivery"; "Saturday Pickup"; "Sunday Delivery"; "Return Fee";
    "Redirect Fee";
    "Hold at Location"; "Additional Handling"; "Oversize Charge";
    "Overweight Charge"; "Peak Surcharge";
    "Peak Additional Handling"; "Peak Oversize"; "Peak Residential";
    "Fuel Surcharge"; "Declared Value Charge";
    "Brokerage Fee"; "Duty and Tax"; "Entry Preparation"; "Clearance Entry";
    "Missing Documentation";
    "Attempted Delivery"; "Undeliverable"; "Weight Correction";
    "DIM Weight Adjustment"; "Unauthorized Package" ].

(** one pass of the loop over the surcharge columns *)
Definition column_entry (row : Row) (col : string) : list (string * PyFloat) :=
  if row_has col row then
    match charge row col with
    | Some amt => if truthy amt then [(Canon.canonize col, amt)] else []
    | None => []
    end
  else [].

(** [indiv]: the entries read off the discrete surcharge columns *)
Definition indiv_surcharges (row : Row) : list (string * PyFloat) :=
  flat_map (column_entry row) surcharge_columns.

End WithRuntime.
End SurchargeColumns.

(** ** Further sample inputs *)

Module Cases.
Import Frame Engine Samples Claims.

(** two freight lines of two tracking numbers *)
Definition distinct_lines : DataFrame :=
  [ freight_line "FedEx" "466761794075" (money 5000);
    freight_line "FedEx" "466761794076" (money 5000) ].

(** a duplicate-tracking finding as the filing filter sees it *)
Definition duplicate_claim : Row :=
  [ ("Error Type", CStr "Duplicate Tracking");
    ("Tracking Number", CStr "466761794075");
    ("Date", CStr "2023-12-28");
    ("Invoice Date", CStr "2024-01-10");
    ("Refund Estimate", CNum (money 5000));
    ("Notes", CStr "Tracking 466761794075 billed 2 times") ].

(** a lost-package finding with a ship date only *)
Definition lost_claim : Row :=
  [ ("Error Type", CStr "Lost Package");
    ("Tracking Number", CStr "466761794077");
    ("Shipment Date", CStr "2023-11-01");
    ("Refund Estimate", CNum (money 12000)) ].

Definition claims_frame : DataFrame :=
  [ late_finding "Expected: 2023-12-29, Actual: 2024-01-01"; duplicate_claim; lost_claim ].

(** a Late Delivery finding of medium value *)
Definition medium_finding : Finding :=
  {| error_type := "Late Delivery";
     tracking_number := CStr "466761794075";
     date := "2024-01-01";
     carrier := CStr "FedEx";
     service_type := CStr "ES";
     dispute_reason := "Package delivered 1 day(s) late";
     refund_estimate := PNum (money 4250);
     notes := "Expected: 2024-01-03, Actual: 2024-01-04" |}.

(** a row that carries an amount in both handling columns *)
Definition both_handling_row : Row :=
  [ ("Tracking Number", CStr "466761794075");
    ("Additional Handling", CNum (money 1200));
    ("Peak Additional Handling", CNum (money 300)) ].


Definition fuel_and_residential : list (string * PyFloat) :=
  [ ("FUEL SURCHARGE", PNum (money 500)); ("RESIDENTIAL SURCHARGE", PNum (money 400)) ].


End Cases.

(** * Properties *)

Import Frame Engine Samples.

Local Open Scope list_scope.

(** ** Comparisons on amounts *)

Lemma ltb_true (a b : Q) : Num.ltb a b = true <-> a < b.
Proof.
  unfold Num.ltb. rewrite negb_true_iff. split; intro H.
  - apply Qnot_le_lt. intro L. apply Qle_bool_iff in L. congruence.
  - destruct (Qle_bool b a) eqn:E; [|reflexivity].
    apply Qle_bool_iff in E. exfalso. exact (Qlt_not_le _ _ H E).
Qed.

Lemma ltb_false (a b : Q) : Num.ltb a b = false <-> b <= a.
Proof.
  unfold Num.ltb. rewrite negb_false_iff. apply Qle_bool_iff.
Qed.

Lemma leb_true (a b : Q) : Num.leb a b = true <-> a <= b.
Proof. apply Qle_bool_iff. Qed.

Lemma leb_false (a b : Q) : Num.leb a b = false <-> b < a.
Proof.
  unfold Num.leb. split; intro H.
  - apply Qnot_le_lt. intro L. apply Qle_bool_iff in L. congruence.
  - destruct (Qle_bool a b) eqn:E; [|reflexivity].
    apply Qle_bool_iff in E. exfalso. exact (Qlt_not_le _ _ H E).
Qed.

Lemma eqb_true (a b : Q) : Num.eqb a b = true <-> a == b.
Proof. apply Qeq_bool_iff. Qed.

Lemma some_injective {A} (a b : A) : Some a = Some b -> a = b.
Proof. intro H. injection H as H. exact H. Qed.

(** ** The matcher against the meaning of the patterns *)

Section Matcher.
Import Re.

Lemma orelse_some {A} (x y : option A) (v : A) :
  orelse x y = Some v -> x = Some v \/ (x = None /\ y = Some v).
Proof. destruct x; simpl; auto. Qed.

Lemma orelse_found {A} (x y : option A) :
  orelse x y <> None <-> x <> None \/ y <> None.
Proof.
  destruct x; simpl; split; intro H.
  - left. discriminate.
  - discriminate.
  - right. exact H.
  - destruct H as [H|H]; [congruence | exact H].
Qed.

(** a match leaves a suffix of the text, and one that uses up nothing
    leaves the context as it was *)
Lemma matches_suffix (r : regex) (p : option ascii) (s : string)
    (p' : option ascii) (s' : string) :
  matches r p s p' s' ->
  (String.length s' <= String.length s)%nat
  /\ (String.length s' = String.length s -> p' = p /\ s' = s).
Proof.
  induction 1; simpl.
  - split; [lia | auto].
  - split; [lia | intro; lia].
  - split; [lia | intro; lia].
  - split; [lia | intro; lia].
  - split; [lia | auto].
  - destruct IHmatches1 as [L1 E1], IHmatches2 as [L2 E2]. split; [lia|].
    intro E. destruct E1 as [-> ->]; [lia|]. apply E2. exact E.
  - exact IHmatches.
  - exact IHmatches.
  - exact IHmatches.
  - split; [lia | auto].
  - split; [lia | auto].
  - destruct IHmatches1 as [L1 E1], IHmatches2 as [L2 E2]. split; [lia|].
    intro E. destruct E1 as [-> ->]; [lia|]. apply E2. exact E.
Qed.

Section Sound.
Variable A : Type.

Lemma star_loop_sound (r : regex) (k : option ascii -> string -> option A) (x : A) :
  (forall p s k', run r p s k' = Some x ->
     exists p' s', matches r p s p' s' /\ k' p' s' = Some x) ->
  forall fuel p s,
    star_loop (fun p t k' => run r p t k') k fuel p s = Some x ->
    exists p' s', matches (Star r) p s p' s' /\ k p' s' = Some x.
Proof.
  intros Hr. induction fuel as [|f IH]; intros p s H; simpl in H.
  - exists p, s. split; [constructor | exact H].
  - apply orelse_some in H as [H | [_ H]].
    + apply Hr in H as (p1 & s1 & Hm & H).
      destruct (String.length s1 <? String.length s)%nat; [|discriminate].
      apply IH in H as (p2 & s2 & Hm2 & H).
      exists p2, s2. split; [econstructor; eassumption | exact H].
    + exists p, s. split; [constructor | exact H].
Qed.

End Sound.

(** Soundness: what the matcher accepts is a match. *)
Lemma run_sound (r : regex) :
  forall A p s (k : option ascii -> string -> option A) x,
    run r p s k = Some x ->
    exists p' s', matches r p s p' s' /\ k p' s' = Some x.
Proof.
  induction r; intros A p s k x H; simpl in H.
  - exists p, s. split; [constructor | exact H].
  - destruct s as [|d t]; [discriminate|].
    destruct (Ascii.eqb c d) eqn:E; [|discriminate].
    apply Ascii.eqb_eq in E. subst d.
    exists (Some c), t. split; [constructor | exact H].
  - destruct s as [|d t]; [discriminate|].
    destruct (Ascii.eqb d "010") eqn:E; [discriminate|].
    exists (Some d), t. split; [constructor; exact E | exact H].
  - destruct s as [|d t]; [discriminate|].
    destruct (existsb (item_matches d) items) eqn:E; [|discriminate].
    exists (Some d), t. split; [constructor; exact E | exact H].
  - destruct (xorb (word_opt p) (word_opt (head s))) eqn:E; [|discriminate].
    exists p, s. split; [constructor; exact E | exact H].
  - apply IHr1 in H as (p1 & s1 & H1 & H).
    apply IHr2 in H as (p2 & s2 & H2 & H).
    exists p2, s2. split; [econstructor; eassumption | exact H].
  - apply orelse_some in H as [H | [_ H]].
    + apply IHr1 in H as (p1 & s1 & H1 & H).
      exists p1, s1. split; [apply MAltL; exact H1 | exact H].
    + apply IHr2 in H as (p1 & s1 & H1 & H).
      exists p1, s1. split; [apply MAltR; exact H1 | exact H].
  - apply orelse_some in H as [H | [_ H]].
    + apply IHr in H as (p1 & s1 & H1 & H).
      exists p1, s1. split; [apply MOptSome; exact H1 | exact H].
    + exists p, s. split; [apply MOptNone | exact H].
  - apply (star_loop_sound A r k x (fun p s k0 => IHr A p s k0 x)) in H. exact H.
Qed.

Lemma star_loop_stop {A} (body : option ascii -> string ->
                                 (option ascii -> string -> option A) -> option A)
    (k : option ascii -> string -> option A) (fuel : nat) p s :
  k p s <> None -> star_loop body k fuel p s <> None.
Proof.
  intro H. destruct fuel; simpl; [exact H|].
  apply orelse_found. right. exact H.
Qed.

(** Completeness: the matcher finds a match whenever there is one the
    rest of the pattern accepts. *)
Lemma run_complete_gen (r : regex) p s p' s' :
  matches r p s p' s' ->
  forall A (k : option ascii -> string -> option A),
    k p' s' <> None ->
    run r p s k <> None
    /\ forall r1, r = Star r1 ->
         forall fuel, (String.length s <= fuel)%nat ->
           star_loop (fun p t k' => run r1 p t k') k fuel p s <> None.
Proof.
  induction 1; intros A k Hk.
  1-11: (split; [|intros r1' Hr1; try discriminate Hr1]); simpl.
  - exact Hk.
  - rewrite Ascii.eqb_refl. exact Hk.
  - rewrite H. exact Hk.
  - rewrite H. exact Hk.
  - rewrite H. exact Hk.
  - apply IHmatches1. apply IHmatches2. exact Hk.
  - apply orelse_found. left. apply IHmatches. exact Hk.
  - apply orelse_found. right. apply IHmatches. exact Hk.
  - apply orelse_found. left. apply IHmatches. exact Hk.
  - apply orelse_found. right. exact Hk.
  - apply star_loop_stop. exact Hk.
  - intros fuel Hfuel. injection Hr1 as <-. apply star_loop_stop. exact Hk.
  - assert (Hgen : forall fuel, (String.length s <= fuel)%nat ->
               star_loop (fun p t k' => run r p t k') k fuel p s <> None).
    { intros fuel Hfuel.
      destruct (matches_suffix _ _ _ _ _ H) as [Hle Heq].
      pose proof (proj2 (IHmatches2 A k Hk) r eq_refl) as Hstar.
      destruct (Nat.eq_dec (String.length s1) (String.length s)) as [E|NE].
      - destruct (Heq E) as [-> ->]. apply Hstar. exact Hfuel.
      - destruct fuel as [|f]; [lia|]. simpl. apply orelse_found. left.
        apply IHmatches1.
        assert (Hlt : (String.length s1 <? String.length s)%nat = true)
          by (apply Nat.ltb_lt; lia).
        rewrite Hlt. apply Hstar. lia. }
    split; [apply Hgen; apply Nat.le_refl|].
    intros r1 Hr1. injection Hr1 as <-. exact Hgen.
Qed.

Lemma run_complete (r : regex) p s p' s' A (k : option ascii -> string -> option A) :
  matches r p s p' s' -> k p' s' <> None -> run r p s k <> None.
Proof.
  intros Hm Hk. exact (proj1 (run_complete_gen r p s p' s' Hm A k Hk)).
Qed.

(** [re.search]: a match at some position of the text *)
Lemma search_from_sound (r : regex) A (k : option ascii -> string -> option A) (x : A) :
  forall s prev,
    search_from r prev s k = Some x ->
    exists pre suf p' rest,
      s = (pre ++ suf)%string
      /\ matches r (last_char prev pre) suf p' rest /\ k p' rest = Some x.
Proof.
  induction s as [|c t IH]; intros prev H; simpl in H;
    apply orelse_some in H as [H | [_ H]]; try discriminate.
  - apply run_sound in H as (p' & rest & Hm & H).
    exists "", "", p', rest. auto.
  - apply run_sound in H as (p' & rest & Hm & H).
    exists "", (String c t), p', rest. auto.
  - apply IH in H as (pre & suf & p' & rest & -> & Hm & H).
    exists (String c pre), suf, p', rest. auto.
Qed.

Lemma search_from_complete (r : regex) A (k : option ascii -> string -> option A) :
  forall pre suf prev p' rest,
    matches r (last_char prev pre) suf p' rest -> k p' rest <> None ->
    search_from r prev (pre ++ suf) k <> None.
Proof.
  induction pre as [|c pre IH]; intros suf prev p' rest Hm Hk.
  - simpl in *. destruct suf; simpl; apply orelse_found; left;
      eapply run_complete; eassumption.
  - simpl. apply orelse_found. right. eapply IH; eassumption.
Qed.

(** [search] decides [found]. *)
Lemma search_iff_found (r : regex) (s : string) : search r s = true <-> found r s.
Proof.
  unfold search, found. split.
  - destruct (search_from r None s (fun _ _ => Some tt)) as [[]|] eqn:E; [|discriminate].
    intros _. apply search_from_sound in E as (pre & suf & p' & rest & -> & Hm & _).
    exists pre, suf, p', rest. auto.
  - intros (pre & suf & p' & rest & -> & Hm).
    destruct (search_from r None (pre ++ suf) (fun _ _ => Some tt)) eqn:E; [reflexivity|].
    exfalso. revert E. eapply search_from_complete; [eassumption | discriminate].
Qed.

(** a literal text matches itself and nothing else *)
Lemma matches_Str (w : string) p s p' s' :
  matches (Str w) p s p' s' <-> s = (w ++ s')%string /\ p' = last_char p w.
Proof.
  revert p s. induction w as [|c w IH]; intros p s.
  - simpl. split.
    + intro H. inversion H; subst. auto.
    + intros [-> ->]. constructor.
  - destruct w as [|d w].
    + simpl. split.
      * intro H. inversion H; subst. auto.
      * intros [-> ->]. constructor.
    + change (Str (String c (String d w))) with (Cat (Lit c) (Str (String d w))).
      change (last_char p (String c (String d w)))
        with (last_char (Some c) (String d w)).
      split.
      * intro H. inversion H as [| | | | |r1 r2 q0 t0 q1 t1 q2 t2 H1 H2| | | | | |]; subst.
        inversion H1; subst.
        apply IH in H2 as [-> ->]. auto.
      * intros [-> ->]. apply MCat with (p1 := Some c) (s1 := (String d w ++ s')%string).
        -- constructor.
        -- apply IH. auto.
Qed.

End Matcher.

(** ** Canonicalization *)

(** [canonize] is first-match-wins over the table: it returns the name of
    the earliest pattern that matches the upper-cased, stripped label. *)
Lemma first_match_earliest (table : list (Re.regex * string)) (u name : string) :
  Canon.first_match table u = Some name ->
  exists before pat after,
    table = before ++ (pat, name) :: after /\
    Re.search pat u = true /\
    forall p n, In (p, n) before -> Re.search p u = false.
Proof.
  induction table as [|[pat n] rest IH]; simpl; intro H; [discriminate|].
  destruct (Re.search pat u) eqn:E.
  - injection H as <-. exists [], pat, rest. repeat split; auto.
    intros p n' [].
  - destruct (IH H) as (before & pat' & after & -> & Hs & Hb).
    exists ((pat, n) :: before), pat', after. repeat split; auto.
    intros p n' [Heq|Hin]; [injection Heq as <- <-; exact E | eauto].
Qed.

(** The specific DAS pattern stands before the generic residential one. *)
Example canonize_das_residential :
  Canon.canonize "DAS Residential Surcharge" = "DAS RESIDENTIAL".
Proof. vm_compute. reflexivity. Qed.

Example canonize_demand_additional_handling :
  Canon.canonize "Demand Additional Handling" = "DEMAND ADDITIONAL HANDLING".
Proof. vm_compute. reflexivity. Qed.

Section Shadow.
Import Re Canon.

Lemma last_char_app (p : option ascii) (a b : string) :
  last_char p (a ++ b)%string = last_char (last_char p a) b.
Proof. revert p. induction a as [|c a IH]; intro p; simpl; auto. Qed.

Lemma string_app_assoc (a b c : string) :
  ((a ++ b) ++ c = a ++ (b ++ c))%string.
Proof. induction a as [|x a IH]; simpl; [reflexivity | rewrite IH; reflexivity]. Qed.

(** what a match uses up is a prefix of the text, and the context it
    leaves is the last character used up *)
Lemma matches_consumes (r : regex) p s p' s' :
  matches r p s p' s' ->
  exists w, s = (w ++ s')%string /\ p' = last_char p w.
Proof.
  induction 1.
  - exists "". auto.
  - exists (String c ""). auto.
  - exists (String c ""). auto.
  - exists (String c ""). auto.
  - exists "". auto.
  - destruct IHmatches1 as (w1 & -> & ->), IHmatches2 as (w2 & -> & ->).
    exists (w1 ++ w2)%string. rewrite string_app_assoc, last_char_app. auto.
  - exact IHmatches.
  - exact IHmatches.
  - exact IHmatches.
  - exists "". auto.
  - exists "". auto.
  - destruct IHmatches1 as (w1 & -> & ->), IHmatches2 as (w2 & -> & ->).
    exists (w1 ++ w2)%string. rewrite string_app_assoc, last_char_app. auto.
Qed.

Lemma matches_Cat (r1 r2 : regex) p s p' s' :
  matches (Cat r1 r2) p s p' s' <->
  exists p1 s1, matches r1 p s p1 s1 /\ matches r2 p1 s1 p' s'.
Proof.
  split.
  - intro H. inversion H; subst. eauto.
  - intros (p1 & s1 & H1 & H2). econstructor; eassumption.
Qed.

Lemma found_shift (r : regex) (pre suf : string) p' rest :
  matches r (last_char None pre) suf p' rest -> found r (pre ++ suf)%string.
Proof. intro H. exists pre, suf, p', rest. auto. Qed.

(** Every text the Peak Additional Handling pattern matches is matched by
    the generic Additional Handling pattern, at the word ADDITIONAL. *)
Lemma peak_additional_handling_is_generic (u : string) :
  search peak_additional_handling_pattern u = true ->
  search additional_handling_pattern u = true.
Proof.
  rewrite !search_iff_found. intros (pre & suf & p' & rest & -> & H).
  change peak_additional_handling_pattern
    with (Cat (Str "PEAK") (Cat Sps (Cat (Str "ADDITIONAL") (Cat Sps (Str "HANDLING")))))
    in H.
  apply matches_Cat in H as (p1 & s1 & H1 & H).
  apply matches_Str in H1 as [-> Hp1].
  apply matches_Cat in H as (p2 & s2 & Hsp1 & H).
  apply matches_consumes in Hsp1 as (w1 & -> & Hp2).
  apply matches_Cat in H as (p3 & s3 & H3 & H).
  apply matches_Str in H3 as [-> Hp3].
  apply matches_Cat in H as (p4 & s4 & Hsp2 & H4).
  replace (pre ++ "PEAK" ++ w1 ++ "ADDITIONAL" ++ s3)%string
    with ((pre ++ "PEAK" ++ w1) ++ "ADDITIONAL" ++ s3)%string
    by (rewrite !string_app_assoc; reflexivity).
  apply found_shift with (p' := p') (rest := rest).
  apply MAltL.
  change add_handling
    with (Cat (Str "AD")
           (Cat (Opt (Alt (Cat (Lit "D") (Opt (Lit "'"))) (Str "DL")))
              (Cat (Opt (Str "ITIONAL")) (Cat Sps (Str "HANDLING"))))).
  apply MCat with (p1 := Some "D"%char) (s1 := ("DITIONAL" ++ s3)%string).
  { apply matches_Str. split; reflexivity. }
  apply MCat with (p1 := Some "D"%char) (s1 := ("ITIONAL" ++ s3)%string).
  { apply MOptSome. apply MAltL.
    apply MCat with (p1 := Some "D"%char) (s1 := ("ITIONAL" ++ s3)%string).
    - constructor.
    - apply MOptNone. }
  apply MCat with (p1 := Some "L"%char) (s1 := s3).
  { apply MOptSome. apply matches_Str. split; reflexivity. }
  apply MCat with (p1 := p4) (s1 := s4).
  - subst p3. exact Hsp2.
  - exact H4.
Qed.

(** Every text the Peak Oversize pattern matches is matched by the generic
    Oversize pattern, at the word OVERSIZE. *)
Lemma peak_oversize_is_generic (u : string) :
  search peak_oversize_pattern u = true -> search oversize_pattern u = true.
Proof.
  rewrite !search_iff_found. intros (pre & suf & p' & rest & -> & H).
  change peak_oversize_pattern
    with (Cat (Str "PEAK") (Cat Sps (Str "OVERSIZE"))) in H.
  apply matches_Cat in H as (p1 & s1 & H1 & H).
  apply matches_Str in H1 as [-> Hp1].
  apply matches_Cat in H as (p2 & s2 & Hsp1 & H2).
  apply matches_consumes in Hsp1 as (w1 & -> & Hp2).
  replace (pre ++ "PEAK" ++ w1 ++ s2)%string
    with ((pre ++ "PEAK" ++ w1) ++ s2)%string
    by (rewrite !string_app_assoc; reflexivity).
  apply found_shift with (p' := p') (rest := rest).
  apply MAltL.
  apply matches_Str in H2 as [-> ->]. apply matches_Str. split; reflexivity.
Qed.

Lemma first_match_app (l1 l2 : list (regex * string)) (u : string) :
  first_match (l1 ++ l2) u =
  match first_match l1 u with
  | Some n => Some n
  | None => first_match l2 u
  end.
Proof.
  induction l1 as [|[pat n] l1 IH]; simpl; [reflexivity|].
  destruct (search pat u); [reflexivity | exact IH].
Qed.

(** a table with a matching row returns the name of one of its rows *)
Lemma first_match_hit (l : list (regex * string)) (u : string) (pat : regex) (n : string) :
  In (pat, n) l -> search pat u = true ->
  exists m, first_match l u = Some m /\ In m (map snd l).
Proof.
  induction l as [|[pat' n'] l IH]; simpl; intros Hin Hs; [destruct Hin|].
  destruct (search pat' u) eqn:E.
  - exists n'. auto.
  - destruct Hin as [Heq|Hin].
    + injection Heq as -> ->. congruence.
    + destruct (IH Hin Hs) as (m & Hm & Hin'). exists m. auto.
Qed.

Lemma first_match_row (l : list (regex * string)) (u n : string) :
  first_match l u = Some n -> exists pat, In (pat, n) l /\ search pat u = true.
Proof.
  induction l as [|[pat' n'] l IH]; simpl; [discriminate|].
  destruct (search pat' u) eqn:E.
  - intro H. injection H as <-. exists pat'. auto.
  - intro H. destruct (IH H) as (pat & Hin & Hs). exists pat. auto.
Qed.

(** No label at all comes out as PEAK ADDITIONAL HANDLING or as PEAK
    OVERSIZE: a generic row has taken every text their rows match. *)
Lemma canonize_never_peak (label : string) :
  canonize label <> "PEAK ADDITIONAL HANDLING"
  /\ canonize label <> "PEAK OVERSIZE".
Proof.
  unfold canonize. set (u := PyStr.strip (PyStr.upper label)).
  destruct (first_match CANON u) as [name|] eqn:E.
  - assert (Hgen : name = "PEAK ADDITIONAL HANDLING" \/ name = "PEAK OVERSIZE" ->
                   exists m, first_match (firstn 16 CANON) u = Some m
                             /\ In m (map snd (firstn 16 CANON))).
    { intro Hname. destruct (first_match_row _ _ _ E) as (pat & Hin & Hs).
      assert (Hpat : (pat = peak_additional_handling_pattern
                      /\ name = "PEAK ADDITIONAL HANDLING")
                     \/ (pat = peak_oversize_pattern /\ name = "PEAK OVERSIZE")).
      { unfold CANON in Hin. simpl in Hin.
        repeat (destruct Hin as [Heq|Hin];
                [injection Heq as <- <-;
                 first [ left; split; reflexivity
                       | right; split; reflexivity
                       | exfalso; destruct Hname as [Hn|Hn]; discriminate Hn ] |]).
        destruct Hin. }
      destruct Hpat as [[-> _]|[-> _]].
      - apply peak_additional_handling_is_generic in Hs.
        apply (first_match_hit _ u additional_handling_pattern
                 "ADDITIONAL HANDLING SURCHARGE"); [|exact Hs].
        unfold CANON. simpl. do 12 right. left. reflexivity.
      - apply peak_oversize_is_generic in Hs.
        apply (first_match_hit _ u oversize_pattern "OVERSIZE CHARGE"); [|exact Hs].
        unfold CANON. simpl. do 14 right. left. reflexivity. }
    assert (Hno : name <> "PEAK ADDITIONAL HANDLING" /\ name <> "PEAK OVERSIZE").
    { assert (Hsplit : first_match CANON u
                       = match first_match (firstn 16 CANON) u with
                         | Some n => Some n
                         | None => first_match (skipn 16 CANON) u
                         end).
      { rewrite <- first_match_app, firstn_skipn. reflexivity. }
      split; intro Hname.
      - destruct Hgen as (m & Hm & Hin); [left; exact Hname|].
        rewrite Hsplit, Hm in E. injection E as ->. subst name.
        unfold CANON in Hin. simpl in Hin.
        repeat (destruct Hin as [Heq|Hin]; [discriminate Heq|]). destruct Hin.
      - destruct Hgen as (m & Hm & Hin); [right; exact Hname|].
        rewrite Hsplit, Hm in E. injection E as ->. subst name.
        unfold CANON in Hin. simpl in Hin.
        repeat (destruct Hin as [Heq|Hin]; [discriminate Heq|]). destruct Hin. }
    exact Hno.
  - split; intro Hu; rewrite Hu in E; vm_compute in E; discriminate E.
Qed.

End Shadow.

(** C1.  The table is scanned first-match-wins and the specific pattern
    is meant to be met before the generic one; for the Peak labels it is
    not: the generic Additional Handling, Oversize and Residential rows
    stand earlier in the table than the Peak rows, so
    "Peak Additional Handling" comes out as ADDITIONAL HANDLING SURCHARGE
    and not as PEAK ADDITIONAL HANDLING, and no label whatever comes out
    as PEAK ADDITIONAL HANDLING or as PEAK OVERSIZE. *)
Theorem canonize_peak_additional_handling_shadowed :
  Canon.canonize "Peak Additional Handling" = "ADDITIONAL HANDLING SURCHARGE"%string
  /\ Canon.canonize "Peak Oversize" = "OVERSIZE CHARGE"%string
  /\ Canon.canonize "Peak Residential" = "RESIDENTIAL SURCHARGE"%string
  /\ forall label,
       Canon.canonize label <> "PEAK ADDITIONAL HANDLING"%string
       /\ Canon.canonize label <> "PEAK OVERSIZE"%string.
Proof.
  split; [vm_compute; reflexivity|].
  split; [vm_compute; reflexivity|].
  split; [vm_compute; reflexivity|].
  exact canonize_never_peak.
Qed.

(** ** Residential triage *)

Section Residential.
Context {RT : Runtime}.
Variable patterns : list string.

Lemma in_residential_df (df : DataFrame) (row : Row) :
  In row (residential_df (detect_residential_surcharges patterns df)) <->
  In row df /\ has_residential_surcharge patterns row = true.
Proof.
  unfold residential_df, detect_residential_surcharges.
  rewrite in_map_iff. split.
  - intros ([r b] & <- & Hin). apply filter_In in Hin as [Hin Hb].
    apply in_map_iff in Hin as (r' & Heq & Hr'). injection Heq as -> <-.
    simpl in *. auto.
  - intros [Hin Hf]. exists (row, true). split; [reflexivity|].
    apply filter_In. split; [|reflexivity].
    apply in_map_iff. exists row. rewrite Hf. auto.
Qed.

Lemma in_main_audit_df (df : DataFrame) (row : Row) :
  In row (main_audit_df (detect_residential_surcharges patterns df)) <->
  In row df /\ has_residential_surcharge patterns row = false.
Proof.
  unfold main_audit_df, detect_residential_surcharges.
  rewrite in_map_iff. split.
  - intros ([r b] & <- & Hin). apply filter_In in Hin as [Hin Hb].
    apply in_map_iff in Hin as (r' & Heq & Hr'). injection Heq as -> <-.
    simpl in *. apply negb_true_iff in Hb. auto.
  - intros [Hin Hf]. exists (row, false). split; [reflexivity|].
    apply filter_In. split; [|reflexivity].
    apply in_map_iff. exists row. rewrite Hf. auto.
Qed.

(** C5.  A record of the input whose surcharge fields hold a residential
    pattern is flagged [has_residential_surcharge] and sent to the
    residential review pool exactly when the recipient side or the
    shipper side shows no business indicator; it stays in the main-audit
    pool exactly when both sides show one. *)
Theorem residential_pool_iff_a_side_is_not_business (df : DataFrame) (row : Row) :
  In row df ->
  has_residential patterns row = true ->
  let flagged := detect_residential_surcharges patterns df in
  let not_both :=
    is_recipient_business row = false \/ is_shipper_business row = false in
  (has_residential_surcharge patterns row = true <-> not_both)
  /\ (In row (residential_df flagged) <-> not_both)
  /\ (In row (main_audit_df flagged) <->
      is_recipient_business row = true /\ is_shipper_business row = true)
  /\ (In row (residential_df flagged) -> ~ In row (main_audit_df flagged)).
Proof.
  intros Hin Hres flagged not_both. subst flagged not_both.
  assert (Hflag : has_residential_surcharge patterns row
                  = negb (is_recipient_business row) || negb (is_shipper_business row)).
  { unfold has_residential_surcharge. rewrite Hres. reflexivity. }
  rewrite in_residential_df, in_main_audit_df, Hflag.
  destruct (is_recipient_business row), (is_shipper_business row); simpl;
    intuition (try discriminate; auto).
Qed.

End Residential.

(** The store-and-private-shipper record of the specification goes to the
    residential review pool. *)
Lemma residential_pool_witness :
  In target_row
     (residential_df
        (detect_residential_surcharges default_residential_patterns
           [target_row; b2b_row])).
Proof.
  assert (Hin : In target_row [target_row; b2b_row]) by (left; reflexivity).
  assert (Hres : has_residential default_residential_patterns target_row = true)
    by (vm_compute; reflexivity).
  destruct (residential_pool_iff_a_side_is_not_business (RT := sample_runtime)
              default_residential_patterns [target_row; b2b_row] target_row
              Hin Hres) as (_ & Hpool & _).
  apply Hpool. right. vm_compute. reflexivity.
Defined.

Example b2b_row_stays_in_main_audit :
  main_audit_df
    (detect_residential_surcharges default_residential_patterns
       [target_row; b2b_row]) = [b2b_row].
Proof. vm_compute. reflexivity. Qed.

(** ** The Additional Handling arm *)

Section AdditionalHandling.
Context {RT : Runtime}.

(** the three sorted sizes are the three sizes read from the row *)
Lemma sorted_dims_cases (a b c : Q) :
  let dims := sort_desc [a; b; c] ++ [0; 0; 0] in
  (nth 0 dims 0 = a \/ nth 0 dims 0 = b \/ nth 0 dims 0 = c).
Proof.
  unfold sort_desc. simpl.
  destruct (Num.ltb b c); simpl;
    repeat match goal with
           | |- context [if Num.ltb ?x ?y then _ else _] =>
               destruct (Num.ltb x y); simpl
           end; auto.
Qed.

Lemma longest_is_a_dimension (row : Row) :
  longest (package_of row) = _get_dimension row "length"
  \/ longest (package_of row) = _get_dimension row "width"
  \/ longest (package_of row) = _get_dimension row "height".
Proof.
  unfold package_of. cbn [longest].
  apply (sorted_dims_cases (_get_dimension row "length")
           (_get_dimension row "width") (_get_dimension row "height")).
Qed.

Lemma needs_handling_false (p : Package) :
  needs_handling p = false <->
  longest p <= 48 /\ second p <= 30 /\ longest p + girth p <= 105 /\ actual_wt p < 50.
Proof.
  unfold needs_handling.
  rewrite !orb_false_iff, !ltb_false, leb_false. tauto.
Qed.

Lemma additional_handling_arm_some (p : Package) (amount : Q) :
  (exists d, additional_handling_arm p amount = Some d) <->
  needs_handling p = false /\ 0 < longest p.
Proof.
  unfold additional_handling_arm.
  destruct (needs_handling p); simpl.
  - split; [intros [d H]; discriminate | intros [H _]; discriminate].
  - destruct (Num.ltb 0 (longest p)) eqn:E.
    + apply ltb_true in E. split; eauto.
    + apply ltb_false in E. split; [intros [d H]; discriminate|].
      intros [_ H]. exfalso. exact (Qlt_not_le _ _ H E).
Qed.

Lemma additional_handling_arm_refund (p : Package) (amount : Q) (d : Dispute) :
  additional_handling_arm p amount = Some d -> refund d = amount.
Proof.
  unfold additional_handling_arm.
  destruct (negb (needs_handling p) && Num.ltb 0 (longest p)); [|discriminate].
  intro H. apply some_injective in H. rewrite <- H. reflexivity.
Qed.

(** C7, as the code has it.  An Additional Handling surcharge is flagged
    disputable exactly when the package meets none of the handling
    thresholds (longest side at most 48 in, second at most 30 in, longest
    plus girth at most 105 in, weight under 50 lb) and its longest
    resolved dimension is greater than zero; the finding refunds the
    whole surcharge amount. *)
Theorem additional_handling_flagged_iff (row : Row) (amount : Q) :
  let p := package_of row in
  (additional_handling_findings row amount <> [] <->
     (longest p <= 48 /\ second p <= 30 /\ longest p + girth p <= 105
      /\ actual_wt p < 50) /\ 0 < longest p)
  /\ (forall f, In f (additional_handling_findings row amount) ->
        refund_estimate f = PNum amount
        /\ error_type f = "Disputable Surcharge"%string)
  /\ (List.length (additional_handling_findings row amount) <= 1)%nat.
Proof.
  intro p. subst p. unfold additional_handling_findings.
  pose proof (additional_handling_arm_some (package_of row) amount) as Harm.
  rewrite needs_handling_false in Harm.
  destruct (additional_handling_arm (package_of row) amount) as [d|] eqn:E.
  - split; [|split].
    + split; [intros _; apply Harm; eauto | intros _; discriminate].
    + intros f [<-|[]]. simpl. split; [|reflexivity].
      f_equal. exact (additional_handling_arm_refund _ _ _ E).
    + simpl. lia.
  - split; [|split].
    + split; [intro H; exfalso; apply H; reflexivity|].
      intro Hc. apply Harm in Hc as [d Hd]. discriminate.
    + intros f [].
    + simpl. lia.
Qed.

(** C10.  When length, width and height all resolve to 0 the Additional
    Handling surcharge is never flagged, whatever the weight. *)
Theorem additional_handling_never_without_dimensions (row : Row) (amount : Q) :
  _get_dimension row "length" == 0 ->
  _get_dimension row "width" == 0 ->
  _get_dimension row "height" == 0 ->
  additional_handling_findings row amount = [].
Proof.
  intros HL HW HH. unfold additional_handling_findings, additional_handling_arm.
  assert (Hz : longest (package_of row) == 0).
  { destruct (longest_is_a_dimension row) as [-> | [-> | ->]]; assumption. }
  assert (E : Num.ltb 0 (longest (package_of row)) = false).
  { apply ltb_false. rewrite Hz. apply Qle_refl. }
  rewrite E, andb_false_r. reflexivity.
Qed.

(** A dimension resolves to 0 when every candidate column is absent,
    null, blank, unreadable or not positive. *)
Lemma first_dimension_zero (row : Row) (candidates : list string) :
  (forall c v, In c candidates -> row_get c row = Some v -> cell_dimension v = None) ->
  first_dimension row candidates = 0.
Proof.
  induction candidates as [|c rest IH]; intro H; simpl; [reflexivity|].
  destruct (row_get c row) as [v|] eqn:E.
  - rewrite (H c v (or_introl eq_refl) E). apply IH.
    intros c' v' Hin. apply H. right. exact Hin.
  - apply IH. intros c' v' Hin. apply H. right. exact Hin.
Qed.

End AdditionalHandling.

Lemma additional_handling_never_without_dimensions_witness :
  additional_handling_findings (RT := sample_runtime) no_dims_row 12 = [].
Proof.
  apply (additional_handling_never_without_dimensions (RT := sample_runtime)
           no_dims_row 12); vm_compute; reflexivity.
Defined.

(** The two packages of the specification. *)
Example small_package_is_flagged :
  exists f,
    additional_handling_findings (RT := sample_runtime) (package_row 20 15 10 10) 12 = [f]
    /\ refund_estimate f = PNum 12.
Proof. eexists. split; vm_compute; reflexivity. Qed.

Example large_heavy_package_is_not_flagged :
  additional_handling_findings (RT := sample_runtime) (package_row 50 20 20 60) 12 = [].
Proof. vm_compute. reflexivity. Qed.

(** A light package without readable dimensions meets none of the
    thresholds and still is not flagged: the rule of C7 without the
    positive-dimension guard fails on it. *)
Lemma additional_handling_thresholds_alone_counterexample :
  let p := package_of (RT := sample_runtime) no_dims_row in
  ~ (additional_handling_findings (RT := sample_runtime) no_dims_row 12 <> [] <->
     longest p <= 48 /\ second p <= 30 /\ longest p + girth p <= 105
     /\ actual_wt p < 50).
Proof.
  intros p [_ H]. apply H; [|vm_compute; reflexivity].
  subst p. vm_compute. repeat split; discriminate.
Qed.

(** ** The orchestrator *)

Section OrchestratorProperties.
Context {RT : Runtime}.

Context {NormFrame MiscQueue MiscByCategory MiscByMonth MiscSummary Summary : Type}.
Variable empty_queue : MiscQueue.
Variable empty_by_category : MiscByCategory.
Variable empty_summary : MiscSummary.
Variable residential_patterns : list string.
Variable check_disputable_surcharges : DataFrame -> list Finding.
Variable calculate_summary : DataFrame -> list Finding -> option Summary.
Variable normalize : DataFrame -> option NormFrame.
Variable build_misc_views :
  NormFrame -> option (MiscQueue * MiscByCategory * MiscByMonth * MiscSummary).

Lemma misc_step_when_raising (df : DataFrame) :
  misc_raises normalize build_misc_views df ->
  misc_step empty_queue empty_by_category empty_summary normalize build_misc_views df
  = (empty_queue, empty_by_category, empty_summary).
Proof.
  unfold misc_step. intros [Hn | (dfn & Hn & Hb)]; rewrite Hn; [reflexivity|].
  rewrite Hb. reflexivity.
Qed.

(** C9.  When the misc detection step raises, in [normalize] or in
    [build_misc_views], [run_full_audit] returns what it returns with the
    misc block taken out: the findings of the three core checks, the
    summary and the pools are the same, and the misc queue, the misc
    by-category table and the misc summary are the empty initial ones. *)
Theorem misc_failure_leaves_core_audit_unchanged (df : DataFrame) :
  misc_raises normalize build_misc_views df ->
  run_full_audit empty_queue empty_by_category empty_summary residential_patterns
    check_disputable_surcharges calculate_summary normalize build_misc_views df
  = run_without_misc
      empty_queue empty_by_category empty_summary residential_patterns
      check_disputable_surcharges calculate_summary df.
Proof.
  intro H. unfold run_full_audit, run_without_misc.
  rewrite (misc_step_when_raising df H). reflexivity.
Qed.

(** The three core checks and the summary never read the misc outputs:
    whichever misc detector is plugged in, they come out the same. *)
Lemma core_results_independent_of_misc
    (normalize' : DataFrame -> option NormFrame)
    (build' : NormFrame -> option (MiscQueue * MiscByCategory * MiscByMonth * MiscSummary))
    (df : DataFrame) :
  option_map (fun r => (findings r, summary r, main_audit_data r, residential_shipments r))
    (run_full_audit empty_queue empty_by_category empty_summary residential_patterns
       check_disputable_surcharges calculate_summary normalize build_misc_views df)
  = option_map (fun r => (findings r, summary r, main_audit_data r, residential_shipments r))
      (run_full_audit empty_queue empty_by_category empty_summary residential_patterns
         check_disputable_surcharges calculate_summary normalize' build' df).
Proof.
  unfold run_full_audit.
  destruct (check_duplicate_tracking _) as [dup|]; [|reflexivity].
  destruct (misc_step _ _ _ normalize build_misc_views df) as [[q c] s].
  destruct (misc_step _ _ _ normalize' build' df) as [[q' c'] s'].
  destruct (calculate_summary _ _); reflexivity.
Qed.

End OrchestratorProperties.

(** A misc detector that raises on every frame, an audit of two equal
    freight lines: the duplicate is found and the misc outputs are empty. *)
Lemma misc_failure_witness :
  exists r,
    run_full_audit tt tt tt
      default_residential_patterns (fun _ => [])
      (fun _ fs => Some (List.length fs))
      (fun _ => @None unit) (fun _ => @None (unit * unit * unit * unit))
      equal_lines = Some r
    /\ List.length (findings r) = 1%nat
    /\ misc_charges_queue r = tt.
Proof.
  assert (H : misc_raises (fun _ => @None unit)
                (fun _ => @None (unit * unit * unit * unit)) equal_lines)
    by (left; reflexivity).
  pose proof (misc_failure_leaves_core_audit_unchanged tt tt tt
                default_residential_patterns (fun _ => [])
                (fun _ fs => Some (List.length fs))
                (fun _ => @None unit)
                (fun _ => @None (unit * unit * unit * unit)) equal_lines H) as E.
  eexists. split; [rewrite E; vm_compute; reflexivity|].
  split; reflexivity.
Defined.

(** ** The filing window *)

Section FilingWindow.
Context {RT : Runtime}.

Lemma window_not_pending (deadline today : Z) (ref_date : option Z) :
  App.status_eqb (App.window deadline today ref_date) App.pending = false.
Proof.
  unfold App.window. destruct ref_date as [d|]; [|reflexivity].
  destruct (Calendar.delta_days today d <=? deadline)%Z; reflexivity.
Qed.

Lemma late_delivery_status (today : Z) (row : Row) :
  App.contains_any ["LATE DELIVERY"%string] (App.error_upper row) = true ->
  App.status_of today row = App.window 15 today (App.delivery_date_of row).
Proof.
  intro H. unfold App.status_of. rewrite H.
  repeat first [rewrite window_not_pending | rewrite andb_false_r].
  reflexivity.
Qed.


End FilingWindow.


Example late_delivery_without_token_is_missing_date :
  App.status_of (RT := sample_runtime) (Calendar.timestamp_of_date 2024 1 10)
    (late_finding "Expected: 2023-12-29") = App.missing_date.
Proof. vm_compute. reflexivity. Qed.

(** the frames hold the rows by status *)
Lemma filing_window_frames {RT : Runtime} (now : Z) (df : DataFrame) (w : App.Windows) (row : Row) :
  App.filter_by_filing_window now df = Some w ->
  let today := Calendar.normalize now in
  (In row (App.filtered_df w) <->
     In row df /\ App.status_of today row = App.within_window)
  /\ (In row (App.expired_df w) <->
        In row df /\ App.status_of today row = App.expired)
  /\ (In row (App.missing_date_df w) <->
        In row df /\ App.status_of today row = App.missing_date).
Proof.
  unfold App.filter_by_filing_window. intro H. cbv zeta.
  assert (Hst : forall a b, App.status_eqb a b = true <-> a = b).
  { intros [] []; simpl; split; congruence. }
  assert (Hrows : forall st,
             In row (App.rows_with (Calendar.normalize now) st df) <->
             In row df /\ App.status_of (Calendar.normalize now) row = st).
  { intro st. unfold App.rows_with. rewrite filter_In, Hst. tauto. }
  destruct df as [|r rest] eqn:Edf.
  - injection H as <-. simpl. tauto.
  - rewrite <- Edf in *.
    destruct (df_has "Error Type" df); [|discriminate].
    injection H as <-.
    unfold App.filtered_df, App.expired_df, App.missing_date_df.
    rewrite !Hrows. tauto.
Qed.

(** ** Duplicate tracking *)



Lemma max_list_spec (xs : list Q) (x : Q) :
  In (Num.max_list x xs) (x :: xs)
  /\ forall y, In y (x :: xs) -> y <= Num.max_list x xs.
Proof.
  unfold Num.max_list. revert x.
  induction xs as [|a xs IH]; intro x; simpl.
  - split; [left; reflexivity|]. intros y [<-|[]]. apply Qle_refl.
  - destruct (IH (if Num.ltb x a then a else x)) as [Hin Hmax]. split.
    + destruct Hin as [Heq|Hin]; [|right; right; exact Hin].
      rewrite <- Heq. destruct (Num.ltb x a); [right; left|left]; reflexivity.
    + intros y [<-|[<-|Hy]].
      * eapply Qle_trans; [|apply Hmax; left; reflexivity].
        destruct (Num.ltb x a) eqn:E; [|apply Qle_refl].
        apply ltb_true in E. apply Qlt_le_weak. exact E.
      * eapply Qle_trans; [|apply Hmax; left; reflexivity].
        destruct (Num.ltb x a) eqn:E; [apply Qle_refl|].
        apply ltb_false in E. exact E.
      * apply Hmax. right. exact Hy.
Qed.



Section Duplicates.
Context {RT : Runtime}.

Lemma rows_of_key_In (work : list WorkRow) (k : string) (w : WorkRow) :
  In w (rows_of_key work k) <-> In w work /\ _key_tracking w = k.
Proof.
  unfold rows_of_key. rewrite filter_In, String.eqb_eq. tauto.
Qed.

Lemma df_work_key (df : DataFrame) (w : WorkRow) :
  In w (df_work df) ->
  _key_tracking w
  = _normalize_tracking (row_get_default "Tracking Number" CNull (src w)).
Proof.
  unfold df_work. intro H. apply in_map_iff in H as (row & <- & _). reflexivity.
Qed.

(** a group adds no finding or one, raised on its first row *)
Lemma audit_group_shape (g : list WorkRow) (fs : list Finding) :
  audit_group g = Some fs ->
  fs = [] \/
  exists f w rest,
    fs = [f] /\ g = w :: rest
    /\ tracking_number f = row_get_default "Tracking Number" CNull (src w).
Proof.
  unfold audit_group.
  destruct (_is_original_plus_return_pair (map src g)).
  { intro H. injection H as <-. left. reflexivity. }
  destruct ((_ =? 1)%nat && (_ =? 1)%nat).
  { intro H. injection H as <-. left. reflexivity. }
  destruct (1 <? _)%nat eqn:Ent.
  2:{ intro H. injection H as <-. left. reflexivity. }
  destruct g as [|w rest]; [simpl in Ent; discriminate|].
  destruct (duplicate_date (first_row_of (w :: rest))) as [d|]; [|discriminate].
  intro H. injection H as <-. right. eexists _, w, rest.
  repeat split.
Qed.

Lemma audit_groups_In (work : list WorkRow) (keys : list string)
    (fs : list Finding) (f : Finding) :
  audit_groups work keys = Some fs -> In f fs ->
  exists k gs,
    In k keys /\ PyStr.nonempty k = true
    /\ audit_group (rows_of_key work k) = Some gs /\ In f gs.
Proof.
  revert fs. induction keys as [|k keys IH]; simpl; intros fs H Hin.
  - injection H as <-. destruct Hin.
  - destruct (PyStr.nonempty k) eqn:Ek.
    + destruct (audit_group (rows_of_key work k)) as [gs|] eqn:Eg; [|discriminate].
      destruct (audit_groups work keys) as [hs|]; [|discriminate].
      injection H as <-. apply in_app_or in Hin as [Hin|Hin].
      * exists k, gs. auto.
      * destruct (IH hs eq_refl Hin) as (k' & gs' & ? & ? & ? & ?).
        exists k', gs'. auto.
    + destruct (audit_groups work keys) as [hs|]; [|discriminate].
      injection H as <-. simpl in Hin.
      destruct (IH hs eq_refl Hin) as (k' & gs' & ? & ? & ? & ?).
      exists k', gs'. auto.
Qed.

(** the findings of a group bear the tracking number of the group *)
Lemma group_finding_key (df : DataFrame) (k : string) (gs : list Finding) (f : Finding) :
  audit_group (rows_of_key (df_work df) k) = Some gs -> In f gs ->
  finding_key f = k.
Proof.
  intros Hg Hin. destruct (audit_group_shape _ _ Hg) as [->|(f' & w & rest & -> & Eg & Ht)].
  - destruct Hin.
  - destruct Hin as [<-|[]]. unfold finding_key. rewrite Ht.
    assert (Hw : In w (rows_of_key (df_work df) k)) by (rewrite Eg; left; reflexivity).
    apply rows_of_key_In in Hw as [Hw <-]. symmetry.
    apply (df_work_key df). exact Hw.
Qed.

Lemma filter_none {A} (p : A -> bool) (l : list A) :
  (forall x, In x l -> p x = false) -> filter p l = [].
Proof.
  induction l as [|a l IH]; simpl; intro H; [reflexivity|].
  rewrite (H a (or_introl eq_refl)). apply IH. intros x Hx. apply H. right. exact Hx.
Qed.

Lemma filter_all {A} (p : A -> bool) (l : list A) :
  (forall x, In x l -> p x = true) -> filter p l = l.
Proof.
  induction l as [|a l IH]; simpl; intro H; [reflexivity|].
  rewrite (H a (or_introl eq_refl)). f_equal. apply IH.
  intros x Hx. apply H. right. exact Hx.
Qed.


Lemma duplicate_keys_NoDup (work : list WorkRow) : NoDup (duplicate_keys work).
Proof.
  unfold duplicate_keys. apply NoDup_filter. apply NoDup_nodup.
Qed.

(** a duplicated tracking number is one borne by more than one row *)
Lemma duplicate_keys_In (work : list WorkRow) (k : string) :
  In k (duplicate_keys work) <-> (1 < List.length (rows_of_key work k))%nat.
Proof.
  unfold duplicate_keys. rewrite filter_In, nodup_In, Nat.ltb_lt. split; [tauto|].
  intro H. split; [|exact H].
  destruct (rows_of_key work k) as [|w rest] eqn:E; [simpl in H; lia|].
  assert (Hw : In w (rows_of_key work k)) by (rewrite E; left; reflexivity).
  apply rows_of_key_In in Hw as [Hw <-]. apply in_map. exact Hw.
Qed.


End Duplicates.

Section DuplicateFindings.
Context {RT : Runtime}.

(** on text the return test is containment of one of the five keywords *)
Lemma _is_return_service_text (s : string) :
  _is_return_service (CStr s)
  = PyStr.any_in ["RETURN"; "RMGR"; "RMA"; "REVERSE"; "RETURNMANAGER"]%string
      (PyStr.upper s).
Proof.
  unfold _is_return_service. destruct s; reflexivity.
Qed.






End DuplicateFindings.


Example two_equal_lines_refund_one :
  exists f,
    check_duplicate_tracking (RT := sample_runtime) equal_lines = Some [f]
    /\ refund_is f 50
    /\ dispute_reason f = "Duplicate freight billing (2 identical charges)"%string.
Proof. eexists. split; [vm_compute; reflexivity|]. split; vm_compute; reflexivity. Qed.

Example two_unequal_lines_refund_sum_minus_max :
  exists f,
    check_duplicate_tracking (RT := sample_runtime) unequal_lines = Some [f]
    /\ refund_is f 30
    /\ dispute_reason f
       = "Multiple freight charges (2 lines with different amounts)"%string.
Proof. eexists. split; [vm_compute; reflexivity|]. split; vm_compute; reflexivity. Qed.


(** C3.  The check builds the (carrier, tracking number) key of every
    line and then groups the lines by tracking number alone: a FedEx line
    and a UPS line with one tracking number have different group keys, are
    taken as one group, and are reported as one duplicate billing. *)
Theorem duplicate_tracking_groups_across_carriers :
  map _group_key (df_work (RT := sample_runtime) two_carrier_lines)
  = ["FEDEX||466761794075"; "UPS||466761794075"]%string
  /\ rows_of_key (df_work (RT := sample_runtime) two_carrier_lines) "466761794075"
     = df_work two_carrier_lines
  /\ exists f,
       check_duplicate_tracking (RT := sample_runtime) two_carrier_lines = Some [f]
       /\ dispute_reason f = "Duplicate freight billing (2 identical charges)"%string
       /\ refund_is f 50.
Proof.
  split; [vm_compute; reflexivity|]. split; [vm_compute; reflexivity|].
  eexists. split; [vm_compute; reflexivity|]. split; vm_compute; reflexivity.
Qed.

(** In general the group of a tracking number holds every line with that
    number, whatever the carrier and the group key of the line. *)
Lemma grouping_ignores_carrier {RT : Runtime} (df : DataFrame) (w1 w2 : WorkRow) :
  In w1 (df_work df) -> In w2 (df_work df) ->
  _key_tracking w1 = _key_tracking w2 ->
  In w1 (rows_of_key (df_work df) (_key_tracking w1))
  /\ In w2 (rows_of_key (df_work df) (_key_tracking w1)).
Proof.
  intros H1 H2 Hk. split; apply rows_of_key_In; auto.
Qed.


(** ** Business days *)

Section BusinessDays.

Local Open Scope Z_scope.

Lemma NS_PER_DAY_pos : 0 < Calendar.NS_PER_DAY.
Proof. reflexivity. Qed.

Lemma day_of_add_days (t n : Z) :
  Calendar.day_of (Calendar.add_days t n) = Calendar.day_of t + n.
Proof.
  unfold Calendar.day_of, Calendar.add_days.
  apply Z.div_add. pose proof NS_PER_DAY_pos. lia.
Qed.

Lemma add_days_add_days (t a b : Z) :
  Calendar.add_days (Calendar.add_days t a) b = Calendar.add_days t (a + b).
Proof. unfold Calendar.add_days. ring. Qed.

Lemma add_days_0 (t : Z) : Calendar.add_days t 0 = t.
Proof. unfold Calendar.add_days. ring. Qed.

Lemma weekday_range (t : Z) : 0 <= Calendar.weekday t < 7.
Proof. unfold Calendar.weekday. apply Z.mod_pos_bound. lia. Qed.

Lemma weekday_add_days (t n : Z) :
  Calendar.weekday (Calendar.add_days t n) = (Calendar.weekday t + n) mod 7.
Proof.
  unfold Calendar.weekday. rewrite day_of_add_days.
  rewrite Zplus_mod_idemp_l. f_equal. ring.
Qed.

(** the days counted over [a + b] days are those of the first [a] and of
    the [b] that follow *)
Lemma business_days_within_add (t : Z) (a b : nat) :
  Calendar.business_days_within t (a + b)
  = Calendar.business_days_within t a
    + Calendar.business_days_within (Calendar.add_days t (Z.of_nat a)) b.
Proof.
  induction b as [|b IH].
  - rewrite Nat.add_0_r. simpl. ring.
  - rewrite Nat.add_succ_r.
    change (Calendar.business_days_within t (S (a + b)))
      with (Calendar.business_days_within t (a + b)
            + (if Calendar.weekday (Calendar.add_days t (Z.of_nat (S (a + b)))) <? 5
               then 1 else 0)).
    change (Calendar.business_days_within (Calendar.add_days t (Z.of_nat a)) (S b))
      with (Calendar.business_days_within (Calendar.add_days t (Z.of_nat a)) b
            + (if Calendar.weekday
                    (Calendar.add_days (Calendar.add_days t (Z.of_nat a)) (Z.of_nat (S b)))
                  <? 5 then 1 else 0)).
    rewrite IH, add_days_add_days.
    replace (Z.of_nat a + Z.of_nat (S b)) with (Z.of_nat (S (a + b))) by lia.
    ring.
Qed.

Lemma loop_unfold (f : nat) (cur added target : Z) :
  added < target ->
  Calendar.add_business_days_loop (S f) cur added target
  = if Calendar.weekday (Calendar.add_days cur 1) <? 5
    then Calendar.add_business_days_loop f (Calendar.add_days cur 1) (added + 1) target
    else Calendar.add_business_days_loop f (Calendar.add_days cur 1) added target.
Proof.
  intro H. simpl. apply Z.ltb_lt in H. rewrite H. reflexivity.
Qed.

(** From any day the next business day is met within three iterations,
    and it is the only business day met on the way. *)
Lemma loop_next_business_day (f : nat) (cur added target : Z) :
  added < target ->
  exists j : nat,
    (1 <= j <= 3)%nat
    /\ Calendar.add_business_days_loop (3 + f) cur added target
       = Calendar.add_business_days_loop (3 + f - j)
           (Calendar.add_days cur (Z.of_nat j)) (added + 1) target
    /\ Calendar.weekday (Calendar.add_days cur (Z.of_nat j)) < 5
    /\ Calendar.business_days_within cur j = 1.
Proof.
  intro H.
  pose proof (weekday_range cur) as Hr.
  assert (Hw : forall n, Calendar.weekday (Calendar.add_days cur n)
                         = (Calendar.weekday cur + n) mod 7)
    by (intro n; apply weekday_add_days).
  assert (Hcase : Calendar.weekday cur = 4 \/ Calendar.weekday cur = 5
                  \/ (Calendar.weekday cur + 1) mod 7 < 5).
  { assert (Hd : Calendar.weekday cur = 0 \/ Calendar.weekday cur = 1
                 \/ Calendar.weekday cur = 2 \/ Calendar.weekday cur = 3
                 \/ Calendar.weekday cur = 4 \/ Calendar.weekday cur = 5
                 \/ Calendar.weekday cur = 6) by lia.
    destruct Hd as [E|[E|[E|[E|[E|[E|E]]]]]]; rewrite E; auto;
      right; right; reflexivity. }
  destruct Hcase as [E|[E|E]].
  - (* Friday: Saturday and Sunday are passed over *)
    exists 3%nat. split; [lia|].
    assert (W1 : (Calendar.weekday (Calendar.add_days cur 1) <? 5) = false)
      by (rewrite Hw, E; reflexivity).
    assert (W2 : (Calendar.weekday (Calendar.add_days cur 2) <? 5) = false)
      by (rewrite Hw, E; reflexivity).
    assert (W3 : (Calendar.weekday (Calendar.add_days cur 3) <? 5) = true)
      by (rewrite Hw, E; reflexivity).
    split; [|split].
    + change (3 + f)%nat with (S (S (S f))).
      rewrite (loop_unfold _ _ _ _ H), W1.
      rewrite (loop_unfold _ _ _ _ H), add_days_add_days. change (1 + 1) with 2. rewrite W2.
      rewrite (loop_unfold _ _ _ _ H), add_days_add_days. change (2 + 1) with 3. rewrite W3.
      replace (S (S (S f)) - 3)%nat with f by lia. reflexivity.
    + apply Z.ltb_lt. exact W3.
    + simpl Calendar.business_days_within.
      change (Z.of_nat 1) with 1. change (Z.of_nat 2) with 2. change (Z.of_nat 3) with 3.
      rewrite W1, W2, W3. reflexivity.
  - (* Saturday: Sunday is passed over *)
    exists 2%nat. split; [lia|].
    assert (W1 : (Calendar.weekday (Calendar.add_days cur 1) <? 5) = false)
      by (rewrite Hw, E; reflexivity).
    assert (W2 : (Calendar.weekday (Calendar.add_days cur 2) <? 5) = true)
      by (rewrite Hw, E; reflexivity).
    split; [|split].
    + change (3 + f)%nat with (S (S (S f))).
      rewrite (loop_unfold _ _ _ _ H), W1.
      rewrite (loop_unfold _ _ _ _ H), add_days_add_days. change (1 + 1) with 2. rewrite W2.
      replace (S (S (S f)) - 2)%nat with (S f) by lia. reflexivity.
    + apply Z.ltb_lt. exact W2.
    + simpl Calendar.business_days_within.
      change (Z.of_nat 1) with 1. change (Z.of_nat 2) with 2.
      rewrite W1, W2. reflexivity.
  - (* the next day is a business day *)
    exists 1%nat. split; [lia|].
    assert (W1 : (Calendar.weekday (Calendar.add_days cur 1) <? 5) = true)
      by (rewrite Hw; apply Z.ltb_lt; exact E).
    split; [|split].
    + change (3 + f)%nat with (S (S (S f))).
      rewrite (loop_unfold _ _ _ _ H), W1.
      replace (S (S (S f)) - 1)%nat with (S (S f)) by lia. reflexivity.
    + apply Z.ltb_lt. exact W1.
    + simpl Calendar.business_days_within. change (Z.of_nat 1) with 1.
      rewrite W1. reflexivity.
Qed.

Lemma loop_spec (n : nat) :
  forall (fuel : nat) (cur added target : Z),
    target - added = Z.of_nat n ->
    (3 * n <= fuel)%nat ->
    exists k : nat,
      Calendar.add_business_days_loop fuel cur added target
      = Some (Calendar.add_days cur (Z.of_nat k))
      /\ Calendar.business_days_within cur k = Z.of_nat n
      /\ ((0 < n)%nat -> Calendar.weekday (Calendar.add_days cur (Z.of_nat k)) < 5).
Proof.
  induction n as [|n IH]; intros fuel cur added target Hrem Hfuel.
  - exists 0%nat. split; [|split].
    + assert (E : (added <? target) = false) by (apply Z.ltb_ge; lia).
      destruct fuel; simpl; rewrite E, add_days_0; reflexivity.
    + reflexivity.
    + intro H. inversion H.
  - assert (Hlt : added < target) by lia.
    destruct fuel as [|[|[|f]]]; try lia.
    destruct (loop_next_business_day f cur added target Hlt)
      as (j & Hj & Hloop & Hwd & Hone).
    destruct (IH (3 + f - j)%nat (Calendar.add_days cur (Z.of_nat j)) (added + 1) target)
      as (k & Hk & Hcount & Hlast); [lia | lia |].
    exists (j + k)%nat. split; [|split].
    + change (S (S (S f))) with (3 + f)%nat. rewrite Hloop, Hk, add_days_add_days.
      f_equal. f_equal. lia.
    + rewrite business_days_within_add, Hone, Hcount. lia.
    + intros _. destruct n as [|n'].
      * assert (k = 0)%nat as ->.
        { assert (E : (added + 1 <? target) = false) by (apply Z.ltb_ge; lia).
          destruct (3 + f - j)%nat; simpl in Hk; rewrite E in Hk;
            injection Hk as Hk; unfold Calendar.add_days in Hk;
            pose proof NS_PER_DAY_pos; nia. }
        rewrite Nat.add_0_r. exact Hwd.
      * replace (Z.of_nat (j + k)) with (Z.of_nat j + Z.of_nat k) by lia.
        rewrite <- add_days_add_days. apply Hlast. lia.
Qed.

(** [_add_business_days] always returns: the date it returns is [k] days
    after the start, [k] being the least number of days that holds
    [business_days] days from Monday to Friday. *)
Lemma add_business_days_spec (start business_days : Z) :
  0 <= business_days ->
  exists k : nat,
    Calendar._add_business_days start business_days
    = Some (Calendar.add_days start (Z.of_nat k))
    /\ Calendar.business_days_within start k = business_days
    /\ (0 < business_days ->
        Calendar.weekday (Calendar.add_days start (Z.of_nat k)) < 5).
Proof.
  intro H. unfold Calendar._add_business_days.
  destruct (loop_spec (Z.to_nat business_days) (3 * Z.to_nat business_days)
              start 0 business_days) as (k & Hk & Hcount & Hlast); [lia | lia |].
  exists k. split; [exact Hk|]. split; [lia|].
  intro Hpos. apply Hlast. lia.
Qed.

End BusinessDays.

Example monday_plus_two_business_days_is_wednesday :
  Calendar._add_business_days (Calendar.timestamp_of_date 2024 1 1) 2
  = Some (Calendar.timestamp_of_date 2024 1 3)
  /\ Calendar.weekday (Calendar.timestamp_of_date 2024 1 1) = 0%Z
  /\ Calendar.weekday (Calendar.timestamp_of_date 2024 1 3) = 2%Z.
Proof. repeat split; vm_compute; reflexivity. Qed.

Example friday_plus_one_business_day_is_monday :
  Calendar._add_business_days (Calendar.timestamp_of_date 2024 1 5) 1
  = Some (Calendar.timestamp_of_date 2024 1 8)
  /\ Calendar.weekday (Calendar.timestamp_of_date 2024 1 5) = 4%Z.
Proof. repeat split; vm_compute; reflexivity. Qed.

(** ** Late deliveries *)

Section LateDeliveries.
Context {RT : Runtime}.

Lemma dict_get_In {V} (k : string) (d : list (string * V)) (v : V) :
  dict_get k d = Some v -> In v (map snd d).
Proof.
  induction d as [|[k' v'] d IH]; simpl; [discriminate|].
  destruct (String.eqb k' k); [intro H; injection H as <-; auto | auto].
Qed.

(** every service of the table is a one-day or a two-day service *)
Lemma expected_days_one_or_two (row : Row) (n : Z) :
  expected_days_of row = Some n -> n = 1%Z \/ n = 2%Z.
Proof.
  unfold expected_days_of. intro H.
  assert (Hin : In n (map snd service_delivery_times)).
  { destruct (dict_get _ service_delivery_times) as [m|] eqn:E.
    - injection H as <-. exact (dict_get_In _ _ _ E).
    - exact (dict_get_In _ _ _ H). }
  simpl in Hin. intuition.
Qed.

(** the refund falls back from total charges to base rate to billed
    amount, a value being passed over only when it is zero *)
Lemma refund_fallback (total base billed : PyFloat) :
  (truthy total = true -> float_or total (float_or base billed) = total)
  /\ (truthy total = false -> truthy base = true ->
      float_or total (float_or base billed) = base)
  /\ (truthy total = false -> truthy base = false ->
      float_or total (float_or base billed) = billed)
  /\ (forall x, truthy x = false <-> exists q, x = PNum q /\ q == 0).
Proof.
  unfold float_or. repeat split.
  - intros ->. reflexivity.
  - intros -> ->. reflexivity.
  - intros -> ->. reflexivity.
  - destruct x as [q|]; simpl; [|discriminate].
    rewrite negb_false_iff, eqb_true. eauto.
  - intros (q & -> & Hq). simpl. rewrite negb_false_iff, eqb_true. exact Hq.
Qed.

(** an absent charge column reads as zero *)
Lemma charge_absent (row : Row) (col : string) :
  row_get col row = None -> charge row col = Some (PNum 0).
Proof. unfold charge. intros ->. reflexivity. Qed.

(** a null cell in a charge column is NaN, which is truthy: it is not
    passed over, and the refund is NaN whatever the other columns hold *)
Lemma null_charge_is_not_passed_over (row : Row) (base billed : PyFloat) :
  row_get "Total Charges" row = Some CNull ->
  charge row "Total Charges" = Some PNaN
  /\ float_or PNaN (float_or base billed) = PNaN.
Proof. unfold charge. intros ->. split; reflexivity. Qed.


End LateDeliveries.



(** The finding of the late shipment, delivered 2024-01-04, through the
    filing-window classifier: within the window on 2024-01-19 (15 days),
    expired on 2024-01-20 (16 days). *)
Example late_finding_through_the_filing_window :
  forall f,
    check_late_deliveries (RT := sample_runtime) [late_row] = [f] ->
    App.status_of (RT := sample_runtime) (Calendar.timestamp_of_date 2024 1 19)
      (row_of_finding f) = App.within_window
    /\ App.status_of (RT := sample_runtime) (Calendar.timestamp_of_date 2024 1 20)
         (row_of_finding f) = App.expired.
Proof.
  intros f H. vm_compute in H. injection H as <-.
  split; vm_compute; reflexivity.
Qed.

(** * Further properties *)

Import Text Surcharges Claims Address DuplicateSurcharges SurchargeColumns.

(** ** Tracking numbers *)

Section Tracking.
Context {RT : Runtime}.

Lemma all_chars_app (good : ascii -> bool) (a b : string) :
  all_chars good (a ++ b) = all_chars good a && all_chars good b.
Proof.
  induction a as [|c a IH]; simpl; [reflexivity|].
  rewrite IH. apply andb_assoc.
Qed.

Lemma all_chars_weaken (f g : ascii -> bool) (s : string) :
  (forall c, f c = true -> g c = true) ->
  all_chars f s = true -> all_chars g s = true.
Proof.
  intro H. induction s as [|c s IH]; simpl; [reflexivity|].
  intro E. apply andb_true_iff in E as [E1 E2].
  rewrite (H c E1), (IH E2). reflexivity.
Qed.








End Tracking.

(** ** Findings of the duplicate-tracking check *)

Section DuplicateSoundness.
Context {RT : Runtime}.

(** what a group that adds a finding looks like *)
Lemma audit_group_finding (g : list WorkRow) (gs : list Finding) (f : Finding) :
  audit_group g = Some gs -> In f gs ->
  gs = [f]
  /\ _is_original_plus_return_pair (map src g) = false
  /\ (1 < List.length (transport_nets_of g))%nat
  /\ error_type f = "Duplicate Tracking"%string
  /\ refund_estimate f = PNum (duplicate_refund (transport_nets_of g)).
Proof.
  unfold audit_group.
  destruct (_is_original_plus_return_pair (map src g)).
  { intros H Hin. injection H as <-. destruct Hin. }
  destruct ((_ =? 1)%nat && (_ =? 1)%nat).
  { intros H Hin. injection H as <-. destruct Hin. }
  destruct (1 <? _)%nat eqn:Ent.
  2:{ intros H Hin. injection H as <-. destruct Hin. }
  destruct (duplicate_date (first_row_of g)) as [d|]; [|discriminate].
  intros H Hin. apply some_injective in H. subst gs.
  destruct Hin as [<-|[]].
  repeat split.
  unfold transport_nets_of. rewrite length_map. apply Nat.ltb_lt. exact Ent.
Qed.

Lemma filter_key_le_one {A} (key : A -> string) (k : string) (l : list A) :
  NoDup (map key l) ->
  (List.length (filter (fun w => String.eqb (key w) k) l) <= 1)%nat.
Proof.
  induction l as [|a l IH]; simpl; intro H; [lia|].
  apply NoDup_cons_iff in H as [Hnin Hnd].
  destruct (String.eqb (key a) k) eqn:E; [|apply IH; exact Hnd].
  apply String.eqb_eq in E. simpl.
  rewrite filter_none; [simpl; lia|].
  intros x Hx. apply String.eqb_neq. intro Hk. apply Hnin.
  rewrite E, <- Hk. apply in_map. exact Hx.
Qed.

Lemma audit_groups_keys_NoDup (df : DataFrame) (keys : list string) (fs : list Finding) :
  NoDup keys ->
  audit_groups (df_work df) keys = Some fs ->
  NoDup (map finding_key fs).
Proof.
  revert fs. induction keys as [|k keys IH]; simpl; intros fs Hnd H.
  - apply some_injective in H. subst fs. constructor.
  - apply NoDup_cons_iff in Hnd as [Hk Hnd].
    destruct (audit_groups (df_work df) keys) as [hs|] eqn:Ehs.
    2:{ destruct (if PyStr.nonempty k then _ else _); discriminate. }
    specialize (IH hs Hnd eq_refl).
    assert (Hrest : forall f, In f hs -> finding_key f <> k).
    { intros f Hf Heq.
      destruct (audit_groups_In _ _ _ _ Ehs Hf) as (k' & gs' & Hk' & _ & Hg' & Hf').
      rewrite (group_finding_key _ _ _ _ Hg' Hf') in Heq. subst k'. contradiction. }
    destruct (PyStr.nonempty k).
    + destruct (audit_group (rows_of_key (df_work df) k)) as [gs|] eqn:Eg; [|discriminate].
      apply some_injective in H. subst fs.
      destruct (audit_group_shape _ _ Eg) as [->|(f & w & rest & -> & _ & _)].
      * exact IH.
      * simpl. constructor; [|exact IH].
        rewrite (group_finding_key _ _ _ f Eg (or_introl eq_refl)).
        intro Hin. apply in_map_iff in Hin as (f' & Hkey & Hf').
        exact (Hrest f' Hf' Hkey).
    + apply some_injective in H. subst fs. exact IH.
Qed.

(** what stands behind a finding of the check *)
Lemma duplicate_finding_inv (df : DataFrame) (fs : list Finding) (f : Finding) :
  check_duplicate_tracking df = Some fs -> In f fs ->
  let group := rows_of_key (df_work df) (finding_key f) in
  error_type f = "Duplicate Tracking"%string
  /\ PyStr.nonempty (finding_key f) = true
  /\ (2 <= List.length (transport_nets_of group))%nat
  /\ (2 <= List.length group)%nat
  /\ _is_original_plus_return_pair (map src group) = false
  /\ refund_estimate f = PNum (duplicate_refund (transport_nets_of group)).
Proof.
  unfold check_duplicate_tracking. intros H Hf.
  destruct df as [|r rest] eqn:Edf.
  { apply some_injective in H. subst fs. destruct Hf. }
  rewrite <- Edf in *. clear Edf r rest.
  destruct (negb (df_has "Tracking Number" df)).
  { apply some_injective in H. subst fs. destruct Hf. }
  destruct (audit_groups_In _ _ _ _ H Hf) as (k & gs & Hk & Hne & Hg & Hin).
  pose proof (group_finding_key _ _ _ _ Hg Hin) as Hkey.
  cbv zeta. rewrite Hkey.
  destruct (audit_group_finding _ _ _ Hg Hin) as (_ & Hpair & Hlen & Herr & Href).
  repeat split; auto; try lia.
  apply duplicate_keys_In in Hk. lia.
Qed.

Lemma duplicate_findings_NoDup (df : DataFrame) (fs : list Finding) :
  check_duplicate_tracking df = Some fs -> NoDup (map finding_key fs).
Proof.
  unfold check_duplicate_tracking. intro H.
  destruct df as [|r rest] eqn:Edf.
  { apply some_injective in H. subst fs. constructor. }
  rewrite <- Edf in *. clear Edf r rest.
  destruct (negb (df_has "Tracking Number" df)).
  { apply some_injective in H. subst fs. constructor. }
  eapply audit_groups_keys_NoDup; [apply duplicate_keys_NoDup | exact H].
Qed.

(** X2.  Every finding of the check is for a non-empty tracking number
    that more than one TRANSPORT line of the frame bears, the group not
    being an Original+Return pair; and no tracking number gets two
    findings. *)
Theorem duplicate_findings_are_sound (df : DataFrame) (fs : list Finding) :
  check_duplicate_tracking df = Some fs ->
  NoDup (map finding_key fs)
  /\ forall f, In f fs ->
       let group := rows_of_key (df_work df) (finding_key f) in
       error_type f = "Duplicate Tracking"%string
       /\ PyStr.nonempty (finding_key f) = true
       /\ (2 <= List.length (transport_nets_of group))%nat
       /\ (2 <= List.length group)%nat
       /\ _is_original_plus_return_pair (map src group) = false
       /\ refund_estimate f = PNum (duplicate_refund (transport_nets_of group)).
Proof.
  intro H. split; [exact (duplicate_findings_NoDup df fs H)|].
  intros f Hf. exact (duplicate_finding_inv df fs f H Hf).
Qed.

(** X3.  A frame in which no normalized tracking number occurs twice gets no
    finding, and the check does not raise on it. *)
Theorem no_repeated_tracking_no_finding (df : DataFrame) :
  NoDup (map (fun row =>
                _normalize_tracking (row_get_default "Tracking Number" CNull row)) df) ->
  check_duplicate_tracking df = Some [].
Proof.
  intro Hnd. unfold check_duplicate_tracking.
  destruct df as [|r rest] eqn:Edf; [reflexivity|]. rewrite <- Edf in *.
  destruct (negb (df_has "Tracking Number" df)); [reflexivity|].
  assert (Hkeys : duplicate_keys (df_work df) = []).
  { destruct (duplicate_keys (df_work df)) as [|k ks] eqn:E; [reflexivity|].
    exfalso.
    assert (Hk : In k (duplicate_keys (df_work df))) by (rewrite E; left; reflexivity).
    apply duplicate_keys_In in Hk.
    pose proof (filter_key_le_one _key_tracking k (df_work df)) as Hle.
    unfold rows_of_key in Hk.
    assert (Hmap : map _key_tracking (df_work df)
                   = map (fun row => _normalize_tracking
                                       (row_get_default "Tracking Number" CNull row)) df).
    { unfold df_work. rewrite map_map. reflexivity. }
    rewrite Hmap in Hle. specialize (Hle Hnd). lia. }
  rewrite Hkeys. reflexivity.
Qed.

(** ** The refund of a duplicate is not negative *)

Lemma fold_left_Qplus_shift (l : list Q) (a : Q) :
  fold_left Qplus l a == a + fold_left Qplus l 0.
Proof.
  revert a. induction l as [|x l IH]; intro a; simpl.
  - ring.
  - rewrite (IH (a + x)), (IH (0 + x)). ring.
Qed.

Lemma Qle_plus_nonneg_l (a b : Q) : 0 <= a -> b <= a + b.
Proof.
  intro H. apply Qle_trans with (0 + b).
  - rewrite Qplus_0_l. apply Qle_refl.
  - apply Qplus_le_compat; [exact H | apply Qle_refl].
Qed.

Lemma Qle_plus_nonneg_r (a b : Q) : 0 <= b -> a <= a + b.
Proof.
  intro H. rewrite Qplus_comm. apply Qle_plus_nonneg_l. exact H.
Qed.

Lemma sum_nonneg (l : list Q) :
  (forall x, In x l -> 0 <= x) -> 0 <= Num.sum l.
Proof.
  unfold Num.sum. induction l as [|x l IH]; intro H; simpl.
  - apply Qle_refl.
  - rewrite fold_left_Qplus_shift.
    assert (Hx : 0 <= x) by (apply H; left; reflexivity).
    assert (Hl : 0 <= fold_left Qplus l 0)
      by (apply IH; intros y Hy; apply H; right; exact Hy).
    apply Qle_trans with (fold_left Qplus l 0); [exact Hl|].
    apply Qle_plus_nonneg_l. rewrite Qplus_0_l. exact Hx.
Qed.

Lemma sum_ge_member (l : list Q) (m : Q) :
  (forall x, In x l -> 0 <= x) -> In m l -> m <= Num.sum l.
Proof.
  unfold Num.sum. induction l as [|x l IH]; intros H Hin; [destruct Hin|].
  simpl. rewrite fold_left_Qplus_shift.
  assert (Hx : 0 <= x) by (apply H; left; reflexivity).
  assert (Hl : forall y, In y l -> 0 <= y) by (intros y Hy; apply H; right; exact Hy).
  pose proof (sum_nonneg l Hl) as Hs. unfold Num.sum in Hs.
  destruct Hin as [<-|Hin].
  - rewrite Qplus_0_l. apply Qle_plus_nonneg_r. exact Hs.
  - apply Qle_trans with (fold_left Qplus l 0); [exact (IH Hl Hin)|].
    apply Qle_plus_nonneg_l. rewrite Qplus_0_l. exact Hx.
Qed.

Lemma duplicate_refund_nonneg (nets : list Q) :
  (forall x, In x nets -> 0 <= x) -> 0 <= duplicate_refund nets.
Proof.
  intro H. unfold duplicate_refund.
  destruct (1 <? _)%nat.
  - destruct nets as [|n0 rest]; [vm_compute; discriminate|].
    simpl hd. simpl tl.
    destruct (max_list_spec rest n0) as [Hin _].
    pose proof (sum_ge_member (n0 :: rest) _ H Hin) as Hle.
    unfold Qminus. rewrite <- (Qplus_opp_r (Num.max_list n0 rest)).
    apply Qplus_le_compat; [exact Hle | apply Qle_refl].
  - destruct nets as [|n0 rest]; [vm_compute; discriminate|].
    simpl hd. apply Qmult_le_0_compat; [apply H; left; reflexivity|].
    change 0 with (inject_Z 0). rewrite <- Zle_Qle.
    simpl List.length. lia.
Qed.

(** X4.  When no TRANSPORT line of the frame has a negative net amount, no
    finding of the check has a negative refund. *)
Theorem duplicate_refund_is_not_negative (df : DataFrame) (fs : list Finding) (f : Finding) :
  (forall w, In w (df_work df) -> _class w = TRANSPORT -> 0 <= _net w) ->
  check_duplicate_tracking df = Some fs -> In f fs ->
  exists q, refund_estimate f = PNum q /\ 0 <= q.
Proof.
  intros Hnets Hfs Hf.
  destruct (duplicate_finding_inv df fs f Hfs Hf) as (_ & _ & _ & _ & _ & Href).
  eexists. split; [exact Href|].
  apply duplicate_refund_nonneg. intros x Hx.
  unfold transport_nets_of in Hx. apply in_map_iff in Hx as (w & <- & Hw).
  apply filter_In in Hw as [Hw Hc]. apply rows_of_key_In in Hw as [Hw _].
  apply Hnets; [exact Hw|]. destruct (_class w); simpl in Hc; congruence.
Qed.

End DuplicateSoundness.

(** ** The rules of the filing windows *)

Section FilingWindowRules.
Context {RT : Runtime}.

(** the deadline in days and the reference date of a row: the two things
    the status depends on besides today's date *)
Lemma status_is_a_window (today : Z) (row : Row) :
  let eu := App.error_upper row in
  let generic := App.date_column "Date" row in
  App.status_of today row =
    if App.contains_any ["LATE DELIVERY"] eu
    then App.window 15 today (App.delivery_date_of row)
    else if App.contains_any ["LOST"; "DAMAGE"] eu
    then App.window 60 today (App.fillna (App.date_column "Shipment Date" row) generic)
    else App.window 180 today (App.fillna (App.date_column "Invoice Date" row) generic).
Proof.
  cbv zeta. unfold App.status_of.
  destruct (App.contains_any ["LATE DELIVERY"] (App.error_upper row)).
  - repeat first [rewrite window_not_pending | rewrite andb_false_r]. reflexivity.
  - destruct (App.contains_any ["LOST"; "DAMAGE"] (App.error_upper row)).
    + cbn [andb App.status_eqb].
      repeat first [rewrite window_not_pending | rewrite andb_false_r]. reflexivity.
    + cbn [andb App.status_eqb].
      destruct (App.contains_any ["DISPUTABLE SURCHARGE"; "DUPLICATE"] (App.error_upper row)).
      * cbn [andb]. rewrite window_not_pending. reflexivity.
      * reflexivity.
Qed.

Lemma status_never_pending (today : Z) (row : Row) :
  App.status_of today row <> App.pending.
Proof.
  rewrite status_is_a_window. cbv zeta.
  assert (H : forall dl d, App.window dl today d <> App.pending).
  { intros dl d E. pose proof (window_not_pending dl today d) as W.
    rewrite E in W. discriminate. }
  destruct (App.contains_any _ _); [apply H|].
  destruct (App.contains_any _ _); apply H.
Qed.


Lemma status_partition (today : Z) (df : DataFrame) :
  (List.length (App.rows_with today App.within_window df)
   + List.length (App.rows_with today App.expired df)
   + List.length (App.rows_with today App.missing_date df))%nat
  = List.length df.
Proof.
  unfold App.rows_with. induction df as [|row df IH]; [reflexivity|].
  cbn [filter]. pose proof (status_never_pending today row) as Hp.
  destruct (App.status_of today row); cbn [App.status_eqb List.length];
    try contradiction; lia.
Qed.

(** X6.  The three frames share the findings out: every finding of the input
    is in exactly one of them, so their sizes add up to the size of the
    input. *)
Theorem filing_window_is_a_partition (now : Z) (df : DataFrame) (w : App.Windows) :
  App.filter_by_filing_window now df = Some w ->
  (List.length (App.filtered_df w) + List.length (App.expired_df w)
   + List.length (App.missing_date_df w))%nat = List.length df
  /\ forall row, In row df ->
       (In row (App.filtered_df w) /\ ~ In row (App.expired_df w)
          /\ ~ In row (App.missing_date_df w))
       \/ (~ In row (App.filtered_df w) /\ In row (App.expired_df w)
          /\ ~ In row (App.missing_date_df w))
       \/ (~ In row (App.filtered_df w) /\ ~ In row (App.expired_df w)
          /\ In row (App.missing_date_df w)).
Proof.
  intro H. split.
  - revert H. unfold App.filter_by_filing_window.
    destruct df as [|r rest] eqn:Edf.
    + intro H. apply some_injective in H. subst w. reflexivity.
    + rewrite <- Edf. destruct (df_has "Error Type" df); [|discriminate].
      intro H. apply some_injective in H. subst w.
      cbn [App.filtered_df App.expired_df App.missing_date_df].
      apply status_partition.
  - intros row Hrow.
    destruct (filing_window_frames now df w row H) as (Hf & He & Hm).
    pose proof (status_never_pending (Calendar.normalize now) row) as Hp.
    destruct (App.status_of (Calendar.normalize now) row) eqn:E.
    + contradiction.
    + left. split; [apply Hf; auto|]. split; intro X.
      * apply He in X as [_ X]. discriminate.
      * apply Hm in X as [_ X]. discriminate.
    + right. left. split; [|split; [apply He; auto|]]; intro X.
      * apply Hf in X as [_ X]. discriminate.
      * apply Hm in X as [_ X]. discriminate.
    + right. right. split; [|split; [|apply Hm; auto]]; intro X.
      * apply Hf in X as [_ X]. discriminate.
      * apply He in X as [_ X]. discriminate.
Qed.

Lemma normalize_mono (a b : Z) :
  (a <= b)%Z -> (Calendar.normalize a <= Calendar.normalize b)%Z.
Proof.
  intro H. unfold Calendar.normalize, Calendar.day_of.
  pose proof NS_PER_DAY_pos.
  apply Z.mul_le_mono_nonneg_r; [lia|].
  apply Z.div_le_mono; lia.
Qed.

Lemma window_later (deadline today today' : Z) (d : option Z) :
  (today <= today')%Z ->
  (App.window deadline today d = App.expired ->
   App.window deadline today' d = App.expired)
  /\ (App.window deadline today d = App.missing_date <->
      App.window deadline today' d = App.missing_date).
Proof.
  intro H. unfold App.window. destruct d as [d|]; [|split; [discriminate | tauto]].
  assert (Hm : (Calendar.delta_days today d <= Calendar.delta_days today' d)%Z).
  { unfold Calendar.delta_days. pose proof NS_PER_DAY_pos.
    apply Z.div_le_mono; lia. }
  destruct (Calendar.delta_days today d <=? deadline)%Z eqn:E1;
    destruct (Calendar.delta_days today' d <=? deadline)%Z eqn:E2;
    split; try discriminate; try tauto; try (split; discriminate).
  apply Z.leb_gt in E1. apply Z.leb_le in E2. lia.
Qed.

(** X7.  Time only closes windows: a finding that is expired when the filter
    runs is expired at every later run, and a finding is without a date
    at one run exactly when it is at any other. *)
Theorem expired_stays_expired (now now' : Z) (df : DataFrame) (w w' : App.Windows) (row : Row) :
  (now <= now')%Z ->
  App.filter_by_filing_window now df = Some w ->
  App.filter_by_filing_window now' df = Some w' ->
  (In row (App.expired_df w) -> In row (App.expired_df w'))
  /\ (In row (App.filtered_df w') -> In row (App.filtered_df w))
  /\ (In row (App.missing_date_df w) <-> In row (App.missing_date_df w')).
Proof.
  intros Hnow H H'.
  destruct (filing_window_frames now df w row H) as (Hf & He & Hm).
  destruct (filing_window_frames now' df w' row H') as (Hf' & He' & Hm').
  pose proof (normalize_mono now now' Hnow) as Hn.
  assert (Hw : (App.status_of (Calendar.normalize now) row = App.expired ->
                App.status_of (Calendar.normalize now') row = App.expired)
               /\ (App.status_of (Calendar.normalize now) row = App.missing_date <->
                   App.status_of (Calendar.normalize now') row = App.missing_date)).
  { rewrite !status_is_a_window. cbv zeta.
    destruct (App.contains_any _ _); [apply window_later; exact Hn|].
    destruct (App.contains_any _ _); apply window_later; exact Hn. }
  destruct Hw as [Hexp Hmiss].
  split; [|split].
  - intro X. apply He in X as [Hin X]. apply He'. split; [exact Hin | auto].
  - intro X. apply Hf' in X as [Hin X]. apply Hf. split; [exact Hin|].
    pose proof (status_never_pending (Calendar.normalize now) row) as Hp.
    destruct (App.status_of (Calendar.normalize now) row) eqn:E; try reflexivity.
    + contradiction.
    + rewrite (Hexp eq_refl) in X. discriminate.
    + rewrite (proj1 Hmiss eq_refl) in X. discriminate.
  - rewrite Hm, Hm'. split; intros [Hin X]; (split; [exact Hin|]); apply Hmiss; exact X.
Qed.

End FilingWindowRules.

(** ** Printed dates *)

Section CivilDates.
Local Open Scope Z_scope.

Lemma civil_from_days_bounds (z : Z) :
  let '(y, m, d) := Calendar.civil_from_days z in
  1 <= m <= 12 /\ 1 <= d <= 31.
Proof.
  unfold Calendar.civil_from_days. cbv zeta.
  set (zz := z + 719468).
  set (era := zz / 146097).
  set (doe := zz - era * 146097).
  assert (Hdoe : 0 <= doe <= 146096).
  { subst doe era. pose proof (Z.div_mod zz 146097 ltac:(lia)).
    pose proof (Z.mod_pos_bound zz 146097 ltac:(lia)). lia. }
  clearbody doe. clear zz era.
  set (yoe := (doe - doe / 1460 + doe / 36524 - doe / 146096) / 365).
  set (doy := doe - (365 * yoe + yoe / 4 - yoe / 100)).
  assert (Hdoy : 0 <= doy <= 365).
  { subst doy yoe. Z.div_mod_to_equations. lia. }
  clearbody doy.
  set (mp := (5 * doy + 2) / 153).
  assert (Hmp : 0 <= mp <= 11 /\ 1 <= doy - (153 * mp + 2) / 5 + 1 <= 31).
  { subst mp. Z.div_mod_to_equations. lia. }
  clearbody mp.
  destruct (mp <? 10) eqn:E; [apply Z.ltb_lt in E | apply Z.ltb_ge in E]; lia.
Qed.

Lemma civil_from_days_year (z : Z) :
  -719468 <= z <= 2932896 ->
  let '(y, m, d) := Calendar.civil_from_days z in
  0 <= y <= 9999.
Proof.
  intro Hz.
  unfold Calendar.civil_from_days. cbv zeta.
  set (zz := z + 719468).
  assert (0 <= zz <= 3652364) by (subst zz; lia).
  clearbody zz.
  set (era := zz / 146097).
  set (doe := zz - era * 146097).
  assert (Hdoe : 0 <= doe <= 146096 /\ 0 <= era <= 24 /\ zz = era * 146097 + doe).
  { subst doe era. pose proof (Z.div_mod zz 146097 ltac:(lia)).
    pose proof (Z.mod_pos_bound zz 146097 ltac:(lia)).
    Z.div_mod_to_equations. lia. }
  clearbody doe. clearbody era.
  set (yoe := (doe - doe / 1460 + doe / 36524 - doe / 146096) / 365).
  assert (Hyoe : 0 <= yoe <= 399).
  { subst yoe. Z.div_mod_to_equations. lia. }
  assert (Hlast : era = 24 -> yoe = 399 -> doe <= 146036) by lia.
  set (doy := doe - (365 * yoe + yoe / 4 - yoe / 100)).
  assert (Hdoy0 : 0 <= doy <= 365).
  { subst doy yoe. Z.div_mod_to_equations. lia. }
  assert (Hdoy : era = 24 -> yoe = 399 -> doy <= 305).
  { intros He Hy. specialize (Hlast He Hy). subst doy. rewrite Hy.
    change (399 / 4) with 99. change (399 / 100) with 3. lia. }
  clearbody doy. clearbody yoe.
  set (mp := (5 * doy + 2) / 153).
  assert (Hmp : 0 <= mp <= 11 /\ (doy <= 305 -> mp <= 9)).
  { subst mp. Z.div_mod_to_equations. lia. }
  clearbody mp.
  destruct (mp <? 10) eqn:E; [apply Z.ltb_lt in E | apply Z.ltb_ge in E].
  - destruct (mp + 3 <=? 2) eqn:E2; [apply Z.leb_le in E2 | ]; lia.
  - destruct (mp - 9 <=? 2) eqn:E2; [apply Z.leb_le in E2 | apply Z.leb_gt in E2]; lia.
Qed.

End CivilDates.

Lemma digit_char_is_digit (n : Z) : PyStr.is_digit (Calendar.digit_char n) = true.
Proof.
  unfold Calendar.digit_char, PyStr.is_digit, PyStr.between, PyStr.code.
  pose proof (Z.mod_pos_bound n 10 ltac:(lia)) as Hm.
  rewrite nat_ascii_embedding by lia.
  apply andb_true_iff. split; apply Nat.leb_le; lia.
Qed.

Lemma digits_fuel_all_digits (fuel : nat) :
  forall n acc,
    all_chars PyStr.is_digit acc = true ->
    all_chars PyStr.is_digit (Calendar.digits_fuel fuel n acc) = true.
Proof.
  induction fuel as [|f IH]; intros n acc Hacc; simpl; [exact Hacc|].
  assert (H' : all_chars PyStr.is_digit (String (Calendar.digit_char n) acc) = true).
  { cbn [all_chars]. rewrite digit_char_is_digit. exact Hacc. }
  destruct (n <? 10)%Z; [exact H' | apply IH; exact H'].
Qed.

Lemma digits_fuel_length (fuel : nat) :
  forall n acc (k : nat),
    (0 <= n < 10 ^ Z.of_nat (S k))%Z ->
    (String.length (Calendar.digits_fuel fuel n acc) <= String.length acc + S k)%nat.
Proof.
  induction fuel as [|f IH]; intros n acc k Hn; simpl Calendar.digits_fuel; [lia|].
  destruct (n <? 10)%Z eqn:E; [simpl; lia|].
  apply Z.ltb_ge in E.
  destruct k as [|k]; [simpl in Hn; lia|].
  eapply Nat.le_trans; [apply (IH _ _ k)|simpl; lia].
  rewrite Nat2Z.inj_succ, Z.pow_succ_r in Hn by lia.
  split; [apply Z.div_pos; lia|].
  apply Z.div_lt_upper_bound; lia.
Qed.

Lemma zeros_all_digits (n : nat) : all_chars PyStr.is_digit (Calendar.zeros n) = true.
Proof. induction n; simpl; [reflexivity | exact IHn]. Qed.

Lemma zeros_length (n : nat) : String.length (Calendar.zeros n) = n.
Proof. induction n; simpl; [reflexivity | f_equal; exact IHn]. Qed.

Lemma string_length_app (a b : string) :
  String.length (a ++ b) = (String.length a + String.length b)%nat.
Proof. induction a; simpl; [reflexivity | f_equal; assumption]. Qed.

Lemma pad_all_digits (width : nat) (n : Z) :
  all_chars PyStr.is_digit (Calendar.pad width n) = true.
Proof.
  unfold Calendar.pad. rewrite all_chars_app, zeros_all_digits.
  apply digits_fuel_all_digits. reflexivity.
Qed.

Lemma pad_length (k : nat) (n : Z) :
  (0 <= n < 10 ^ Z.of_nat (S k))%Z ->
  String.length (Calendar.pad (S k) n) = S k.
Proof.
  intro H. unfold Calendar.pad.
  rewrite string_length_app, zeros_length.
  pose proof (digits_fuel_length (S (Z.to_nat (Z.log2 n))) n "" k H) as Hl.
  unfold Calendar.string_of_nonneg.
  change (String.length "") with 0%nat in Hl. lia.
Qed.

Lemma two_digits (s : string) :
  String.length s = 2%nat -> all_chars PyStr.is_digit s = true ->
  exists a b, s = String a (String b "")
              /\ PyStr.is_digit a = true /\ PyStr.is_digit b = true.
Proof.
  destruct s as [|a [|b [|c s]]]; simpl; try discriminate.
  intros _ H. apply andb_true_iff in H as [Ha H].
  apply andb_true_iff in H as [Hb _]. exists a, b. auto.
Qed.

Lemma four_digits (s : string) :
  String.length s = 4%nat -> all_chars PyStr.is_digit s = true ->
  exists a b c d, s = String a (String b (String c (String d "")))
              /\ PyStr.is_digit a = true /\ PyStr.is_digit b = true
              /\ PyStr.is_digit c = true /\ PyStr.is_digit d = true.
Proof.
  destruct s as [|a [|b [|c [|d [|e s]]]]]; simpl; try discriminate.
  intros _ H. apply andb_true_iff in H as [Ha H].
  apply andb_true_iff in H as [Hb H].
  apply andb_true_iff in H as [Hc H].
  apply andb_true_iff in H as [Hd _]. exists a, b, c, d. auto.
Qed.

Lemma strftime_ymd_shape (t : Z) :
  (-719468 <= Calendar.day_of t <= 2932896)%Z ->
  is_ymd (Calendar.strftime_ymd t).
Proof.
  intro H. unfold Calendar.strftime_ymd.
  pose proof (civil_from_days_bounds (Calendar.day_of t)) as Hb.
  pose proof (civil_from_days_year (Calendar.day_of t) H) as Hy.
  destruct (Calendar.civil_from_days (Calendar.day_of t)) as [[y m] d].
  destruct Hb as [Hm Hd].
  destruct (four_digits (Calendar.pad 4 y)) as (y1 & y2 & y3 & y4 & -> & ? & ? & ? & ?).
  { apply pad_length. change (10 ^ Z.of_nat 4)%Z with 10000%Z. lia. }
  { apply pad_all_digits. }
  destruct (two_digits (Calendar.pad 2 m)) as (m1 & m2 & -> & ? & ?).
  { apply pad_length. change (10 ^ Z.of_nat 2)%Z with 100%Z. lia. }
  { apply pad_all_digits. }
  destruct (two_digits (Calendar.pad 2 d)) as (d1 & d2 & -> & ? & ?).
  { apply pad_length. change (10 ^ Z.of_nat 2)%Z with 100%Z. lia. }
  { apply pad_all_digits. }
  exists y1, y2, y3, y4, m1, m2, d1, d2. split; [reflexivity|].
  repeat constructor; assumption.
Qed.

Lemma strftime_ymd_chars (t : Z) :
  all_chars (fun c => PyStr.is_digit c || Ascii.eqb c "-") (Calendar.strftime_ymd t) = true.
Proof.
  unfold Calendar.strftime_ymd.
  destruct (Calendar.civil_from_days (Calendar.day_of t)) as [[y m] d].
  assert (Hp : forall w n,
            all_chars (fun c => PyStr.is_digit c || Ascii.eqb c "-") (Calendar.pad w n) = true).
  { intros w n. apply (all_chars_weaken PyStr.is_digit); [|apply pad_all_digits].
    intros c ->. reflexivity. }
  rewrite !all_chars_app, !Hp. reflexivity.
Qed.

Section ActualToken.
Context {RT : Runtime}.

Lemma actual_prefix_needs_A {A} (p : option ascii) (c : ascii) (t : string)
    (k : option ascii -> string -> option A) :
  Ascii.eqb "A" c = false -> Re.run App.actual_prefix p (String c t) k = None.
Proof.
  intro H. unfold App.actual_prefix.
  change (Re.Str "Actual:") with (Re.Cat (Re.Lit "A") (Re.Str "ctual:")).
  cbn [Re.run]. rewrite H. reflexivity.
Qed.

Lemma search_from_skip {A} (pre s : string) (p : option ascii)
    (k : option ascii -> string -> option A) :
  all_chars (fun c => negb (Ascii.eqb "A" c)) pre = true ->
  Re.search_from App.actual_prefix p (pre ++ s) k
  = Re.search_from App.actual_prefix (Re.last_char p pre) s k.
Proof.
  revert p. induction pre as [|c pre IH]; intros p H; [reflexivity|].
  cbn [all_chars] in H. apply andb_true_iff in H as [Hc Hpre].
  apply negb_true_iff in Hc.
  change ((String c pre ++ s)%string) with (String c (pre ++ s)%string).
  cbn [Re.search_from Re.last_char].
  rewrite (actual_prefix_needs_A p c _ _ Hc). cbn [Re.orelse].
  apply IH. exact Hpre.
Qed.

Lemma digit_not_space (c : ascii) :
  PyStr.is_digit c = true -> PyStr.is_space c = false.
Proof.
  destruct c as [[] [] [] [] [] [] [] []]; vm_compute; congruence.
Qed.

Lemma digit_not_A (c : ascii) :
  PyStr.is_digit c = true -> Ascii.eqb "A" c = false.
Proof.
  destruct c as [[] [] [] [] [] [] [] []]; vm_compute; congruence.
Qed.

Lemma read_actual_token (pre a : string) :
  all_chars (fun c => negb (Ascii.eqb "A" c)) pre = true ->
  is_ymd a ->
  Re.search_group App.actual_prefix App.actual_group (pre ++ "Actual: " ++ a) = Some a.
Proof.
  intros Hpre (y1 & y2 & y3 & y4 & m1 & m2 & d1 & d2 & -> & Hd).
  unfold Re.search_group. rewrite (search_from_skip _ _ _ _ Hpre).
  repeat match goal with
         | H : Forall _ (_ :: _) |- _ => apply Forall_cons_iff in H as [? H]
         end.
  pose proof (digit_not_space y1 ltac:(assumption)) as Hs.
  generalize (Re.last_char None pre). intro p.
  cbv - [PyStr.is_digit PyStr.is_space].
  rewrite Hs.
  repeat match goal with
         | H : PyStr.is_digit ?c = true |- _ => rewrite H; clear H
         end.
  reflexivity.
Qed.

End ActualToken.

(** ** Findings of the late-delivery check *)

(** X8.  [_add_business_days] always returns: for a positive count the day it
    returns is a Monday to Friday and exactly that many of the days after
    the start up to it are; for a count of zero or less it returns the
    start date as it is, weekend or not. *)
Theorem add_business_days_returns_nth_business_day (start business_days : Z) :
  exists k : nat,
    Calendar._add_business_days start business_days
    = Some (Calendar.add_days start (Z.of_nat k))
    /\ Calendar.business_days_within start k = Z.max 0 business_days
    /\ ((0 < business_days)%Z ->
        (Calendar.weekday (Calendar.add_days start (Z.of_nat k)) < 5)%Z
        /\ (business_days <= Z.of_nat k)%Z)
    /\ ((business_days <= 0)%Z -> k = 0%nat).
Proof.
  destruct (Z_lt_le_dec 0 business_days) as [Hpos|Hneg].
  - destruct (add_business_days_spec start business_days ltac:(lia))
      as (k & Hk & Hcount & Hwd).
    exists k. split; [exact Hk|]. split; [lia|]. split; [|lia].
    intros _. split; [exact (Hwd Hpos)|].
    rewrite <- Hcount. clear.
    induction k as [|k IH]; [simpl; lia|].
    cbn [Calendar.business_days_within].
    destruct (Calendar.weekday _ <? 5)%Z; lia.
  - exists 0%nat. split; [|split; [simpl; lia | split; [lia | reflexivity]]].
    unfold Calendar._add_business_days.
    replace (Z.to_nat business_days) with 0%nat by lia.
    simpl. rewrite add_days_0.
    destruct (0 <? business_days)%Z eqn:E; [apply Z.ltb_lt in E; lia | reflexivity].
Qed.

Section LateSoundness.
Context {RT : Runtime}.

(** what stands behind a finding of the loop body *)
Lemma late_delivery_of_inv (row : Row) (f : Finding) :
  late_delivery_of row = Some f ->
  passes_fedex_gate row = true
  /\ exists n ship delivery expected,
       expected_days_of row = Some n
       /\ date_or row "Shipment Date" "Shipment Date (mm/dd/yyyy)" = Some ship
       /\ date_or row "Delivery Date" "Shipment Delivery Date (mm/dd/yyyy)" = Some delivery
       /\ Calendar._add_business_days ship n = Some expected
       /\ (expected < delivery)%Z
       /\ error_type f = "Late Delivery"
       /\ date f = Calendar.strftime_ymd ship
       /\ notes f = ("Expected: " ++ Calendar.strftime_ymd expected
                       ++ ", Actual: " ++ Calendar.strftime_ymd delivery)%string
       /\ dispute_reason f
          = ("Package delivered "
               ++ Calendar.string_of_Z (Calendar.delta_days delivery expected)
               ++ " day(s) late")%string.
Proof.
  unfold late_delivery_of.
  destruct (passes_fedex_gate row) eqn:Eg; [|discriminate].
  destruct (expected_days_of row) as [n|] eqn:En; [|discriminate].
  destruct (date_or row "Shipment Date" _) as [ship|] eqn:Es; [|discriminate].
  destruct (date_or row "Delivery Date" _) as [delivery|] eqn:Ed; [|discriminate].
  destruct (Calendar._add_business_days ship n) as [expected|] eqn:Ea; [|discriminate].
  destruct (expected <? delivery)%Z eqn:E; [|discriminate].
  destruct (charge row "Total Charges") as [total|]; [|discriminate].
  destruct (charge row "Base Rate") as [base|]; [|discriminate].
  destruct (charge row "Billed Amount") as [billed|]; [|discriminate].
  intro H. apply some_injective in H. subst f.
  split; [reflexivity|]. exists n, ship, delivery, expected.
  apply Z.ltb_lt in E.
  split; [reflexivity|]. split; [reflexivity|]. split; [reflexivity|].
  split; [exact Ea|]. split; [exact E|].
  split; [reflexivity|]. split; [reflexivity|]. split; reflexivity.
Qed.

Lemma delta_days_nonneg (a b : Z) : (b <= a)%Z -> (0 <= Calendar.delta_days a b)%Z.
Proof.
  intro H. unfold Calendar.delta_days.
  apply Z.div_pos; [lia | apply NS_PER_DAY_pos].
Qed.

(** a finding of the check is the finding of a row of the frame *)
Lemma late_finding_row (df : DataFrame) (f : Finding) :
  In f (check_late_deliveries df) ->
  exists row, In row df /\ late_delivery_of row = Some f.
Proof.
  unfold check_late_deliveries. intro H.
  apply in_flat_map in H as (row & Hrow & Hf).
  destruct (late_delivery_of row) as [g|] eqn:E; [|destruct Hf].
  destruct Hf as [<-|[]]. exists row. auto.
Qed.

(** X9.  Every Late Delivery finding comes from a row of the frame that takes
    the FedEx gate, whose service has a transit time of one or two
    business days and whose delivery date is after the expected one; a
    FedEx row gives one only under a guaranteed service code, the count of
    days late is never negative, and no row gives two. *)
Theorem late_findings_are_sound (df : DataFrame) (f : Finding) :
  In f (check_late_deliveries df) ->
  exists row n ship delivery expected,
    In row df
    /\ late_delivery_of row = Some f
    /\ (PyStr.contains "FEDEX" (PyStr.upper (text_of row "Carrier")) = true ->
        str_mem (PyStr.upper (PyStr.strip (text_of row "Service Type")))
          fedex_guaranteed_service_codes = true)
    /\ expected_days_of row = Some n /\ (n = 1 \/ n = 2)%Z
    /\ date_or row "Shipment Date" "Shipment Date (mm/dd/yyyy)" = Some ship
    /\ date_or row "Delivery Date" "Shipment Delivery Date (mm/dd/yyyy)" = Some delivery
    /\ Calendar._add_business_days ship n = Some expected
    /\ (ship < expected < delivery)%Z
    /\ (Calendar.weekday expected < 5)%Z
    /\ (0 <= Calendar.delta_days delivery expected)%Z.
Proof.
  intro H. destruct (late_finding_row df f H) as (row & Hrow & E).
  destruct (late_delivery_of_inv row f E)
    as (Hgate & n & ship & delivery & expected & Hn & Hs & Hd & Hadd & Hlt & _).
  exists row, n, ship, delivery, expected.
  pose proof (expected_days_one_or_two row n Hn) as H12.
  destruct (add_business_days_spec ship n ltac:(lia)) as (k & Hk & Hcount & Hwd).
  rewrite Hk in Hadd. apply some_injective in Hadd.
  assert (Hkpos : (0 < k)%nat).
  { destruct k; [|lia]. simpl in Hcount. lia. }
  assert (Hafter : (ship < expected)%Z).
  { subst expected. unfold Calendar.add_days.
    pose proof NS_PER_DAY_pos as Hns.
    assert (0 < Z.of_nat k * Calendar.NS_PER_DAY)%Z by (apply Z.mul_pos_pos; lia).
    lia. }
  assert (Hweek : (Calendar.weekday expected < 5)%Z).
  { subst expected. apply Hwd. lia. }
  assert (Hgate' : PyStr.contains "FEDEX" (PyStr.upper (text_of row "Carrier")) = true ->
                   str_mem (PyStr.upper (PyStr.strip (text_of row "Service Type")))
                     fedex_guaranteed_service_codes = true).
  { intro Hfed. unfold passes_fedex_gate in Hgate. cbv zeta in Hgate.
    rewrite Hfed in Hgate. exact Hgate. }
  split; [exact Hrow|]. split; [exact E|]. split; [exact Hgate'|].
  split; [exact Hn|]. split; [exact H12|]. split; [exact Hs|]. split; [exact Hd|].
  split; [rewrite Hk, Hadd; reflexivity|]. split; [lia|]. split; [exact Hweek|].
  apply delta_days_nonneg. lia.
Qed.

Lemma late_findings_at_most_one_per_row (df : DataFrame) :
  (List.length (check_late_deliveries df) <= List.length df)%nat.
Proof.
  unfold check_late_deliveries. induction df as [|row df IH]; simpl; [lia|].
  rewrite length_app. destruct (late_delivery_of row); simpl; lia.
Qed.

(** X10.  The Notes of a Late Delivery finding end in the printed delivery
    date, and the filing-window filter reads exactly that date back:
    the token it draws from the finding's row is the [%Y-%m-%d] form of
    the row's delivery date, and the finding's status is the 15-day
    window of that date. *)
Theorem late_finding_notes_are_read_back (today : Z) (row : Row) (f : Finding) (delivery : Z) :
  late_delivery_of row = Some f ->
  date_or row "Delivery Date" "Shipment Delivery Date (mm/dd/yyyy)" = Some delivery ->
  (-719468 <= Calendar.day_of delivery <= 2932896)%Z ->
  Re.search_group App.actual_prefix App.actual_group (notes f)
  = Some (Calendar.strftime_ymd delivery)
  /\ App.delivery_date_of (row_of_finding f)
     = to_datetime_str (Calendar.strftime_ymd delivery)
  /\ App.status_of today (row_of_finding f)
     = App.window 15 today (to_datetime_str (Calendar.strftime_ymd delivery)).
Proof.
  intros Hf Hd Hrange.
  destruct (late_delivery_of_inv row f Hf)
    as (_ & n & ship & delivery' & expected & _ & _ & Hd' & _ & _ & Herr & _ & Hnotes & _).
  rewrite Hd in Hd'. apply some_injective in Hd'. subst delivery'.
  assert (Htoken : Re.search_group App.actual_prefix App.actual_group (notes f)
                   = Some (Calendar.strftime_ymd delivery)).
  { rewrite Hnotes.
    change (", Actual: " ++ Calendar.strftime_ymd delivery)%string
      with (", " ++ ("Actual: " ++ Calendar.strftime_ymd delivery))%string.
    rewrite <- (string_app_assoc (Calendar.strftime_ymd expected) ", ").
    rewrite <- (string_app_assoc "Expected: ").
    apply read_actual_token; [|apply strftime_ymd_shape; exact Hrange].
    rewrite !all_chars_app. apply andb_true_iff. split; [reflexivity|].
    apply andb_true_iff. split; [|reflexivity].
    apply (all_chars_weaken (fun c => PyStr.is_digit c || Ascii.eqb c "-"));
      [|apply strftime_ymd_chars].
    intros c Hc. apply negb_true_iff.
    apply orb_true_iff in Hc as [Hc|Hc]; [apply digit_not_A; exact Hc|].
    apply Ascii.eqb_eq in Hc. subst c. reflexivity. }
  assert (Hdate : App.delivery_date_of (row_of_finding f)
                  = to_datetime_str (Calendar.strftime_ymd delivery)).
  { unfold App.delivery_date_of, row_of_finding.
    change (row_get "Notes" _) with (Some (CStr (notes f))).
    unfold App.extract_actual_date. cbn [py_str]. rewrite Htoken. reflexivity. }
  split; [exact Htoken|]. split; [exact Hdate|].
  rewrite <- Hdate. apply late_delivery_status.
  unfold App.error_upper, row_of_finding.
  change (row_get_default "Error Type" CNull _) with (CStr (error_type f)).
  rewrite Herr. reflexivity.
Qed.

End LateSoundness.

(** ** Dimensions, amounts and packages *)

Section Readers.
Context {RT : Runtime}.

Lemma cell_dimension_pos (v : Cell) (q : Q) :
  cell_dimension v = Some q -> 0 < q.
Proof.
  unfold cell_dimension. destruct v as [|x|s|t]; try discriminate.
  - destruct (Num.ltb 0 x) eqn:E; [|discriminate].
    intro H. apply some_injective in H. subst q. apply ltb_true. exact E.
  - cbv zeta. destruct (PyStr.nonempty _); [|discriminate].
    destruct (to_numeric_str _) as [x|]; [|discriminate].
    destruct (Num.ltb 0 x) eqn:E; [|discriminate].
    intro H. apply some_injective in H. subst q. apply ltb_true. exact E.
Qed.

Lemma first_dimension_first (row : Row) (pre : list string) (c : string)
    (post : list string) (v : Cell) (q : Q) :
  (forall c' v', In c' pre -> row_get c' row = Some v' -> cell_dimension v' = None) ->
  row_get c row = Some v -> cell_dimension v = Some q ->
  first_dimension row (pre ++ c :: post) = q.
Proof.
  intros Hpre Hc Hq. induction pre as [|a pre IH]; simpl.
  - rewrite Hc, Hq. reflexivity.
  - destruct (row_get a row) as [va|] eqn:Ea.
    + rewrite (Hpre a va (or_introl eq_refl) Ea). apply IH.
      intros c' v' Hin. apply Hpre. right. exact Hin.
    + apply IH. intros c' v' Hin. apply Hpre. right. exact Hin.
Qed.

Lemma first_dimension_cases (row : Row) (candidates : list string) :
  (first_dimension row candidates = 0
   /\ forall c v, In c candidates -> row_get c row = Some v -> cell_dimension v = None)
  \/ exists pre c post v,
       candidates = pre ++ c :: post
       /\ (forall c' v', In c' pre -> row_get c' row = Some v' -> cell_dimension v' = None)
       /\ row_get c row = Some v
       /\ cell_dimension v = Some (first_dimension row candidates).
Proof.
  induction candidates as [|a rest IH]; simpl.
  - left. split; [reflexivity | intros c v []].
  - destruct (row_get a row) as [va|] eqn:Ea.
    + destruct (cell_dimension va) as [q|] eqn:Eq.
      * right. exists [], a, rest, va. simpl. repeat split; auto. intros c' v' [].
      * destruct IH as [[H0 Hall]|(pre & c & post & v & -> & Hpre & Hc & Hv)].
        -- left. split; [exact H0|]. intros c v [<-|Hin] Hc.
           ++ rewrite Ea in Hc. apply some_injective in Hc. subst v. exact Eq.
           ++ exact (Hall c v Hin Hc).
        -- right. exists (a :: pre), c, post, v. repeat split; auto.
           intros c' v' [<-|Hin] Hc'.
           ++ rewrite Ea in Hc'. apply some_injective in Hc'. subst v'. exact Eq.
           ++ exact (Hpre c' v' Hin Hc').
    + destruct IH as [[H0 Hall]|(pre & c & post & v & -> & Hpre & Hc & Hv)].
      * left. split; [exact H0|]. intros c v [<-|Hin] Hc.
        -- rewrite Ea in Hc. discriminate.
        -- exact (Hall c v Hin Hc).
      * right. exists (a :: pre), c, post, v. repeat split; auto.
        intros c' v' [<-|Hin] Hc'.
        -- rewrite Ea in Hc'. discriminate.
        -- exact (Hpre c' v' Hin Hc').
Qed.

Lemma dimension_nonneg (row : Row) (dimension_type : string) :
  0 <= _get_dimension row dimension_type.
Proof.
  unfold _get_dimension.
  destruct (first_dimension_cases row (dimension_candidates dimension_type))
    as [[H0 _]|(pre & c & post & v & _ & _ & _ & Hv)].
  - rewrite H0. apply Qle_refl.
  - apply Qlt_le_weak. exact (cell_dimension_pos _ _ Hv).
Qed.

(** X11.  [_get_dimension] is never negative: it is the reading of the first
    candidate column, in the order of the list, whose cell reads as a
    number greater than zero, and 0.0 when no candidate column does (a
    zero, a negative or an unreadable cell is passed over, and so is every
    column of an unknown dimension type). *)
Theorem dimension_is_first_positive_reading (row : Row) (dimension_type : string) :
  let candidates := dimension_candidates dimension_type in
  let d := _get_dimension row dimension_type in
  0 <= d
  /\ ((d = 0 /\ forall c v, In c candidates -> row_get c row = Some v ->
                            cell_dimension v = None)
      \/ (0 < d /\ exists pre c post v,
            candidates = pre ++ c :: post
            /\ (forall c' v', In c' pre -> row_get c' row = Some v' ->
                              cell_dimension v' = None)
            /\ row_get c row = Some v /\ cell_dimension v = Some d)).
Proof.
  cbv zeta. unfold _get_dimension.
  destruct (first_dimension_cases row (dimension_candidates dimension_type))
    as [[H0 Hall]|(pre & c & post & v & E & Hpre & Hc & Hv)].
  - rewrite H0. split; [apply Qle_refl|]. left. split; [reflexivity | exact Hall].
  - pose proof (cell_dimension_pos _ _ Hv) as Hpos.
    split; [apply Qlt_le_weak; exact Hpos|]. right. split; [exact Hpos|].
    exists pre, c, post, v. auto.
Qed.

(** ** Amounts ([_get_float_value]) *)

Lemma replace_char_absent (c : ascii) (by_ s : string) :
  all_chars (fun d => negb (Ascii.eqb c d)) s = true ->
  PyStr.replace_char c by_ s = s.
Proof.
  induction s as [|d s IH]; simpl; [reflexivity|].
  intro H. apply andb_true_iff in H as [Hd Hs]. apply negb_true_iff in Hd.
  rewrite Hd, (IH Hs). reflexivity.
Qed.

Lemma replace_char_app (c : ascii) (by_ a b : string) :
  PyStr.replace_char c by_ (a ++ b)%string
  = (PyStr.replace_char c by_ a ++ PyStr.replace_char c by_ b)%string.
Proof.
  induction a as [|d a IH]; simpl; [reflexivity|].
  destruct (Ascii.eqb c d); rewrite IH; [|reflexivity].
  symmetry. apply string_app_assoc.
Qed.

Lemma replace_char_clears (c : ascii) (by_ s : string) :
  all_chars (fun d => negb (Ascii.eqb c d)) by_ = true ->
  all_chars (fun d => negb (Ascii.eqb c d)) (PyStr.replace_char c by_ s) = true.
Proof.
  intro Hby. induction s as [|d s IH]; simpl; [reflexivity|].
  destruct (Ascii.eqb c d) eqn:E.
  - rewrite all_chars_app, Hby, IH. reflexivity.
  - cbn [all_chars]. rewrite E, IH. reflexivity.
Qed.

Lemma replace_char_preserves (good : ascii -> bool) (c : ascii) (by_ s : string) :
  all_chars good by_ = true -> all_chars good s = true ->
  all_chars good (PyStr.replace_char c by_ s) = true.
Proof.
  intros Hby. induction s as [|d s IH]; simpl; [reflexivity|].
  intro H. apply andb_true_iff in H as [Hd Hs].
  destruct (Ascii.eqb c d).
  - rewrite all_chars_app, Hby, (IH Hs). reflexivity.
  - cbn [all_chars]. rewrite Hd, (IH Hs). reflexivity.
Qed.

Lemma rstrip_app_end (s : string) (c : ascii) :
  PyStr.is_space c = false ->
  PyStr.rstrip (s ++ String c "") = (s ++ String c "")%string.
Proof.
  intro Hc. induction s as [|d s IH]; simpl.
  - rewrite Hc. reflexivity.
  - rewrite IH. destruct (s ++ String c "")%string eqn:E; [|reflexivity].
    destruct s; discriminate.
Qed.

Lemma all_chars_and (f g : ascii -> bool) (s : string) :
  all_chars (fun c => f c && g c) s = all_chars f s && all_chars g s.
Proof.
  induction s as [|c s IH]; simpl; [reflexivity|]. rewrite IH.
  destruct (f c), (g c), (all_chars f s), (all_chars g s); reflexivity.
Qed.

Lemma all_chars_ext (f g : ascii -> bool) (s : string) :
  (forall c, f c = g c) -> all_chars f s = all_chars g s.
Proof.
  intro H. induction s as [|c s IH]; simpl; [reflexivity|]. rewrite H, IH. reflexivity.
Qed.

Lemma no_money_symbol (s : string) :
  all_chars (fun c => negb (is_money_symbol c)) s
  = all_chars (fun d => negb (Ascii.eqb "$" d)) s
    && all_chars (fun d => negb (Ascii.eqb "," d)) s
    && all_chars (fun d => negb (Ascii.eqb "(" d)) s
    && all_chars (fun d => negb (Ascii.eqb ")" d)) s.
Proof.
  rewrite <- !all_chars_and. apply all_chars_ext. intro c.
  unfold is_money_symbol.
  rewrite (Ascii.eqb_sym c "$"), (Ascii.eqb_sym c ","),
          (Ascii.eqb_sym c "("), (Ascii.eqb_sym c ")").
  destruct (Ascii.eqb "$" c), (Ascii.eqb "," c), (Ascii.eqb "(" c), (Ascii.eqb ")" c);
    reflexivity.
Qed.

Lemma clean_amount_has_no_symbol (s : string) :
  all_chars (fun c => negb (is_money_symbol c)) (clean_amount s) = true.
Proof.
  rewrite no_money_symbol. unfold clean_amount.
  repeat (apply andb_true_iff; split).
  - apply replace_char_preserves; [reflexivity|].
    apply replace_char_preserves; [reflexivity|].
    apply replace_char_preserves; [reflexivity|].
    apply replace_char_clears. reflexivity.
  - apply replace_char_preserves; [reflexivity|].
    apply replace_char_preserves; [reflexivity|].
    apply replace_char_clears. reflexivity.
  - apply replace_char_preserves; [reflexivity|].
    apply replace_char_clears. reflexivity.
  - apply replace_char_clears. reflexivity.
Qed.

Lemma string_app_empty (t : string) : (t ++ "")%string = t.
Proof. induction t; simpl; [reflexivity | f_equal; assumption]. Qed.

Lemma clean_amount_parenthesised (t : string) :
  all_chars (fun c => negb (is_money_symbol c)) t = true ->
  clean_amount ("(" ++ t ++ ")") = ("-" ++ t)%string.
Proof.
  intro H. rewrite no_money_symbol in H.
  apply andb_true_iff in H as [H Hc]. apply andb_true_iff in H as [H Ho].
  apply andb_true_iff in H as [Hd Hm].
  assert (E : PyStr.strip ("(" ++ t ++ ")") = String "(" (t ++ ")")).
  { unfold PyStr.strip.
    change (PyStr.lstrip ("(" ++ t ++ ")")) with (String "(" (t ++ ")")).
    exact (rstrip_app_end (String "(" t) ")" eq_refl). }
  unfold clean_amount. rewrite E.
  rewrite (replace_char_absent "$" "" (String "(" (t ++ ")"))).
  2:{ cbn [all_chars]. rewrite all_chars_app, Hd. reflexivity. }
  rewrite (replace_char_absent "," "" (String "(" (t ++ ")"))).
  2:{ cbn [all_chars]. rewrite all_chars_app, Hm. reflexivity. }
  change (PyStr.replace_char "(" "-" (String "(" (t ++ ")")))
    with ("-" ++ PyStr.replace_char "(" "-" (t ++ ")"))%string.
  rewrite (replace_char_absent "(" "-" (t ++ ")")).
  2:{ rewrite all_chars_app, Ho. reflexivity. }
  change (PyStr.replace_char ")" "" ("-" ++ (t ++ ")")))
    with (String "-" (PyStr.replace_char ")" "" (t ++ ")"))).
  rewrite replace_char_app, (replace_char_absent ")" "" t Hc).
  change (PyStr.replace_char ")" "" ")") with ""%string.
  rewrite string_app_empty. reflexivity.
Qed.

Lemma float_value_cases (row : Row) (candidates : list string) :
  (_get_float_value row candidates = 0
   /\ forall c v, In c candidates -> row_get c row = Some v -> cell_amount v = None)
  \/ exists pre c post v,
       candidates = pre ++ c :: post
       /\ (forall c' v', In c' pre -> row_get c' row = Some v' -> cell_amount v' = None)
       /\ row_get c row = Some v
       /\ cell_amount v = Some (_get_float_value row candidates).
Proof.
  induction candidates as [|a rest IH]; simpl.
  - left. split; [reflexivity | intros c v []].
  - destruct (row_get a row) as [va|] eqn:Ea.
    + destruct (cell_amount va) as [q|] eqn:Eq.
      * right. exists [], a, rest, va. simpl. repeat split; auto. intros c' v' [].
      * destruct IH as [[H0 Hall]|(pre & c & post & v & -> & Hpre & Hc & Hv)].
        -- left. split; [exact H0|]. intros c v [<-|Hin] Hc.
           ++ rewrite Ea in Hc. apply some_injective in Hc. subst v. exact Eq.
           ++ exact (Hall c v Hin Hc).
        -- right. exists (a :: pre), c, post, v. repeat split; auto.
           intros c' v' [<-|Hin] Hc'.
           ++ rewrite Ea in Hc'. apply some_injective in Hc'. subst v'. exact Eq.
           ++ exact (Hpre c' v' Hin Hc').
    + destruct IH as [[H0 Hall]|(pre & c & post & v & -> & Hpre & Hc & Hv)].
      * left. split; [exact H0|]. intros c v [<-|Hin] Hc.
        -- rewrite Ea in Hc. discriminate.
        -- exact (Hall c v Hin Hc).
      * right. exists (a :: pre), c, post, v. repeat split; auto.
        intros c' v' [<-|Hin] Hc'.
        -- rewrite Ea in Hc'. discriminate.
        -- exact (Hpre c' v' Hin Hc').
Qed.

(** X12.  [_get_float_value] returns the amount of the first candidate column,
    in the order of the list, whose cell reads as a float, and 0.0 when
    none does: a missing column, a null cell, a text that is empty after
    the clean-up and a text [float] rejects are all passed over. *)
Theorem float_value_is_first_readable (row : Row) (candidates : list string) :
  (_get_float_value row candidates = 0
   /\ forall c v, In c candidates -> row_get c row = Some v -> cell_amount v = None)
  \/ exists pre c post v,
       candidates = pre ++ c :: post
       /\ (forall c', In c' pre ->
             row_get c' row = None
             \/ exists v', row_get c' row = Some v' /\ cell_amount v' = None)
       /\ row_get c row = Some v
       /\ cell_amount v = Some (_get_float_value row candidates).
Proof.
  destruct (float_value_cases row candidates)
    as [H|(pre & c & post & v & E & Hpre & Hc & Hv)]; [left; exact H|].
  right. exists pre, c, post, v. repeat split; auto.
  intros c' Hin. destruct (row_get c' row) as [v'|] eqn:E'; [|left; reflexivity].
  right. exists v'. split; [reflexivity|]. exact (Hpre c' v' Hin E').
Qed.

(** X13.  An amount written in accounting style is read as a negative number:
    a text [(t)] whose inside holds no dollar sign, comma or parenthesis
    is handed to [float] as [-t]; and whatever the text, what is handed to
    [float] holds none of those four symbols. *)
Theorem parenthesised_amount_is_negative (t : string) :
  all_chars (fun c => negb (is_money_symbol c)) t = true ->
  cell_amount (CStr ("(" ++ t ++ ")")) = float_of_str ("-" ++ t)
  /\ forall s, all_chars (fun c => negb (is_money_symbol c)) (clean_amount s) = true.
Proof.
  intro H. split; [|apply clean_amount_has_no_symbol].
  unfold cell_amount. cbv zeta. rewrite (clean_amount_parenthesised t H). reflexivity.
Qed.

End Readers.

Section Packages.
Context {RT : Runtime}.

Lemma insert_desc_In (x y : Q) (l : list Q) :
  In y (insert_desc x l) <-> x = y \/ In y l.
Proof.
  induction l as [|a l IH]; simpl; [tauto|].
  destruct (Num.ltb x a); simpl; [rewrite IH|]; tauto.
Qed.

Lemma sort_desc_In (y : Q) (l : list Q) : In y (sort_desc l) <-> In y l.
Proof.
  unfold sort_desc. induction l as [|a l IH]; simpl; [tauto|].
  rewrite insert_desc_In, IH. split; intros [H|H]; auto.
Qed.

Lemma insert_desc_length (x : Q) (l : list Q) :
  List.length (insert_desc x l) = S (List.length l).
Proof.
  induction l as [|a l IH]; simpl; [reflexivity|].
  destruct (Num.ltb x a); simpl; [rewrite IH|]; reflexivity.
Qed.

Lemma sort_desc_length (l : list Q) : List.length (sort_desc l) = List.length l.
Proof.
  unfold sort_desc. induction l as [|a l IH]; simpl; [reflexivity|].
  rewrite insert_desc_length, IH. reflexivity.
Qed.

Lemma insert_desc_descending (x : Q) (l : list Q) :
  descending l -> descending (insert_desc x l).
Proof.
  induction l as [|a l IH]; simpl; [auto|].
  intros [Ha Hl]. destruct (Num.ltb x a) eqn:E.
  - split; [|apply IH; exact Hl].
    destruct l as [|b l]; simpl.
    + apply Qlt_le_weak, ltb_true. exact E.
    + destruct (Num.ltb x b); [exact Ha | apply Qlt_le_weak, ltb_true; exact E].
  - simpl. split; [apply ltb_false; exact E|]. split; [exact Ha | exact Hl].
Qed.

Lemma sort_desc_descending (l : list Q) : descending (sort_desc l).
Proof.
  unfold sort_desc. induction l as [|a l IH]; simpl; [exact I|].
  apply insert_desc_descending. exact IH.
Qed.

(** X14.  The three sizes of a package are the three resolved dimensions in
    descending order: none is negative, the longest is one of length,
    width and height and no dimension exceeds it, and it is zero exactly
    when no dimension resolved. *)
Theorem package_sizes_are_sorted (row : Row) :
  let p := package_of row in
  let L := _get_dimension row "length" in
  let W := _get_dimension row "width" in
  let H := _get_dimension row "height" in
  0 <= third p /\ third p <= second p /\ second p <= longest p
  /\ In (longest p) [L; W; H]
  /\ L <= longest p /\ W <= longest p /\ H <= longest p
  /\ (longest p == 0 -> L == 0 /\ W == 0 /\ H == 0)
  /\ girth p == 2 * (second p + third p)
  /\ 0 <= girth p.
Proof.
  cbv zeta. unfold package_of. cbv zeta.
  set (L := _get_dimension row "length").
  set (W := _get_dimension row "width").
  set (H := _get_dimension row "height").
  assert (HL : 0 <= L) by apply dimension_nonneg.
  assert (HW : 0 <= W) by apply dimension_nonneg.
  assert (HH : 0 <= H) by apply dimension_nonneg.
  pose proof (sort_desc_length [L; W; H]) as Hlen.
  pose proof (sort_desc_descending [L; W; H]) as Hdesc.
  pose proof (fun y => sort_desc_In y [L; W; H]) as Hin.
  destruct (sort_desc [L; W; H]) as [|x [|y [|z [|u rest]]]]; try discriminate.
  cbn [List.app nth longest second third girth].
  simpl in Hdesc. destruct Hdesc as (Hyx & Hzy & _).
  assert (Hnn : forall d, In d [x; y; z] -> 0 <= d).
  { intros d Hd. apply Hin in Hd. simpl in Hd.
    destruct Hd as [<-|[<-|[<-|[]]]]; assumption. }
  assert (Hz : 0 <= z) by (apply Hnn; simpl; auto).
  assert (Hy : 0 <= y) by (apply Hnn; simpl; auto).
  assert (Hmax : forall d, In d [L; W; H] -> d <= x).
  { intros d Hd. apply Hin in Hd. simpl in Hd.
    destruct Hd as [<-|[<-|[<-|[]]]].
    - apply Qle_refl.
    - exact Hyx.
    - apply Qle_trans with y; assumption. }
  split; [exact Hz|]. split; [exact Hzy|]. split; [exact Hyx|].
  split; [apply Hin; simpl; auto|].
  split; [apply Hmax; simpl; auto|].
  split; [apply Hmax; simpl; auto|].
  split; [apply Hmax; simpl; auto|].
  split.
  - intro H0.
    assert (Hz0 : forall d, In d [L; W; H] -> 0 <= d -> d == 0).
    { intros d Hd Hd0. apply Qle_antisym; [|exact Hd0].
      rewrite <- H0. apply Hmax. exact Hd. }
    repeat split; apply Hz0; simpl; auto.
  - split; [reflexivity|].
    apply Qmult_le_0_compat; [discriminate|].
    replace 0 with (0 + 0) by reflexivity. apply Qplus_le_compat; assumption.
Qed.

(** X15.  An oversize package needs handling: whenever the Additional Handling
    arm disputes a charge on a package, the Oversize arm disputes an
    Oversize charge on the same package, each in full. *)
Theorem handling_dispute_implies_oversize_dispute (p : Package) (amount amount' : Q)
    (d : Dispute) :
  additional_handling_arm p amount = Some d ->
  refund d = amount
  /\ exists d', oversize_arm p amount' = Some d' /\ refund d' = amount'
  /\ reason d' = "Oversize charge applied but thresholds not met".
Proof.
  unfold additional_handling_arm, oversize_arm. cbv zeta.
  destruct (negb (needs_handling p) && Num.ltb 0 (longest p)) eqn:E; [|discriminate].
  intro Hd. apply some_injective in Hd. subst d. split; [reflexivity|].
  apply andb_true_iff in E as [Hn Hpos]. apply negb_true_iff in Hn.
  unfold needs_handling in Hn.
  apply orb_false_iff in Hn as [Hn _]. apply orb_false_iff in Hn as [Hn Hg].
  apply orb_false_iff in Hn as [Hl _].
  apply ltb_false in Hl, Hg.
  assert (Hover : is_oversize p = false).
  { unfold is_oversize. apply orb_false_iff. split; apply ltb_false.
    - apply Qle_trans with 48; [exact Hl | discriminate].
    - apply Qle_trans with 105; [exact Hg | discriminate]. }
  rewrite Hover, Hpos. simpl. eexists. repeat split.
Qed.

(** The Oversize arm disputes a charge exactly when the package is within
    both limits, longest side at most 96 in and length plus girth at most
    130 in, and its longest side is greater than zero. *)
Lemma oversize_flagged_iff (p : Package) (amount : Q) :
  (exists d, oversize_arm p amount = Some d) <->
  (longest p <= 96 /\ longest p + girth p <= 130 /\ 0 < longest p).
Proof.
  unfold oversize_arm, is_oversize. cbv zeta. split.
  - intros [d Hd].
    destruct (negb _ && Num.ltb 0 (longest p)) eqn:E; [|discriminate].
    apply andb_true_iff in E as [Hn Hpos]. apply negb_true_iff in Hn.
    apply orb_false_iff in Hn as [H1 H2].
    apply ltb_false in H1, H2. apply ltb_true in Hpos. auto.
  - intros (H1 & H2 & Hpos).
    apply ltb_false in H1, H2. apply ltb_true in Hpos.
    rewrite H1, H2, Hpos. simpl. eexists. reflexivity.
Qed.

End Packages.

(** ** Claims, pools and postal codes *)

Section ClaimsProperties.
Context {RT : Runtime}.

Lemma actionable_keeps_all (fs : list Finding) :
  (forall f, In f fs -> str_mem (error_type f) actionable_error_types = true) ->
  map claim_finding (get_actionable_errors fs) = fs.
Proof.
  intro H. unfold get_actionable_errors. rewrite map_map. cbn [claim_finding].
  rewrite map_id. apply filter_all. exact H.
Qed.

(** X16.  Nothing the late-delivery and the duplicate-tracking check find is
    dropped by [get_actionable_errors]: the findings come out in the same
    order, each as a claim that is ready to submit. *)
Theorem core_findings_are_actionable (df : DataFrame) (duplicate : list Finding) :
  check_duplicate_tracking df = Some duplicate ->
  let found := check_late_deliveries df ++ duplicate in
  map claim_finding (get_actionable_errors found) = found
  /\ forall c, In c (get_actionable_errors found) ->
       claim_status c = "Ready to Submit".
Proof.
  intro Hdup. cbv zeta. split.
  - apply actionable_keeps_all. intros f Hf. apply in_app_iff in Hf as [Hf|Hf].
    + destruct (late_finding_row df f Hf) as (row & _ & Hl).
      destruct (late_delivery_of_inv row f Hl) as (_ & n' & s' & d' & e' & H').
      destruct H' as (_ & _ & _ & _ & _ & Herr & _). rewrite Herr. reflexivity.
    + destruct (duplicate_finding_inv df duplicate f Hdup Hf) as (Herr & _).
      rewrite Herr. reflexivity.
  - intros c Hc. unfold get_actionable_errors in Hc.
    apply in_map_iff in Hc as (f & <- & _). reflexivity.
Qed.

(** X17.  Every claim is one of the findings with one of the three actionable
    error types; its priority is High exactly when the refund is at least
    50, Low exactly when it is below 10, and Medium otherwise, a refund
    that is NaN included. *)
Theorem claim_priority_by_refund (fs : list Finding) (c : Claim) :
  In c (get_actionable_errors fs) ->
  In (claim_finding c) fs
  /\ In (error_type (claim_finding c)) actionable_error_types
  /\ match refund_estimate (claim_finding c) with
     | PNum q =>
         (50 <= q -> claim_priority c = "High")
         /\ (q < 10 -> claim_priority c = "Low")
         /\ (10 <= q -> q < 50 -> claim_priority c = "Medium")
     | PNaN => claim_priority c = "Medium"
     end.
Proof.
  unfold get_actionable_errors. intro Hc.
  apply in_map_iff in Hc as (f & <- & Hf). apply filter_In in Hf as [Hin Hty].
  cbn [claim_finding claim_priority]. split; [exact Hin|]. split.
  - unfold str_mem in Hty. apply existsb_exists in Hty as (x & Hx & E).
    apply String.eqb_eq in E. subst x. exact Hx.
  - unfold priority_of. cbv zeta.
    destruct (refund_estimate f) as [q|]; [|reflexivity].
    cbn [float_ge float_lt]. split; [|split].
    + intro H. apply leb_true in H. rewrite H.
      destruct (Num.ltb q 10) eqn:E; [|reflexivity].
      apply ltb_true in E. apply leb_true in H. exfalso.
      apply (Qlt_irrefl q). apply Qlt_le_trans with 10; [exact E|].
      apply Qle_trans with 50; [discriminate | exact H].
    + intro H. apply ltb_true in H. rewrite H. reflexivity.
    + intros H1 H2. apply ltb_false in H1. apply leb_false in H2.
      rewrite H1, H2. reflexivity.
Qed.

End ClaimsProperties.

Section Pools.
Context {RT : Runtime}.
Context {NormFrame MiscQueue MiscByCategory MiscByMonth MiscSummary Summary : Type}.
Variable empty_queue : MiscQueue.
Variable empty_by_category : MiscByCategory.
Variable empty_summary : MiscSummary.
Variable residential_patterns : list string.
Variable check_disputable_surcharges : DataFrame -> list Finding.
Variable calculate_summary : DataFrame -> list Finding -> option Summary.
Variable normalize : DataFrame -> option NormFrame.
Variable build_misc_views :
  NormFrame -> option (MiscQueue * MiscByCategory * MiscByMonth * MiscSummary).



End Pools.

Section Zip.
Context {RT : Runtime}.

Lemma take_length (n : nat) (s : string) : (String.length (take n s) <= n)%nat.
Proof.
  revert s. induction n as [|n IH]; intros [|c s]; simpl; try lia.
  specialize (IH s). lia.
Qed.

Lemma take_all_chars (good : ascii -> bool) (n : nat) (s : string) :
  all_chars good s = true -> all_chars good (take n s) = true.
Proof.
  revert s. induction n as [|n IH]; intros [|c s]; simpl; try reflexivity.
  intro H. apply andb_true_iff in H as [Hc Hs]. rewrite Hc. apply IH. exact Hs.
Qed.

Lemma digits_only_digits (s : string) : all_chars PyStr.is_digit (digits_only s) = true.
Proof.
  induction s as [|c s IH]; simpl; [reflexivity|].
  destruct (PyStr.is_digit c) eqn:E; [|exact IH].
  cbn [all_chars]. rewrite E. exact IH.
Qed.

Lemma digits_only_id (s : string) :
  all_chars PyStr.is_digit s = true -> digits_only s = s.
Proof.
  induction s as [|c s IH]; simpl; [reflexivity|].
  intro H. apply andb_true_iff in H as [Hc Hs]. rewrite Hc, (IH Hs). reflexivity.
Qed.

Lemma before_char_absent (c : ascii) (s : string) :
  all_chars (fun d => negb (Ascii.eqb d c)) s = true ->
  forall t, before_char c (s ++ String c t) = s.
Proof.
  induction s as [|d s IH]; simpl; intros H t.
  - rewrite Ascii.eqb_refl. reflexivity.
  - apply andb_true_iff in H as [Hd Hs]. apply negb_true_iff in Hd.
    rewrite Hd, (IH Hs). reflexivity.
Qed.

Lemma contains_char_app (c : ascii) (s t : string) :
  PyStr.contains (String c "") (s ++ String c t) = true.
Proof.
  induction s as [|d s IH].
  - cbn [append PyStr.contains String.prefix].
    destruct (ascii_dec c c) as [_|N]; [destruct t; reflexivity | contradiction].
  - change ((String d s ++ String c t)%string) with (String d (s ++ String c t)).
    cbn [PyStr.contains]. rewrite IH. apply orb_true_r.
Qed.

Lemma contains_char_false (c : ascii) (s : string) :
  all_chars (fun d => negb (Ascii.eqb d c)) s = true ->
  PyStr.contains (String c "") s = false.
Proof.
  induction s as [|d s IH]; [reflexivity|].
  cbn [all_chars PyStr.contains String.prefix].
  intro H. apply andb_true_iff in H as [Hd Hs]. apply negb_true_iff in Hd.
  rewrite (IH Hs).
  destruct (ascii_dec c d) as [->|_]; [|reflexivity].
  rewrite Ascii.eqb_refl in Hd. discriminate.
Qed.

Lemma take_app_exact (s t : string) : take (String.length s) (s ++ t) = s.
Proof. induction s as [|c s IH]; simpl; [destruct t; reflexivity | rewrite IH; reflexivity]. Qed.

Lemma rstrip_cons (d : ascii) (x : string) :
  PyStr.rstrip x <> EmptyString ->
  PyStr.rstrip (String d x) = String d (PyStr.rstrip x).
Proof.
  intro H. cbn [PyStr.rstrip]. destruct (PyStr.rstrip x); [contradiction | reflexivity].
Qed.

Lemma rstrip_keeps_front (s : string) (c : ascii) (t : string) :
  PyStr.is_space c = false ->
  PyStr.rstrip (s ++ String c t) = (s ++ PyStr.rstrip (String c t))%string.
Proof.
  intro Hc.
  assert (Hne : PyStr.rstrip (String c t) <> EmptyString).
  { cbn [PyStr.rstrip]. destruct (PyStr.rstrip t); [rewrite Hc|]; discriminate. }
  induction s as [|d s IH]; [reflexivity|].
  change ((String d s ++ String c t)%string) with (String d (s ++ String c t)).
  rewrite rstrip_cons; [rewrite IH; reflexivity|].
  rewrite IH. destruct s; [exact Hne | discriminate].
Qed.

Lemma rstrip_cons_nonspace (c : ascii) (t : string) :
  PyStr.is_space c = false ->
  PyStr.rstrip (String c t) = String c (PyStr.rstrip t).
Proof.
  intro Hc. cbn [PyStr.rstrip]. destruct (PyStr.rstrip t); [rewrite Hc|]; reflexivity.
Qed.

Lemma digits_first_nonspace (s : string) (t : string) :
  all_chars PyStr.is_digit s = true -> s <> EmptyString ->
  PyStr.lstrip (s ++ t) = (s ++ t)%string.
Proof.
  destruct s as [|c s]; [contradiction|]. simpl. intros H _.
  apply andb_true_iff in H as [Hc _]. rewrite (digit_not_space c Hc). reflexivity.
Qed.

(** X19.  [_get_zip] returns at most five characters, and digits only unless
    the text holds a hyphen.  A ZIP+4 written with a hyphen, five digits,
    a hyphen and an extension, gives the five digits; so does a text that
    is the five digits followed by further digits. *)
Theorem zip_is_five_digits (row : Row) :
  (String.length (_get_zip row) <= 5)%nat
  /\ (PyStr.contains "-" (PyStr.strip (_get_text row zip_candidates)) = false ->
      all_chars PyStr.is_digit (_get_zip row) = true)
  /\ (forall zip5 ext,
        String.length zip5 = 5%nat -> all_chars PyStr.is_digit zip5 = true ->
        (_get_text row zip_candidates = (zip5 ++ "-" ++ ext)%string ->
         _get_zip row = zip5)
        /\ (all_chars PyStr.is_digit ext = true ->
            _get_text row zip_candidates = (zip5 ++ ext)%string ->
            _get_zip row = zip5)).
Proof.
  unfold _get_zip. cbv zeta. split; [|split].
  - destruct (negb _); [simpl; lia|].
    destruct (PyStr.contains _ _); apply take_length.
  - intro Hno. destruct (negb _); [reflexivity|]. rewrite Hno.
    apply take_all_chars, digits_only_digits.
  - intros zip5 ext Hlen Hdig.
    assert (Hne : zip5 <> EmptyString) by (destruct zip5; [discriminate | discriminate]).
    assert (Hnodash : all_chars (fun d => negb (Ascii.eqb d "-")) zip5 = true).
    { apply (all_chars_weaken PyStr.is_digit); [|exact Hdig].
      intros c Hc. apply negb_true_iff.
      destruct (Ascii.eqb c "-") eqn:E; [|reflexivity].
      apply Ascii.eqb_eq in E. subst c. discriminate. }
    split.
    + intros ->.
      assert (Hnon : PyStr.nonempty (zip5 ++ "-" ++ ext) = true)
        by (destruct zip5; [contradiction | reflexivity]).
      rewrite Hnon. cbn [negb].
      unfold PyStr.strip. rewrite (digits_first_nonspace zip5 _ Hdig Hne).
      change ("-" ++ ext)%string with (String "-" ext).
      rewrite (rstrip_keeps_front zip5 "-" ext eq_refl).
      rewrite (rstrip_cons_nonspace "-" ext eq_refl).
      rewrite contains_char_app, (before_char_absent "-" zip5 Hnodash).
      rewrite <- Hlen. rewrite <- (string_app_empty zip5) at 2.
      apply take_app_exact.
    + intros Hext ->.
      assert (Hnon : PyStr.nonempty (zip5 ++ ext) = true)
        by (destruct zip5; [contradiction | reflexivity]).
      rewrite Hnon. cbn [negb].
      assert (Hall : all_chars PyStr.is_digit (zip5 ++ ext) = true)
        by (rewrite all_chars_app, Hdig, Hext; reflexivity).
      assert (Hstrip : PyStr.strip (zip5 ++ ext) = (zip5 ++ ext)%string).
      { unfold PyStr.strip. rewrite (digits_first_nonspace zip5 _ Hdig Hne).
        clear - Hall. generalize dependent (zip5 ++ ext)%string. intro s.
        induction s as [|c s IH]; [reflexivity|]. cbn [all_chars PyStr.rstrip].
        intro H. apply andb_true_iff in H as [Hc Hs]. rewrite (IH Hs).
        destruct s; [rewrite (digit_not_space c Hc)|]; reflexivity. }
      rewrite Hstrip.
      rewrite contains_char_false.
      2:{ apply (all_chars_weaken PyStr.is_digit); [|exact Hall].
          intros c Hc. apply negb_true_iff.
          destruct (Ascii.eqb c "-") eqn:E; [|reflexivity].
          apply Ascii.eqb_eq in E. subst c. discriminate. }
      rewrite (digits_only_id _ Hall). rewrite <- Hlen. apply take_app_exact.
Qed.

End Zip.

(** ** The misc non-shipment detector *)

Section MiscTracking.
Context {RT : Runtime}.

Lemma run_digits {A} (n : nat) :
  forall (p : option ascii) (s : string) (k : string -> option A),
    Re.run (Re.Rep n Re.Dg) p s (fun _ rest => k rest)
    = match after_digits n s with Some rest => k rest | None => None end.
Proof.
  induction n as [|n IH]; intros p s k; [reflexivity|].
  assert (Hone : forall (q : option ascii) (u : string) (k' : option ascii -> string -> option A),
             Re.run Re.Dg q u k'
             = match u with
               | String c t => if PyStr.is_digit c then k' (Some c) t else None
               | EmptyString => None
               end).
  { intros q u k'. unfold Re.Dg. cbn [Re.run]. destruct u as [|c t]; [reflexivity|].
    cbn [existsb Re.item_matches]. rewrite orb_false_r. reflexivity. }
  destruct n as [|n].
  - change (Re.Rep 1 Re.Dg) with Re.Dg. rewrite Hone. cbn [after_digits].
    destruct s as [|c t]; [reflexivity|]. destruct (PyStr.is_digit c); reflexivity.
  - change (Re.Rep (S (S n)) Re.Dg) with (Re.Cat Re.Dg (Re.Rep (S n) Re.Dg)).
    cbn [Re.run]. rewrite Hone.
    change (after_digits (S (S n)) s)
      with (match s with
            | String c t => if PyStr.is_digit c then after_digits (S n) t else None
            | EmptyString => None
            end).
    destruct s as [|c t]; [reflexivity|].
    destruct (PyStr.is_digit c); [apply IH | reflexivity].
Qed.

Lemma after_digits_all (n : nat) :
  forall s, all_chars PyStr.is_digit s = true ->
    after_digits n s
    = if (n <=? String.length s)%nat
      then Some (String.substring n (String.length s - n) s) else None.
Proof.
  induction n as [|n IH]; intros s H.
  - cbn [after_digits Nat.leb]. rewrite Nat.sub_0_r. f_equal.
    clear. induction s as [|c s IHs]; [reflexivity|].
    cbn [String.length String.substring]. f_equal. exact IHs.
  - destruct s as [|c t]; [reflexivity|]. cbn [all_chars] in H.
    apply andb_true_iff in H as [Hc Ht]. cbn [after_digits]. rewrite Hc, (IH t Ht).
    reflexivity.
Qed.

Lemma after_digits_exact (n : nat) (s : string) :
  after_digits n s = Some EmptyString <->
  all_chars PyStr.is_digit s = true /\ String.length s = n.
Proof.
  revert s. induction n as [|n IH]; intros s.
  - cbn [after_digits]. split.
    + intro H. apply some_injective in H. subst s. split; reflexivity.
    + intros [_ H]. destruct s; [reflexivity | discriminate].
  - destruct s as [|c t]; cbn [after_digits all_chars String.length].
    + split; [discriminate | intros [_ H]; discriminate].
    + destruct (PyStr.is_digit c); cbn [andb].
      * rewrite IH. split; intros [H1 H2]; split; auto.
      * split; [discriminate | intros [H _]; discriminate].
Qed.

Lemma rstrip_end_not_space (x a : string) (c : ascii) :
  PyStr.rstrip x = (a ++ String c "")%string -> PyStr.is_space c = false.
Proof.
  revert a. induction x as [|d x IH]; intros a; cbn [PyStr.rstrip].
  - destruct a; discriminate.
  - destruct (PyStr.rstrip x) as [|e r] eqn:E.
    + destruct (PyStr.is_space d) eqn:Ed.
      * destruct a; discriminate.
      * destruct a as [|a0 a]; cbn [append]; intro H.
        -- injection H as <-. exact Ed.
        -- injection H as _ H. destruct a; discriminate.
    + destruct a as [|a0 a]; cbn [append]; intro H.
      * discriminate.
      * injection H as _ H. apply (IH a). exact H.
Qed.

Lemma after_digits_split (n : nat) :
  forall s rest, after_digits n s = Some rest ->
    exists d, s = (d ++ rest)%string /\ all_chars PyStr.is_digit d = true
              /\ String.length d = n.
Proof.
  induction n as [|n IH]; intros s rest; cbn [after_digits].
  - intro H. apply some_injective in H. subst rest. exists ""%string. auto.
  - destruct s as [|c t]; [discriminate|].
    destruct (PyStr.is_digit c) eqn:Ec; [|discriminate].
    intro H. destruct (IH t rest H) as (d & -> & Hd & Hl).
    exists (String c d). cbn [all_chars String.length append]. rewrite Ec, Hd, Hl. auto.
Qed.

Lemma at_end_of_stripped (n : nat) (x : string) :
  match after_digits n (PyStr.strip x) with
  | Some rest => Misc.at_end rest
  | None => false
  end
  = all_chars PyStr.is_digit (PyStr.strip x) && (String.length (PyStr.strip x) =? n)%nat.
Proof.
  destruct (after_digits n (PyStr.strip x)) as [rest|] eqn:E.
  - destruct rest as [|c [|c' r]].
    + apply after_digits_exact in E as [H1 H2]. rewrite H1, H2, Nat.eqb_refl. reflexivity.
    + cbn [Misc.at_end].
      destruct (after_digits_split n _ _ E) as (d & Hs & Hd & Hl).
      unfold PyStr.strip in Hs.
      pose proof (rstrip_end_not_space _ _ _ Hs) as Hsp.
      destruct (Ascii.eqb c "010") eqn:Ec.
      * apply Ascii.eqb_eq in Ec. subst c. discriminate.
      * symmetry. apply andb_false_iff. right. apply Nat.eqb_neq.
        unfold PyStr.strip. rewrite Hs, string_length_app. cbn [String.length]. lia.
    + cbn [Misc.at_end].
      destruct (after_digits_split n _ _ E) as (d & Hs & Hd & Hl).
      symmetry. apply andb_false_iff. right. apply Nat.eqb_neq.
      rewrite Hs, string_length_app. cbn [String.length]. lia.
  - symmetry. destruct (all_chars PyStr.is_digit (PyStr.strip x)) eqn:Ha; [|reflexivity].
    cbn [andb]. apply Nat.eqb_neq. intro Hl.
    assert (H : after_digits n (PyStr.strip x) = Some EmptyString)
      by (apply after_digits_exact; auto).
    congruence.
Qed.

(** X20.  A tracking number is standard exactly when, white space at its ends
    apart, it is 12, 15 or 22 characters long and every one of them is a
    digit; a null is never standard. *)
Theorem valid_tracking_is_12_15_or_22_digits (x : Cell) :
  Misc.is_valid_tracking x
  = match x with
    | CNull => false
    | _ =>
        let s := PyStr.strip (py_str x) in
        all_chars PyStr.is_digit s
        && ((String.length s =? 12) || (String.length s =? 15)
            || (String.length s =? 22))%nat
    end.
Proof.
  assert (Hgen : forall t,
            match Re.run Misc.tracking_pattern None (PyStr.strip t)
                    (fun _ rest => if Misc.at_end rest then Some tt else None) with
            | Some _ => true
            | None => false
            end
            = all_chars PyStr.is_digit (PyStr.strip t)
              && ((String.length (PyStr.strip t) =? 12)
                  || (String.length (PyStr.strip t) =? 15)
                  || (String.length (PyStr.strip t) =? 22))%nat).
  { intro t. unfold Misc.tracking_pattern. cbn [Re.run].
    rewrite !(run_digits _ None (PyStr.strip t)
                (fun rest => if Misc.at_end rest then Some tt else None)).
    pose proof (at_end_of_stripped 12 t) as H12.
    pose proof (at_end_of_stripped 15 t) as H15.
    pose proof (at_end_of_stripped 22 t) as H22.
    destruct (after_digits 12 (PyStr.strip t)) as [r12|];
      destruct (after_digits 15 (PyStr.strip t)) as [r15|];
      destruct (after_digits 22 (PyStr.strip t)) as [r22|];
      try destruct (Misc.at_end r12); try destruct (Misc.at_end r15);
      try destruct (Misc.at_end r22); cbn [Re.orelse];
      destruct (all_chars PyStr.is_digit (PyStr.strip t));
      cbn [andb] in *;
      try rewrite <- H12; try rewrite <- H15; try rewrite <- H22;
      try reflexivity; try discriminate. }
  unfold Misc.is_valid_tracking. cbv zeta.
  destruct x; [reflexivity | apply Hgen ..].
Qed.

End MiscTracking.

Section MiscClassification.
Context {RT : Runtime}.
Variable to_numeric_cell : Cell -> option Q.

(** X21.  A row is queued as a misc non-shipment charge exactly when at least
    three of the five flags are raised.  So a row with a service, a
    delivery date and a standard tracking number is never queued, whatever
    its pay type and recipient, and a row with none of the three always
    is; the confidence is the score over five. *)
Theorem misc_needs_three_flags (row : Row) :
  let n := Misc.normalize_row to_numeric_cell row in
  (Misc.is_misc_non_shipment n = true <-> (3 <= Misc.misc_score n)%nat)
  /\ (Misc.misc_score n <= 5)%nat
  /\ (Misc.is_service_blank n = false -> Misc.is_deliv_missing n = false ->
      Misc.is_nonstandard_tracking n = false -> Misc.is_misc_non_shipment n = false)
  /\ (Misc.is_service_blank n = true -> Misc.is_deliv_missing n = true ->
      Misc.is_nonstandard_tracking n = true -> Misc.is_misc_non_shipment n = true)
  /\ Misc.misc_confidence n * 5 == inject_Z (Z.of_nat (Misc.misc_score n))
  /\ (Misc.is_nonstandard_tracking n
      = negb (Misc.is_valid_tracking (CStr (Misc.tracking n)))).
Proof.
  cbv zeta. unfold Misc.normalize_row. cbv zeta.
  cbn [Misc.is_misc_non_shipment Misc.misc_score Misc.is_service_blank
       Misc.is_deliv_missing Misc.is_nonstandard_tracking Misc.misc_confidence
       Misc.tracking].
  set (b1 := (_ =? "")%string && (_ =? "")%string).
  set (b2 := match Misc.parse_date_safe _ with None => true | Some _ => false end).
  set (b3 := (_ =? "")%string || PyStr.contains "other4" _).
  set (b4 := (_ =? "")%string).
  set (b5 := negb (Misc.is_valid_tracking _)).
  unfold Misc.MISC_SCORE_THRESHOLD.
  split; [apply Nat.leb_le|]. split.
  { destruct b1, b2, b3, b4, b5; cbn [Misc.bool_count]; lia. }
  split.
  { intros -> -> ->. apply Nat.leb_gt. destruct b3, b4; cbn [Misc.bool_count]; lia. }
  split.
  { intros -> -> ->. apply Nat.leb_le. destruct b3, b4; cbn [Misc.bool_count]; lia. }
  split; [|reflexivity].
  destruct b1, b2, b3, b4, b5; vm_compute; reflexivity.
Qed.

(** X22.  The category is always one of six labels.  The description decides
    before the pay type does: a description that holds [address
    correction] gives Address Correction whatever the pay type, and
    where neither the description nor the pay type holds a keyword the
    category is Misc Adjustment. *)
Theorem category_is_one_of_six (desc pay_type : string) :
  In (Misc.assign_category desc pay_type) Misc.misc_categories
  /\ (PyStr.contains "address correction" (PyStr.lower desc) = true ->
      Misc.assign_category desc pay_type = "Address Correction")
  /\ (PyStr.contains "address correction" (PyStr.lower desc) = false ->
      PyStr.any_in ["dutie"; "vat"; "tax"] (PyStr.lower desc) = true ->
      Misc.assign_category desc pay_type = "Duties/Taxes")
  /\ (PyStr.contains "address correction" (PyStr.lower desc) = false ->
      PyStr.any_in ["dutie"; "vat"; "tax"] (PyStr.lower desc) = false ->
      PyStr.contains "paper" (PyStr.lower desc)
        && PyStr.contains "invoice" (PyStr.lower desc) = false ->
      (forall key, In key (map fst Misc.MISC_PAYTYPE_MAP) ->
                   PyStr.contains key (PyStr.lower pay_type) = false) ->
      Misc.assign_category desc pay_type = "Misc Adjustment").
Proof.
  unfold Misc.assign_category. cbv zeta. split; [|split; [|split]].
  - destruct (PyStr.contains "address correction" _); [simpl; auto|].
    destruct (PyStr.any_in _ _); [simpl; auto|].
    destruct (_ && _); [simpl; auto|].
    destruct (find _ Misc.MISC_PAYTYPE_MAP) as [[k c]|] eqn:E; [|simpl; auto 10].
    apply find_some in E as [Hin _].
    unfold Misc.MISC_PAYTYPE_MAP in Hin. simpl in Hin.
    repeat (destruct Hin as [Hin|Hin];
            [injection Hin as _ <-; simpl; auto 10|]).
    destruct Hin.
  - intros ->. reflexivity.
  - intros -> ->. reflexivity.
  - intros -> -> -> Hkeys.
    destruct (find _ Misc.MISC_PAYTYPE_MAP) as [[k c]|] eqn:E; [|reflexivity].
    apply find_some in E as [Hin Hc]. cbn [fst] in Hc.
    rewrite (Hkeys k) in Hc; [discriminate|].
    apply in_map_iff. exists (k, c). auto.
Qed.

End MiscClassification.

Section MiscViews.



















End MiscViews.

(** ** Findings of duplicate surcharges *)

Section DuplicateSurchargeProperties.
Context {RT : Runtime}.

Lemma str_mem_In (x : string) (l : list string) : str_mem x l = true <-> In x l.
Proof.
  unfold str_mem. rewrite existsb_exists. split.
  - intros (y & Hy & E). apply String.eqb_eq in E. subst y. exact Hy.
  - intro H. exists x. split; [exact H | apply String.eqb_refl].
Qed.

Lemma first_seen_In (l seen : list string) (x : string) :
  In x (first_seen seen l) <-> In x l /\ ~ In x seen.
Proof.
  revert seen. induction l as [|y l IH]; intro seen; cbn [first_seen].
  - simpl. tauto.
  - destruct (str_mem y seen) eqn:E.
    + apply str_mem_In in E. rewrite IH. simpl. split.
      * intros [H1 H2]. auto.
      * intros [[->|H1] H2]; [contradiction | auto].
    + assert (Hy : ~ In y seen).
      { intro H. apply str_mem_In in H. congruence. }
      simpl. rewrite IH. simpl. split.
      * intros [<-|[H1 H2]]; [auto|]. split; [auto|]. intro H. apply H2. auto.
      * intros [[<-|H1] H2]; [auto|].
        destruct (string_dec y x) as [->|N]; [auto|]. right. split; [exact H1|].
        intros [H|H]; [contradiction | contradiction].
Qed.

Lemma first_seen_NoDup (l seen : list string) : NoDup (first_seen seen l).
Proof.
  revert seen. induction l as [|y l IH]; intro seen; cbn [first_seen]; [constructor|].
  destruct (str_mem y seen); [apply IH|].
  constructor; [|apply IH]. intro H. apply first_seen_In in H as [_ H].
  apply H. left. reflexivity.
Qed.

Lemma count_of_NoDup (desc : string) (l : list string) :
  NoDup l -> (count_of desc l <= 1)%nat.
Proof.
  unfold count_of. induction l as [|y l IH]; intro H; [simpl; lia|].
  apply NoDup_cons_iff in H as [Hy Hl]. cbn [filter].
  destruct (String.eqb desc y) eqn:E; [|apply IH; exact Hl].
  apply String.eqb_eq in E. subst y. cbn [List.length].
  rewrite filter_none; [simpl; lia|].
  intros x Hx. apply String.eqb_neq. intro. subst x. contradiction.
Qed.

(** X24.  A row whose surcharge entries all have different canonical
    descriptions gets no duplicate-surcharge finding. *)
Theorem distinct_surcharges_no_duplicate (row : Row)
    (surcharges : list (string * PyFloat)) :
  NoDup (map fst surcharges) ->
  duplicate_surcharge_findings row surcharges = [].
Proof.
  intro H. unfold duplicate_surcharge_findings. cbv zeta.
  induction (first_seen [] (map fst surcharges)) as [|d ds IH]; [reflexivity|].
  cbn [flat_map]. rewrite IH.
  pose proof (count_of_NoDup d _ H) as Hc.
  destruct (1 <? count_of d (map fst surcharges))%nat eqn:E; [|reflexivity].
  apply Nat.ltb_lt in E. lia.
Qed.




Lemma duplicate_findings_NoDup_desc (row : Row) (surcharges : list (string * PyFloat)) :
  (List.length (duplicate_surcharge_findings row surcharges)
   <= List.length (first_seen [] (map fst surcharges)))%nat.
Proof.
  unfold duplicate_surcharge_findings. cbv zeta.
  induction (first_seen [] (map fst surcharges)) as [|d ds IH]; [simpl; lia|].
  cbn [flat_map]. rewrite length_app.
  destruct (1 <? _)%nat; simpl; lia.
Qed.

End DuplicateSurchargeProperties.

Section ConsolidationProperties.
Variable same_key : Cell -> Cell -> bool.






Lemma add_totals_comm (a b : option Q) : same_total (add_totals a b) (add_totals b a).
Proof. destruct a, b; simpl; auto. ring. Qed.














End ConsolidationProperties.

(** ** Canonical names and return pairs *)

Section CanonCase.










Lemma lstrip_idem (s : string) : PyStr.lstrip (PyStr.lstrip s) = PyStr.lstrip s.
Proof.
  induction s as [|c s IH]; [reflexivity|]. cbn [PyStr.lstrip].
  destruct (PyStr.is_space c) eqn:E; [exact IH|]. cbn [PyStr.lstrip]. rewrite E. reflexivity.
Qed.






End CanonCase.

Section ReturnPair.
Context {RT : Runtime}.

(** X28.  Which of the two lines is the return does not matter: two lines with
    the same columns are an Original+Return pair in either order, and a
    group of any other size never is one. *)
Theorem return_pair_is_symmetric (row1 row2 : Row) :
  (forall col, row_has col row1 = row_has col row2) ->
  _is_original_plus_return_pair [row1; row2] = _is_original_plus_return_pair [row2; row1]
  /\ forall rows, List.length rows <> 2%nat -> _is_original_plus_return_pair rows = false.
Proof.
  intro H. split.
  - unfold _is_original_plus_return_pair.
    assert (E : find (fun col => df_has col [row1; row2]) service_columns
                = find (fun col => df_has col [row2; row1]) service_columns).
    { assert (Hext : forall (p q : string -> bool) l,
                (forall c, p c = q c) -> find p l = find q l).
      { intros p q l Hpq. induction l as [|c l IH]; [reflexivity|].
        cbn [find]. rewrite Hpq, IH. reflexivity. }
      apply Hext. intro c. exact (H c). }
    rewrite E.
    destruct (find (fun col => df_has col [row2; row1]) service_columns); [|reflexivity].
    cbv zeta. apply xorb_comm.
  - intros rows Hlen. unfold _is_original_plus_return_pair.
    destruct rows as [|a [|b [|c r]]]; try reflexivity. simpl in Hlen. lia.
Qed.

End ReturnPair.

(** ** Surcharge columns *)

Section ColumnCollision.
Context {RT : Runtime}.

Lemma count_of_app (d : string) (a b : list string) :
  count_of d (a ++ b) = (count_of d a + count_of d b)%nat.
Proof. unfold count_of. rewrite filter_app, length_app. reflexivity. Qed.

Lemma column_entry_number (row : Row) (col : string) (a : Q) :
  row_get col row = Some (CNum a) -> ~ a == 0 ->
  column_entry row col = [(Canon.canonize col, PNum a)].
Proof.
  intros Hc Ha. unfold column_entry, row_has, charge. rewrite Hc. cbn [truthy].
  destruct (Num.eqb a 0) eqn:E; [|reflexivity].
  apply eqb_true in E. contradiction.
Qed.

(** X29.  A row that carries an amount both in the Additional Handling column
    and in the Peak Additional Handling column gets a duplicate-surcharge
    finding from its columns alone: the two labels have the same canonical
    description, so the description is counted at least twice. *)
Theorem peak_handling_column_counts_twice (row : Row) (a b : Q) :
  row_get "Additional Handling" row = Some (CNum a) ->
  row_get "Peak Additional Handling" row = Some (CNum b) ->
  ~ a == 0 -> ~ b == 0 ->
  let seen := map fst (indiv_surcharges row) in
  (2 <= count_of "ADDITIONAL HANDLING SURCHARGE" seen)%nat
  /\ exists f,
       In f (duplicate_surcharge_findings row (indiv_surcharges row))
       /\ is_duplicate_surcharge f = true
       /\ f = duplicate_surcharge_finding row "ADDITIONAL HANDLING SURCHARGE"
                (count_of "ADDITIONAL HANDLING SURCHARGE" seen)
                (bucket_of "ADDITIONAL HANDLING SURCHARGE" (indiv_surcharges row)).
Proof.
  intros Ha Hb Hna Hnb. cbv zeta.
  set (d := "ADDITIONAL HANDLING SURCHARGE").
  assert (Hsplit : surcharge_columns
                   = firstn 8 surcharge_columns ++ ["Additional Handling"]
                       ++ (firstn 3 (skipn 9 surcharge_columns))
                       ++ ["Peak Additional Handling"] ++ skipn 13 surcharge_columns)
    by reflexivity.
  assert (Hcount : (2 <= count_of d (map fst (indiv_surcharges row)))%nat).
  { unfold indiv_surcharges. rewrite Hsplit.
    rewrite !flat_map_app, !map_app, !count_of_app.
    cbn [flat_map]. rewrite !app_nil_r.
    rewrite (column_entry_number row _ a Ha Hna), (column_entry_number row _ b Hb Hnb).
    assert (E1 : Canon.canonize "Additional Handling" = d) by (vm_compute; reflexivity).
    assert (E2 : Canon.canonize "Peak Additional Handling" = d)
      by (vm_compute; reflexivity).
    cbn [map fst]. rewrite E1, E2.
    assert (Hone : count_of d [d] = 1%nat) by (vm_compute; reflexivity).
    rewrite !Hone. lia. }
  split; [exact Hcount|].
  eexists. split; [|split; [|reflexivity]].
  - unfold duplicate_surcharge_findings. cbv zeta. apply in_flat_map.
    exists d. split.
    + apply first_seen_In. split; [|intros []].
      unfold count_of in Hcount.
      destruct (filter (String.eqb d) (map fst (indiv_surcharges row))) as [|x l] eqn:E;
        [simpl in Hcount; lia|].
      assert (Hx : In x (filter (String.eqb d) (map fst (indiv_surcharges row))))
        by (rewrite E; left; reflexivity).
      apply filter_In in Hx as [Hx Hd]. apply String.eqb_eq in Hd. subst x. exact Hx.
    + assert (Hlt : (1 <? count_of d (map fst (indiv_surcharges row)))%nat = true)
        by (apply Nat.ltb_lt; lia).
      rewrite Hlt. left. reflexivity.
  - reflexivity.
Qed.

End ColumnCollision.

(** ** Claims in the filing-window filter *)

Section ClaimsInTheFilter.
Context {RT : Runtime}.


End ClaimsInTheFilter.

(** ** Instances *)

Import Cases.

(** Two lines of one tracking number: the one finding is for that number. *)
Lemma duplicate_findings_are_sound_witness :
  exists fs,
    check_duplicate_tracking (RT := sample_runtime) equal_lines = Some fs
    /\ List.length fs = 1%nat
    /\ NoDup (map finding_key fs)
    /\ forall f, In f fs -> error_type f = "Duplicate Tracking"%string.
Proof.
  assert (E : exists fs,
             check_duplicate_tracking (RT := sample_runtime) equal_lines = Some fs
             /\ List.length fs = 1%nat)
    by (eexists; split; vm_compute; reflexivity).
  destruct E as (fs & E & Hlen). exists fs.
  split; [exact E|]. split; [exact Hlen|].
  destruct (duplicate_findings_are_sound (RT := sample_runtime) equal_lines fs E)
    as [Hnd Hall].
  split; [exact Hnd|]. intros f Hf. exact (proj1 (Hall f Hf)).
Defined.

(** Two lines of two tracking numbers: no finding. *)
Lemma no_repeated_tracking_no_finding_witness :
  check_duplicate_tracking (RT := sample_runtime) distinct_lines = Some [].
Proof.
  apply (no_repeated_tracking_no_finding (RT := sample_runtime) distinct_lines).
  assert (E : map (fun row => _normalize_tracking (RT := sample_runtime)
                                (row_get_default "Tracking Number" CNull row))
                  distinct_lines
              = ["466761794075"; "466761794076"]%string)
    by (vm_compute; reflexivity).
  rewrite E. constructor; [|constructor; [intros [] | constructor]].
  intros [H|[]]. discriminate H.
Defined.

(** Two $50 lines: the refund of the finding, 50, is not negative. *)
Lemma duplicate_refund_is_not_negative_witness :
  exists fs f q,
    check_duplicate_tracking (RT := sample_runtime) equal_lines = Some fs
    /\ In f fs /\ refund_estimate f = PNum q /\ 0 <= q.
Proof.
  assert (E : exists f,
             check_duplicate_tracking (RT := sample_runtime) equal_lines = Some [f])
    by (eexists; vm_compute; reflexivity).
  destruct E as (f & E).
  assert (Hnets : forall w, In w (df_work (RT := sample_runtime) equal_lines) ->
                            _class w = TRANSPORT -> 0 <= _net w).
  { intros w Hw _. vm_compute in Hw.
    destruct Hw as [<-|[<-|[]]]; vm_compute; discriminate. }
  destruct (duplicate_refund_is_not_negative (RT := sample_runtime)
              equal_lines [f] f Hnets E (or_introl eq_refl)) as (q & Hq & Hpos).
  exists [f], f, q. split; [exact E|]. split; [left; reflexivity|]. split; assumption.
Defined.

(** The late shipment of the specification, FedEx 2Day under code ES. *)
Lemma late_findings_are_sound_witness :
  exists f row n,
    In f (check_late_deliveries (RT := sample_runtime) [late_row])
    /\ In row [late_row]
    /\ late_delivery_of (RT := sample_runtime) row = Some f
    /\ expected_days_of (RT := sample_runtime) row = Some n
    /\ (n = 1 \/ n = 2)%Z.
Proof.
  assert (E : exists f, check_late_deliveries (RT := sample_runtime) [late_row] = [f])
    by (eexists; vm_compute; reflexivity).
  destruct E as (f & E).
  assert (Hin : In f (check_late_deliveries (RT := sample_runtime) [late_row]))
    by (rewrite E; left; reflexivity).
  destruct (late_findings_are_sound (RT := sample_runtime) [late_row] f Hin)
    as (row & n & ship & delivery & expected & Hrow & Hl & _ & Hn & H12 & _).
  exists f, row, n. auto.
Defined.

(** The finding of the late shipment, delivered 2024-01-04, read by the
    filter on 2024-01-19: the 15 days are not over. *)
Lemma late_finding_notes_are_read_back_witness :
  exists f,
    late_delivery_of (RT := sample_runtime) late_row = Some f
    /\ Re.search_group App.actual_prefix App.actual_group (notes f)
       = Some "2024-01-04"%string
    /\ App.status_of (RT := sample_runtime) (Calendar.timestamp_of_date 2024 1 19)
         (row_of_finding f) = App.within_window.
Proof.
  assert (E : exists f, late_delivery_of (RT := sample_runtime) late_row = Some f)
    by (eexists; vm_compute; reflexivity).
  destruct E as (f & E).
  assert (Hd : date_or (RT := sample_runtime) late_row
                 "Delivery Date" "Shipment Delivery Date (mm/dd/yyyy)"
               = Some (Calendar.timestamp_of_date 2024 1 4))
    by (vm_compute; reflexivity).
  assert (Hrange : (-719468 <= Calendar.day_of (Calendar.timestamp_of_date 2024 1 4)
                    <= 2932896)%Z)
    by (vm_compute; split; discriminate).
  destruct (late_finding_notes_are_read_back (RT := sample_runtime)
              (Calendar.timestamp_of_date 2024 1 19) late_row f
              (Calendar.timestamp_of_date 2024 1 4) E Hd Hrange)
    as (Htoken & _ & Hstatus).
  exists f. split; [exact E|]. split.
  - rewrite Htoken. vm_compute. reflexivity.
  - rewrite Hstatus. vm_compute. reflexivity.
Defined.


(** Three findings on 2024-02-01: the sizes of the frames add up to 3. *)
Lemma filing_window_is_a_partition_witness :
  exists w,
    App.filter_by_filing_window (RT := sample_runtime)
      (Calendar.timestamp_of_date 2024 2 1) claims_frame = Some w
    /\ (List.length (App.filtered_df w) + List.length (App.expired_df w)
        + List.length (App.missing_date_df w))%nat = 3%nat.
Proof.
  assert (E : exists w,
             App.filter_by_filing_window (RT := sample_runtime)
               (Calendar.timestamp_of_date 2024 2 1) claims_frame = Some w)
    by (eexists; vm_compute; reflexivity).
  destruct E as (w & E). exists w. split; [exact E|].
  exact (proj1 (filing_window_is_a_partition (RT := sample_runtime)
                  (Calendar.timestamp_of_date 2024 2 1) claims_frame w E)).
Defined.

(** The lost-package finding is expired on 2024-02-01 and still on
    2024-03-01. *)
Lemma expired_stays_expired_witness :
  exists w w',
    App.filter_by_filing_window (RT := sample_runtime)
      (Calendar.timestamp_of_date 2024 2 1) claims_frame = Some w
    /\ App.filter_by_filing_window (RT := sample_runtime)
         (Calendar.timestamp_of_date 2024 3 1) claims_frame = Some w'
    /\ In lost_claim (App.expired_df w)
    /\ In lost_claim (App.expired_df w').
Proof.
  assert (E : exists w,
             App.filter_by_filing_window (RT := sample_runtime)
               (Calendar.timestamp_of_date 2024 2 1) claims_frame = Some w
             /\ In lost_claim (App.expired_df w)).
  { eexists. split; [vm_compute; reflexivity|]. vm_compute. auto. }
  assert (E' : exists w',
             App.filter_by_filing_window (RT := sample_runtime)
               (Calendar.timestamp_of_date 2024 3 1) claims_frame = Some w')
    by (eexists; vm_compute; reflexivity).
  destruct E as (w & E & Hin). destruct E' as (w' & E').
  assert (Hle : (Calendar.timestamp_of_date 2024 2 1
                 <= Calendar.timestamp_of_date 2024 3 1)%Z)
    by (vm_compute; discriminate).
  exists w, w'. split; [exact E|]. split; [exact E'|]. split; [exact Hin|].
  exact (proj1 (expired_stays_expired (RT := sample_runtime) _ _ claims_frame w w'
                  lost_claim Hle E E') Hin).
Defined.

(** The text (12.50) is handed to [float] as -12.50. *)
Lemma parenthesised_amount_is_negative_witness :
  cell_amount (RT := sample_runtime) (CStr "(12.50)")
  = float_of_str (Runtime := sample_runtime) "-12.50".
Proof.
  exact (proj1 (parenthesised_amount_is_negative (RT := sample_runtime)
                  "12.50" eq_refl)).
Defined.

(** A 20x15x10 in, 10 lb package: both arms dispute. *)
Lemma handling_dispute_implies_oversize_dispute_witness :
  exists d d',
    additional_handling_arm (RT := sample_runtime)
      (package_of (package_row 20 15 10 10)) (money 1200) = Some d
    /\ oversize_arm (RT := sample_runtime)
         (package_of (package_row 20 15 10 10)) (money 2500) = Some d'
    /\ refund d' = money 2500.
Proof.
  assert (E : exists d,
             additional_handling_arm (RT := sample_runtime)
               (package_of (package_row 20 15 10 10)) (money 1200) = Some d)
    by (eexists; vm_compute; reflexivity).
  destruct E as (d & E).
  destruct (handling_dispute_implies_oversize_dispute (RT := sample_runtime)
              _ (money 1200) (money 2500) d E) as (_ & d' & Hd' & Hr & _).
  exists d, d'. auto.
Defined.

(** The duplicate of the two $50 lines stays among the claims. *)
Lemma core_findings_are_actionable_witness :
  exists duplicate,
    check_duplicate_tracking (RT := sample_runtime) equal_lines = Some duplicate
    /\ map claim_finding
         (get_actionable_errors
            (check_late_deliveries (RT := sample_runtime) equal_lines ++ duplicate))
       = check_late_deliveries (RT := sample_runtime) equal_lines ++ duplicate.
Proof.
  assert (E : exists duplicate,
             check_duplicate_tracking (RT := sample_runtime) equal_lines = Some duplicate)
    by (eexists; vm_compute; reflexivity).
  destruct E as (duplicate & E). exists duplicate. split; [exact E|].
  exact (proj1 (core_findings_are_actionable (RT := sample_runtime)
                  equal_lines duplicate E)).
Defined.

(** A refund of 42.50 is of medium priority. *)
Lemma claim_priority_by_refund_witness :
  exists c,
    In c (get_actionable_errors [medium_finding])
    /\ In (claim_finding c) [medium_finding]
    /\ claim_priority c = "Medium"%string.
Proof.
  assert (E : exists c, get_actionable_errors [medium_finding] = [c]
                        /\ claim_finding c = medium_finding)
    by (eexists; split; reflexivity).
  destruct E as (c & E & Hc).
  assert (Hin : In c (get_actionable_errors [medium_finding]))
    by (rewrite E; left; reflexivity).
  destruct (claim_priority_by_refund [medium_finding] c Hin) as (Hf & _ & Hp).
  exists c. split; [exact Hin|]. split; [exact Hf|].
  rewrite Hc in Hp. cbn [refund_estimate medium_finding] in Hp.
  destruct Hp as (_ & _ & Hmed).
  apply Hmed; vm_compute; [discriminate | reflexivity].
Defined.


(** A fuel and a residential entry: no duplicate. *)
Lemma distinct_surcharges_no_duplicate_witness :
  duplicate_surcharge_findings (RT := sample_runtime) late_row fuel_and_residential = [].
Proof.
  apply (distinct_surcharges_no_duplicate (RT := sample_runtime)).
  constructor; [|constructor; [intros [] | constructor]].
  intros [H|[]]. discriminate H.
Defined.


(** The pair of the specification, in either order. *)
Lemma return_pair_is_symmetric_witness :
  _is_original_plus_return_pair (RT := sample_runtime)
    [service_line "International Ground"; service_line "Ground Return Manager"]
  = _is_original_plus_return_pair (RT := sample_runtime)
      [service_line "Ground Return Manager"; service_line "International Ground"].
Proof.
  apply (return_pair_is_symmetric (RT := sample_runtime)).
  intro col. unfold row_has, service_line. cbn [row_get].
  repeat (destruct (String.eqb _ col); [reflexivity|]). reflexivity.
Defined.

(** $12 of Additional Handling and $3 of Peak Additional Handling on one
    row: reported as a duplicate surcharge. *)
Lemma peak_handling_column_counts_twice_witness :
  exists f,
    In f (duplicate_surcharge_findings (RT := sample_runtime) both_handling_row
            (indiv_surcharges both_handling_row))
    /\ is_duplicate_surcharge f = true.
Proof.
  assert (Ha : ~ money 1200 == 0) by (intro H; vm_compute in H; discriminate H).
  assert (Hb : ~ money 300 == 0) by (intro H; vm_compute in H; discriminate H).
  destruct (peak_handling_column_counts_twice (RT := sample_runtime) both_handling_row
              (money 1200) (money 300) eq_refl eq_refl Ha Hb)
    as (_ & f & Hin & Hdup & _).
  exists f. split; assumption.
Defined.

